(** * ImageSlimTransformers: crop, scale, mean and transpose transforms

    A shallow embedding of
    [Source/Readers/ImageReader/ImageSlimTransformers.cpp] and the
    properties its specification states about it.

    Conventions of the embedding:
    - a C++ [int] is a [Z] kept in the 32-bit range by [int_wrap];
      a [size_t] is a [Z] reduced modulo [2^64] by [size_wrap];
    - a C++ [double] is a [spec_float] at precision 53 and maximal
      exponent 1024 (IEEE 754 binary64), with the operations of the
      Standard Library's [SpecFloat];
    - an exception is a value of [exception]; a function that may throw
      returns a [result];
    - [assert] aborts in a build without [NDEBUG] and does nothing in a
      build with it: the code is parameterised by the flag [NDEBUG];
    - the random engine, its distributions and the numeric kernels of
      OpenCV are interfaces ([RandomLib], [OpenCV]). *)

From Stdlib Require Import ZArith Lia String Ascii Bool QArith Qround.
From Stdlib Require Import Floats.SpecFloat.
From stdpp Require Import base list list_numbers.

Local Open Scope string_scope.
Local Open Scope Z_scope.

(** ** Exceptions and results *)

Inductive exception : Type :=
| LogicError (msg : string)
| RuntimeError (msg : string)
| InvalidArgument (msg : string)
| AssertionFailure
| CvException.

Inductive result (A : Type) : Type :=
| Ok (a : A)
| Throw (e : exception).

Arguments Ok {A} a.
Arguments Throw {A} e.

(** ** Machine integers *)

Definition INT_MIN : Z := - 2 ^ 31.
Definition INT_MAX : Z := 2 ^ 31 - 1.

Definition is_int (z : Z) : Prop := INT_MIN <= z <= INT_MAX.

Definition in_int_range (z : Z) : bool := (INT_MIN <=? z) && (z <=? INT_MAX).

(** Two's complement reduction to 32 bits. *)
Definition int_wrap (z : Z) : Z := (z + 2 ^ 31) mod 2 ^ 32 - 2 ^ 31.

Definition int_sub (a b : Z) : Z := int_wrap (a - b).

(** [/] and [%] on [int] truncate towards zero. *)
Definition int_div (a b : Z) : Z := int_wrap (Z.quot a b).
Definition int_rem (a b : Z) : Z := Z.rem a b.

Definition SIZE_MAX : Z := 2 ^ 64 - 1.
Definition size_wrap (z : Z) : Z := z mod 2 ^ 64.
Definition size_mul (a b : Z) : Z := size_wrap (a * b).
Definition size_add (a b : Z) : Z := size_wrap (a + b).

(** ** Doubles *)

Definition double : Type := spec_float.

Definition is_double (x : double) : Prop := valid_binary 53 1024 x = true.

Definition d_zero : double := S754_zero false.
Definition d_one : double := S754_finite false 4503599627370496 (-52).
Definition d_half : double := S754_finite false 4503599627370496 (-53).
Definition d_one_and_half : double := S754_finite false 6755399441055744 (-52).
(** The double nearest to one third, [0x3FD5555555555555]. *)
Definition d_third : double := S754_finite false 6004799503160661 (-54).

Definition d_mul (x y : double) : double := SFmul 53 1024 x y.
Definition d_ltb (x y : double) : bool := SFltb x y.
Definition d_leb (x y : double) : bool := SFleb x y.
Definition d_eqb (x y : double) : bool := SFeqb x y.

(** Conversion [int -> double]: exact, every [int] fits in 53 bits. *)
Definition int_to_double (z : Z) : double := binary_normalize 53 1024 z 0 false.

(** The integer part of a finite double, rounded towards zero. *)
Definition d_trunc (x : double) : option Z :=
  match x with
  | S754_zero _ => Some 0
  | S754_finite s m e =>
      Some (cond_Zopp s (if 0 <=? e then Zpos m * 2 ^ e else Zpos m / 2 ^ (- e)))
  | _ => None
  end.

(** [static_cast<int>(x)]: truncation.  Out of the range of [int], and on
    NaN and the infinities, the standard leaves the result undefined; the
    conversion instruction of the target yields [INT_MIN] there. *)
Definition double_to_int (x : double) : Z :=
  match d_trunc x with
  | Some t => if in_int_range t then t else INT_MIN
  | None => INT_MIN
  end.

(** The rational value of a finite double, to state properties with. *)
Definition SF2Q (x : double) : option Q :=
  match x with
  | S754_zero _ => Some (0 # 1)%Q
  | S754_finite s m e =>
      Some (if 0 <=? e then (cond_Zopp s (Zpos m * 2 ^ e) # 1)%Q
            else (cond_Zopp s (Zpos m) # Z.to_pos (2 ^ (- e)))%Q)
  | _ => None
  end.

Definition d_floor (x : double) : option Z := option_map Qfloor (SF2Q x).

(** ** Strings *)

(** [std::tolower] in the "C" locale. *)
Definition tolower (c : ascii) : ascii :=
  let n := nat_of_ascii c in
  if ((65 <=? n) && (n <=? 90))%nat then ascii_of_nat (n + 32) else c.

Fixpoint to_lower (s : string) : string :=
  match s with
  | EmptyString => EmptyString
  | String c rest => String (tolower c) (to_lower rest)
  end.

(** Modelled from the spec: [AreEqualIgnoreCase] of [StringUtil.h], which
    is not among the sources: two strings are equal ignoring case when
    they have the same length and agree character by character after
    [tolower]. *)
Fixpoint AreEqualIgnoreCase (s1 s2 : string) : bool :=
  match s1, s2 with
  | EmptyString, EmptyString => true
  | String c1 r1, String c2 r2 =>
      Ascii.eqb (tolower c1) (tolower c2) && AreEqualIgnoreCase r1 r2
  | _, _ => false
  end.

Definition string_empty (s : string) : bool :=
  match s with EmptyString => true | _ => false end.

(** ** The random number library

    [std::mt19937] and the distributions the code draws from.  The laws
    are the ranges the C++ standard gives the distributions. *)

Class RandomLib : Type := {
  mt19937 : Type;
  mt19937_seed : Z -> mt19937;
  (** [std::uniform_int_distribution<int>(a, b)(rng)] *)
  UniIntT : Z -> Z -> mt19937 -> Z * mt19937;
  (** [std::uniform_real_distribution<double>(a, b)(rng)] *)
  UniRealT : double -> double -> mt19937 -> double * mt19937;
  (** [std::bernoulli_distribution()(rng)], a fair coin *)
  bernoulli_distribution : mt19937 -> bool * mt19937;
  UniIntT_range : forall a b g, a <= b -> a <= fst (UniIntT a b g) <= b;
  UniRealT_range : forall a b g,
    is_double a -> is_double b -> d_ltb a b = true ->
    is_double (fst (UniRealT a b g)) /\
    d_leb a (fst (UniRealT a b g)) = true /\
    d_ltb (fst (UniRealT a b g)) b = true
}.

(** ** OpenCV

    The element type of the image buffers and the numeric kernels the
    transforms call.  What the kernels compute is OpenCV's business;
    the shapes they produce are modelled below. *)

Class OpenCV : Type := {
  elt : Type;
  elt_zero : elt;
  (** one element of [a - b] *)
  elt_sub : elt -> elt -> elt;
  (** one element of [convertTo], from a depth to a depth *)
  elt_convert : Z -> Z -> elt -> elt;
  (** the pixels [cv::resize] computes:
      [resize_data interpolation rows cols channels data newcols newrows] *)
  resize_data : Z -> Z -> Z -> Z -> list elt -> Z -> Z -> list elt
}.

Definition CV_8U : Z := 0.
Definition CV_32F : Z := 5.
Definition CV_64F : Z := 6.

Definition CV_MAKETYPE (depth cn : Z) : Z :=
  Z.land depth 7 + Z.shiftl (cn - 1) 3.

Definition INTER_NEAREST : Z := 0.
Definition INTER_LINEAR : Z := 1.
Definition INTER_CUBIC : Z := 2.
Definition INTER_LANCZOS4 : Z := 4.

Record Rect : Type := mkRect {
  rect_x : Z;
  rect_y : Z;
  rect_width : Z;
  rect_height : Z
}.

Section Mat.
Context {cv : OpenCV}.

(** A [cv::Mat] with two dimensions: its header and its elements in
    row-major order, the channels of a pixel next to each other. *)
Record Mat : Type := mkMat {
  mat_rows : Z;
  mat_cols : Z;
  mat_depth : Z;
  mat_channels : Z;
  mat_continuous : bool;
  mat_data : list elt
}.

Definition mat_size (m : Mat) : Z * Z := (mat_cols m, mat_rows m).
Definition mat_type (m : Mat) : Z := CV_MAKETYPE (mat_depth m) (mat_channels m).

Definition size_eqb (a b : Z * Z) : bool :=
  (fst a =? fst b) && (snd a =? snd b).

(** A released matrix: [size() == Size(0, 0)], one channel of [CV_8U]. *)
Definition mat_released : Mat := mkMat 0 0 CV_8U 1 true [].

(** Element [k] of pixel [(r, c)]. *)
Definition mat_at (m : Mat) (r c k : Z) : elt :=
  default elt_zero
    (mat_data m !! Z.to_nat ((r * mat_cols m + c) * mat_channels m + k)).

Definition mat_build (rows cols channels : Z) (f : Z -> Z -> Z -> elt) : list elt :=
  r ← seqZ 0 rows; c ← seqZ 0 cols; k ← seqZ 0 channels; [f r c k].

(** [m(roi)]: the view of [m] on a rectangle.  OpenCV checks that the
    rectangle lies in the matrix; an empty rectangle gives a matrix of
    size 0 x 0 of the same type.  The view is continuous when it has one
    row, or spans the full width of a continuous matrix. *)
Definition cv_roi (m : Mat) (roi : Rect) : result Mat :=
  if (0 <=? rect_x roi) && (0 <=? rect_width roi) &&
     (rect_x roi + rect_width roi <=? mat_cols m) &&
     (0 <=? rect_y roi) && (0 <=? rect_height roi) &&
     (rect_y roi + rect_height roi <=? mat_rows m)
  then
    if (rect_height roi <=? 0) || (rect_width roi <=? 0)
    then Ok (mkMat 0 0 (mat_depth m) (mat_channels m) true [])
    else Ok (mkMat (rect_height roi) (rect_width roi)
               (mat_depth m) (mat_channels m)
               ((rect_height roi <=? 1) ||
                (mat_continuous m && (rect_width roi =? mat_cols m)))
               (mat_build (rect_height roi) (rect_width roi) (mat_channels m)
                  (fun r c k => mat_at m (rect_y roi + r) (rect_x roi + c) k)))
  else Throw CvException.

(** [cv::flip(m, m, 1)]: mirror around the vertical axis. *)
Definition cv_flip_horizontal (m : Mat) : Mat :=
  mkMat (mat_rows m) (mat_cols m) (mat_depth m) (mat_channels m)
    (mat_continuous m)
    (mat_build (mat_rows m) (mat_cols m) (mat_channels m)
       (fun r c k => mat_at m r (mat_cols m - 1 - c) k)).

(** [a - b] on matrices: array minus array, for two arrays of the same
    size and type; anything else raises [cv::Exception]. *)
Definition cv_subtract (a b : Mat) : result Mat :=
  if size_eqb (mat_size a) (mat_size b) && (mat_type a =? mat_type b)
  then Ok (mkMat (mat_rows a) (mat_cols a) (mat_depth a) (mat_channels a)
             (mat_continuous a)
             (zip_with elt_sub (mat_data a) (mat_data b)))
  else Throw CvException.

(** [m.convertTo(m, rtype)]: only the depth of [rtype] counts.  With
    the depth unchanged it is a copy onto itself. *)
Definition cv_convertTo (m : Mat) (rtype : Z) : Mat :=
  let d := Z.land rtype 7 in
  if d =? mat_depth m then m
  else mkMat (mat_rows m) (mat_cols m) d (mat_channels m) true
         (elt_convert (mat_depth m) d <$> mat_data m).

(** [cv::resize(m, m, Size(w, h), 0, 0, interpolation)]: a fresh
    matrix of [h] rows and [w] columns with the type of the source.
    OpenCV rejects an empty source and an empty target size. *)
Definition cv_resize (m : Mat) (w h interpolation : Z) : result Mat :=
  if (mat_rows m <=? 0) || (mat_cols m <=? 0) || (w <=? 0) || (h <=? 0)
  then Throw CvException
  else Ok (mkMat h w (mat_depth m) (mat_channels m) true
             (resize_data interpolation (mat_rows m) (mat_cols m)
                (mat_channels m) (mat_data m) w h)).
End Mat.

(** ** The reader framework

    Types the transforms receive from the reader; their declarations are
    in headers outside this file. *)

Inductive StorageType : Type := dense | sparse_csc.

Inductive ElementType : Type := tfloat | tdouble | tatom.

Definition StorageType_eqb (a b : StorageType) : bool :=
  match a, b with
  | dense, dense | sparse_csc, sparse_csc => true
  | _, _ => false
  end.

(** Modelled from the spec: [GetSizeByType] of [ElementTypeUtils.h], the
    width in bytes of an element. *)
Definition GetSizeByType (t : ElementType) : Z :=
  match t with
  | tfloat => 4
  | tdouble => 8
  | tatom => 1
  end.

(** A tensor shape: the list of its dimensions. *)
Definition TensorShape : Type := list Z.

Definition GetNumElements (shape : TensorShape) : Z :=
  foldr size_mul 1 shape.

Inductive ImageLayoutKind : Type := HWC | CHW.

Record ImageDimensions : Type := mkImageDimensions {
  m_width : Z;
  m_height : Z;
  m_numChannels : Z
}.

(** Modelled from the spec: the geometry helpers, which read a shape of
    rank three as an image in a named layout and back.  In the
    interleaved layout [HWC] the channel is the first (fastest)
    dimension, in the planar layout [CHW] the last. *)
Definition ImageDimensions_of (shape : TensorShape) (kind : ImageLayoutKind)
  : result ImageDimensions :=
  match shape, kind with
  | [d0; d1; d2], CHW => Ok (mkImageDimensions d0 d1 d2)
  | [d0; d1; d2], HWC => Ok (mkImageDimensions d1 d2 d0)
  | _, _ => Throw (InvalidArgument "Convolution operation currently only supports 1D or 2D convolution on 3D tensors.")
  end.

Definition AsTensorShape (d : ImageDimensions) (kind : ImageLayoutKind) : TensorShape :=
  match kind with
  | CHW => [m_width d; m_height d; m_numChannels d]
  | HWC => [m_numChannels d; m_width d; m_height d]
  end.

Record StreamDescription : Type := mkStreamDescription {
  m_storageType : StorageType;
  m_elementType : ElementType;
  m_sampleLayout : TensorShape
}.

(** Modelled from the spec: the pool of generators [conc_stack] of
    [ConcStack.h], as one thread sees it: a stack. *)
Definition pop_or_create {A : Type} (factory : unit -> A) (stack : list A) : A * list A :=
  match stack with
  | top :: rest => (top, rest)
  | [] => (factory tt, [])
  end.

Definition push {A : Type} (a : A) (stack : list A) : list A := a :: stack.

(** Modelled from the spec: [argvector::operator[]] of the configuration
    library: an index past the end reads the last element. *)
Fixpoint argvector_get {A : Type} (first : A) (rest : list A) (i : nat) : A :=
  match i, rest with
  | O, _ => first
  | S _, [] => first
  | S j, x :: rest' => argvector_get x rest' j
  end.

(** ** The crop transform: types and configuration *)

Module CropType.
Inductive t : Type := Center | Random | MultiView10.

Definition eqb (a b : t) : bool :=
  match a, b with
  | Center, Center | Random, Random | MultiView10, MultiView10 => true
  | _, _ => false
  end.
End CropType.

Module RatioJitterType.
Inductive t : Type := None | UniRatio | UniLength | UniArea.
End RatioJitterType.

(** The keys of [ConfigParameters] the crop transform reads.  [None] is
    an absent key; the crop ratio is the parsed vector, never empty. *)
Record CropConfig : Type := mkCropConfig {
  cfg_seed : option Z;
  cfg_cropType : option string;
  cfg_cropRatio : option (double * list double);
  cfg_jitterType : option string;
  cfg_hflip : option bool
}.

(** The members of the base class [SlimImageTransformerBase]; the
    stream descriptions are unset until the shape negotiation. *)
Record SlimImageTransformerBase : Type := mkSlimImageTransformerBase {
  m_seed : Z;
  m_inputStream : option StreamDescription;
  m_outputStream : option StreamDescription;
  m_imageElementType : Z
}.

(** The constructor of the base class (lines 28-31). *)
Definition SlimImageTransformerBase_new (seed : option Z) : SlimImageTransformerBase :=
  mkSlimImageTransformerBase (default 0 seed) None None 0.

Definition GetSeed (b : SlimImageTransformerBase) : Z := m_seed b.

Record SlimCropTransformer : Type := mkSlimCropTransformer {
  crop_base : SlimImageTransformerBase;
  m_cropType : CropType.t;
  m_cropRatioMin : double;
  m_cropRatioMax : double;
  m_jitterType : RatioJitterType.t;
  m_hFlip : bool
}.

(** [ParseCropType] (lines 162-180). *)
Definition ParseCropType (src : string) : result CropType.t :=
  if string_empty src || AreEqualIgnoreCase src "center" then Ok CropType.Center
  else if AreEqualIgnoreCase src "random" then Ok CropType.Random
  else if AreEqualIgnoreCase src "multiview10" then Ok CropType.MultiView10
  else Throw (RuntimeError ("Invalid crop type: " ++ src ++ ".")).

(** [ParseJitterType] (lines 182-205). *)
Definition ParseJitterType (src : string) : result RatioJitterType.t :=
  if string_empty src || AreEqualIgnoreCase src "none" then Ok RatioJitterType.None
  else if AreEqualIgnoreCase src "uniratio" then Ok RatioJitterType.UniRatio
  else if AreEqualIgnoreCase src "unilength" then Ok RatioJitterType.UniLength
  else if AreEqualIgnoreCase src "uniarea" then Ok RatioJitterType.UniArea
  else Throw (RuntimeError ("Invalid jitter type: " ++ src ++ ".")).

(** The constructor (lines 92-118).  The default of [cropRatio] is the
    vector of the one value [1.0]. *)
Definition SlimCropTransformer_new (config : CropConfig) : result SlimCropTransformer :=
  let base := SlimImageTransformerBase_new (cfg_seed config) in
  match ParseCropType (default "" (cfg_cropType config)) with
  | Throw e => Throw e
  | Ok cropType =>
      let cropRatio := default (d_one, []) (cfg_cropRatio config) in
      let cropRatioMin := argvector_get (fst cropRatio) (snd cropRatio) 0 in
      let cropRatioMax := argvector_get (fst cropRatio) (snd cropRatio) 1 in
      if negb (d_ltb d_zero cropRatioMin && d_leb cropRatioMin d_one) ||
         negb (d_ltb d_zero cropRatioMax && d_leb cropRatioMax d_one) ||
         d_ltb cropRatioMax cropRatioMin
      then Throw (RuntimeError "Invalid cropRatio value, must be > 0 and <= 1. cropMin must <= cropMax")
      else
        match ParseJitterType (default "" (cfg_jitterType config)) with
        | Throw e => Throw e
        | Ok jitterType =>
            let hFlip :=
              match cfg_hflip config with
              | None => CropType.eqb cropType CropType.Random
              | Some b => b
              end in
            Ok (mkSlimCropTransformer base cropType cropRatioMin cropRatioMax
                  jitterType hFlip)
        end
  end.

(** Shape negotiation of the base class (lines 33-57).  The members are
    assigned before the checks, so they are set also when it throws. *)
Definition SlimImageTransformerBase_Transform (b : SlimImageTransformerBase)
    (inputStream : StreamDescription)
  : result StreamDescription * SlimImageTransformerBase :=
  let b1 := mkSlimImageTransformerBase (m_seed b) (Some inputStream)
              (Some inputStream) (m_imageElementType b) in
  if negb (StorageType_eqb (m_storageType inputStream) dense)
  then (Throw (LogicError "ImageTransformerBase supports only dense input streams."), b1)
  else
    match m_elementType inputStream with
    | tdouble =>
        (Ok inputStream,
         mkSlimImageTransformerBase (m_seed b) (Some inputStream) (Some inputStream) CV_64F)
    | tfloat =>
        (Ok inputStream,
         mkSlimImageTransformerBase (m_seed b) (Some inputStream) (Some inputStream) CV_32F)
    | _ => (Throw (RuntimeError "Unsupported type"), b1)
    end.

(** ** The scale transform: configuration and constructor *)

Record ScaleConfig : Type := mkScaleConfig {
  scfg_seed : option Z;
  scfg_width : Z;
  scfg_height : Z;
  scfg_channels : Z;
  scfg_interpolations : option string
}.

Record SlimScaleTransformer : Type := mkSlimScaleTransformer {
  scale_base : SlimImageTransformerBase;
  m_imgWidth : Z;
  m_imgHeight : Z;
  m_imgChannels : Z;
  m_interp : list Z
}.

(** [m_interpMap]: the names of the interpolation kernels. *)
Definition m_interpMap (token : string) : option Z :=
  if String.eqb token "nearest" then Some INTER_NEAREST
  else if String.eqb token "linear" then Some INTER_LINEAR
  else if String.eqb token "cubic" then Some INTER_CUBIC
  else if String.eqb token "lanczos" then Some INTER_LANCZOS4
  else None.

(** The tokens [std::getline(ss, token, ':')] reads one after another. *)
Fixpoint getline_tokens (s : string) : list string :=
  match s with
  | EmptyString => []
  | String c rest =>
      if Ascii.eqb c ":"%char then EmptyString :: getline_tokens rest
      else match getline_tokens rest with
           | [] => [String c EmptyString]
           | t :: ts => String c t :: ts
           end
  end.

(** The constructor (lines 275-304). *)
Definition SlimScaleTransformer_new (config : ScaleConfig) : result SlimScaleTransformer :=
  let base := SlimImageTransformerBase_new (scfg_seed config) in
  let cfeat := size_mul (size_mul (scfg_width config) (scfg_height config))
                 (scfg_channels config) in
  if (cfeat =? 0) || (SIZE_MAX / 2 <? cfeat)
  then Throw (RuntimeError "Invalid image dimensions.")
  else
    let interp :=
      omap (fun token => m_interpMap (to_lower token))
        (getline_tokens (default "" (scfg_interpolations config))) in
    Ok (mkSlimScaleTransformer base (scfg_width config) (scfg_height config)
          (scfg_channels config)
          (match interp with [] => [INTER_LINEAR] | _ => interp end)).

(** ** The code that asserts, draws random numbers or touches images *)

Section Code.
Variable NDEBUG : bool.
Context {rnd : RandomLib} {cv : OpenCV}.

(** Computations that use the generator borrowed from the pool and may
    throw. *)
Definition Rng (A : Type) : Type := mt19937 -> result A * mt19937.

Definition ret {A : Type} (a : A) : Rng A := fun g => (Ok a, g).

Definition throw {A : Type} (e : exception) : Rng A := fun g => (Throw e, g).

Definition bind {A B : Type} (m : Rng A) (k : A -> Rng B) : Rng B :=
  fun g =>
    match m g with
    | (Ok a, g') => k a g'
    | (Throw e, g') => (Throw e, g')
    end.

Definition draw {A : Type} (d : mt19937 -> A * mt19937) : Rng A :=
  fun g => (Ok (fst (d g)), snd (d g)).

Definition lift {A : Type} (r : result A) : Rng A := fun g => (r, g).

Definition assert_ (c : bool) : Rng unit :=
  if NDEBUG || c then ret tt else throw AssertionFailure.

Notation "'do' x <- m ; k" := (bind m (fun x => k))
  (at level 10, x name, m at level 100, k at level 200).
Notation "'check' c ; k" := (bind (assert_ c) (fun _ => k))
  (at level 10, c at level 100, k at level 200).

(** [GetCropRect] (lines 207-271). *)
Definition GetCropRect (type : CropType.t) (viewIndex crow ccol : Z)
    (cropRatio : double) : Rng Rect :=
  check (0 <? crow);
  check (0 <? ccol);
  check (d_ltb d_zero cropRatio && d_leb cropRatio d_one);
  let cropSize := double_to_int (d_mul (int_to_double (Z.min crow ccol)) cropRatio) in
  do off <-
    match type with
    | CropType.Center =>
        check (viewIndex =? 0);
        ret (int_div (int_sub ccol cropSize) 2, int_div (int_sub crow cropSize) 2)
    | CropType.Random =>
        check (viewIndex =? 0);
        do xOff <- draw (UniIntT 0 (int_sub ccol cropSize));
        do yOff <- draw (UniIntT 0 (int_sub crow cropSize));
        ret (xOff, yOff)
    | CropType.MultiView10 =>
        check ((0 <=? viewIndex) && (viewIndex <? 10));
        let isubView := int_rem viewIndex 5 in
        ret (match isubView with
             | 0 => (0, 0)
             | 1 => (int_sub ccol cropSize, 0)
             | 2 => (0, int_sub crow cropSize)
             | 3 => (int_sub ccol cropSize, int_sub crow cropSize)
             | 4 => (int_div (int_sub ccol cropSize) 2,
                     int_div (int_sub crow cropSize) 2)
             | _ => (-1, -1)
             end)
    end;
  let xOff := fst off in
  let yOff := snd off in
  check ((0 <=? xOff) && (xOff <=? int_sub ccol cropSize));
  check ((0 <=? yOff) && (yOff <=? int_sub crow cropSize));
  ret (mkRect xOff yOff cropSize cropSize).

(** What one call of the crop transform decided, next to the image it
    produced. *)
Record CropTrace : Type := mkCropTrace {
  trace_ratio : double;
  trace_viewIndex : Z;
  trace_rect : Rect;
  trace_flip : bool;
  trace_mat : Mat
}.

(** The [switch] on the jitter type in [SlimCropTransformer::Apply]
    (lines 129-148): the ratio of this sample. *)
Definition jitter_ratio (t : SlimCropTransformer) : Rng double :=
  match m_jitterType t with
  | RatioJitterType.None => ret (m_cropRatioMin t)
  | RatioJitterType.UniRatio =>
      if d_eqb (m_cropRatioMin t) (m_cropRatioMax t)
      then ret (m_cropRatioMin t)
      else
        do ratio <- draw (UniRealT (m_cropRatioMin t) (m_cropRatioMax t));
        check (d_leb (m_cropRatioMin t) ratio && d_ltb ratio (m_cropRatioMax t));
        ret ratio
  | _ => throw (RuntimeError "Jitter type currently not implemented.")
  end.

(** The body of [SlimCropTransformer::Apply] between the borrowing and
    the return of the generator (lines 129-157). *)
Definition SlimCropTransformer_Apply_body (t : SlimCropTransformer) (id : Z)
    (mat : Mat) : Rng CropTrace :=
  do ratio <- jitter_ratio t;
  let viewIndex :=
    if CropType.eqb (m_cropType t) CropType.MultiView10
    then int_wrap (size_wrap id mod 10) else 0 in
  do rect <- GetCropRect (m_cropType t) viewIndex (mat_rows mat) (mat_cols mat) ratio;
  do cropped <- lift (cv_roi mat rect);
  do flip <-
    (if m_hFlip t
     then do coin <- draw bernoulli_distribution; ret (coin || (5 <=? viewIndex))
     else ret (5 <=? viewIndex));
  ret (mkCropTrace ratio viewIndex rect flip
         (if flip then cv_flip_horizontal cropped else cropped)).

(** Borrow a generator from the pool, run, give it back.  When the body
    throws, the generator is gone with the stack frame. *)
Definition with_rng {A : Type} (seed : Z) (body : Rng A) (m_rngs : list mt19937)
  : result A * list mt19937 :=
  let (rng, rest) := pop_or_create (fun _ => mt19937_seed seed) m_rngs in
  match body rng with
  | (Ok a, rng') => (Ok a, push rng' rest)
  | (Throw e, _) => (Throw e, rest)
  end.

Definition SlimCropTransformer_Apply_trace (t : SlimCropTransformer) (id : Z)
    (mat : Mat) (m_rngs : list mt19937) : result CropTrace * list mt19937 :=
  with_rng (GetSeed (crop_base t)) (SlimCropTransformer_Apply_body t id mat) m_rngs.

Definition map_result {A B : Type} (f : A -> B) (r : result A) : result B :=
  match r with
  | Ok a => Ok (f a)
  | Throw e => Throw e
  end.

(** [SlimCropTransformer::Apply] (lines 120-160). *)
Definition SlimCropTransformer_Apply (t : SlimCropTransformer) (id : Z)
    (mat : Mat) (m_rngs : list mt19937) : result Mat * list mt19937 :=
  let r := SlimCropTransformer_Apply_trace t id mat m_rngs in
  (map_result trace_mat (fst r), snd r).

(** [SlimScaleTransformer::Apply] (lines 306-333). *)
Definition SlimScaleTransformer_Apply (t : SlimScaleTransformer) (id : Z)
    (mat : Mat) (m_rngs : list mt19937) : result Mat * list mt19937 :=
  let elementType := m_imageElementType (scale_base t) in
  let mat1 :=
    if negb (mat_type mat =? CV_MAKETYPE elementType (m_imgChannels t))
    then cv_convertTo mat elementType else mat in
  with_rng (GetSeed (scale_base t))
    (do index <- draw (UniIntT 0 (int_sub (int_wrap (Z.of_nat (length (m_interp t)))) 1));
     check (0 <? Z.of_nat (length (m_interp t)));
     lift (cv_resize mat1 (int_wrap (m_imgWidth t)) (int_wrap (m_imgHeight t))
             (default 0 (m_interp t !! Z.to_nat index))))
    m_rngs.

(** ** The mean transform *)

(** The constructor reads the mean image from a file; the transform
    keeps the image, released when no file is configured. *)
Record SlimMeanTransformer : Type := mkSlimMeanTransformer {
  mean_base : SlimImageTransformerBase;
  m_meanImg : Mat
}.

(** The constructor without a mean file (lines 339-341): the mean image
    is released. *)
Definition SlimMeanTransformer_new_without_file (seed : option Z) : SlimMeanTransformer :=
  mkSlimMeanTransformer (SlimImageTransformerBase_new seed) mat_released.

(** [SlimMeanTransformer::Apply] (lines 365-377). *)
Definition SlimMeanTransformer_Apply (t : SlimMeanTransformer) (id : Z) (mat : Mat)
  : result Mat :=
  if negb (NDEBUG ||
           (size_eqb (mat_size (m_meanImg t)) (0, 0) ||
            (size_eqb (mat_size (m_meanImg t)) (mat_size mat) &&
             (mat_channels (m_meanImg t) =? mat_channels mat))))
  then Throw AssertionFailure
  else if size_eqb (mat_size (m_meanImg t)) (mat_size mat)
       then cv_subtract mat (m_meanImg t)
       else Ok mat.

(** ** Samples *)

(** A dense sequence as the transforms receive it. *)
Record DenseSequenceData : Type := mkDenseSequenceData {
  m_id : Z;
  m_numberOfSamples : Z;
  seq_sampleLayout : TensorShape;
  m_data : list elt
}.

(** [ImageSequenceData]: what the image transforms return.  [m_original]
    keeps the input alive when the buffer was not copied. *)
Record ImageSequenceData : Type := mkImageSequenceData {
  img_numberOfSamples : Z;
  img_sampleLayout : TensorShape;
  img_data : list elt;
  m_image : Mat;
  m_original : option DenseSequenceData
}.

(** [cv::Mat(rows, columns, type, data)]: a header on the data. *)
Definition cv_Mat_on (rows columns type : Z) (data : list elt) : Mat :=
  mkMat rows columns (Z.land type 7) (Z.land (Z.shiftr type 3) 511 + 1) true data.

Definition cv_clone (m : Mat) : Mat :=
  mkMat (mat_rows m) (mat_cols m) (mat_depth m) (mat_channels m) true (mat_data m).

(** [SlimImageTransformerBase::Transform(SequenceDataPtr)] (lines 59-88);
    [Apply] is the virtual method of the transform at hand. *)
Definition SlimImageTransformerBase_Transform_sequence
    (b : SlimImageTransformerBase)
    (Apply : Z -> Mat -> list mt19937 -> result Mat * list mt19937)
    (sequence : DenseSequenceData) (m_rngs : list mt19937)
  : result ImageSequenceData * list mt19937 :=
  match ImageDimensions_of (seq_sampleLayout sequence) HWC with
  | Throw e => (Throw e, m_rngs)
  | Ok dimensions =>
      let columns := int_wrap (m_width dimensions) in
      let rows := int_wrap (m_height dimensions) in
      let channels := int_wrap (m_numChannels dimensions) in
      let type := CV_MAKETYPE (m_imageElementType b) channels in
      let buffer := cv_Mat_on rows columns type (m_data sequence) in
      match Apply (m_id sequence) buffer m_rngs with
      | (Throw e, m_rngs') => (Throw e, m_rngs')
      | (Ok buffer1, m_rngs') =>
          let buffer2 := if negb (mat_continuous buffer1) then cv_clone buffer1 else buffer1 in
          let original := if negb (mat_continuous buffer1) then None else Some sequence in
          if negb (NDEBUG || mat_continuous buffer2)
          then (Throw AssertionFailure, m_rngs')
          else
            let outputDimensions :=
              mkImageDimensions (mat_cols buffer2) (mat_rows buffer2)
                (mat_channels buffer2) in
            (Ok (mkImageSequenceData (m_numberOfSamples sequence)
                   (AsTensorShape outputDimensions HWC)
                   (mat_data buffer2) buffer2 original),
             m_rngs')
      end
  end.

(** ** The transpose transform *)

Record SlimTransposeTransformer : Type := mkSlimTransposeTransformer {
  tr_inputStream : StreamDescription;
  tr_outputStream : StreamDescription
}.

(** Shape negotiation (lines 383-399): the transform as the call leaves
    it, and what the call returns. *)
Definition SlimTransposeTransformer_Transform (inputStream : StreamDescription)
  : result (StreamDescription * SlimTransposeTransformer) :=
  match ImageDimensions_of (m_sampleLayout inputStream) HWC with
  | Throw e => Throw e
  | Ok dimensions =>
      let outputStream :=
        mkStreamDescription (m_storageType inputStream) (m_elementType inputStream)
          (AsTensorShape dimensions CHW) in
      if negb (StorageType_eqb (m_storageType inputStream) dense)
      then Throw (LogicError "Transpose transformer supports only dense streams.")
      else Ok (outputStream, mkSlimTransposeTransformer inputStream outputStream)
  end.

(** The two loops of [TypedApply] (lines 443-449). *)
Definition transpose_loops (rowCount channelCount : Z) (src dst : list elt) : list elt :=
  foldl (fun dst irow =>
           foldl (fun dst icol =>
                    <[ Z.to_nat (size_add (size_mul icol rowCount) irow) :=
                       default elt_zero
                         (src !! Z.to_nat (size_add (size_mul irow channelCount) icol)) ]>
                    dst)
             dst (seqZ 0 channelCount))
    dst (seqZ 0 rowCount).

(** [DenseSequenceWithBuffer]: a sequence that owns its buffer. *)
Record DenseSequenceWithBuffer : Type := mkDenseSequenceWithBuffer {
  buf_numberOfSamples : Z;
  buf_sampleLayout : TensorShape;
  m_buffer : list elt
}.

(** [TypedApply] (lines 425-455).  The buffer of [count] bytes holds
    [count / sizeof(TElemType)] elements, zero after [resize]. *)
Definition SlimTransposeTransformer_TypedApply (t : SlimTransposeTransformer)
    (sequence : DenseSequenceData) : result DenseSequenceWithBuffer :=
  if negb (NDEBUG || (m_numberOfSamples sequence =? 1))
  then Throw AssertionFailure
  else
    let esize := GetSizeByType (m_elementType (tr_inputStream t)) in
    let count := size_mul (GetNumElements (m_sampleLayout (tr_inputStream t))) esize in
    let buffer := replicate (Z.to_nat (count / esize)) elt_zero in
    match ImageDimensions_of (m_sampleLayout (tr_inputStream t)) HWC with
    | Throw e => Throw e
    | Ok dimensions =>
        let rowCount := size_mul (m_height dimensions) (m_width dimensions) in
        let channelCount := m_numChannels dimensions in
        Ok (mkDenseSequenceWithBuffer (m_numberOfSamples sequence)
              (m_sampleLayout (tr_outputStream t))
              (transpose_loops rowCount channelCount (m_data sequence) buffer))
    end.

(** [SlimTransposeTransformer::Transform(SequenceDataPtr)] (lines 402-415). *)
Definition SlimTransposeTransformer_Transform_sequence (t : SlimTransposeTransformer)
    (sequence : DenseSequenceData) : result DenseSequenceWithBuffer :=
  match m_elementType (tr_inputStream t) with
  | tdouble => SlimTransposeTransformer_TypedApply t sequence
  | tfloat => SlimTransposeTransformer_TypedApply t sequence
  | _ => Throw (RuntimeError "Unsupported type")
  end.

End Code.

Arguments Mat : clear implicits.
Arguments DenseSequenceData : clear implicits.

(** The inverse of the transposition, as the specification words it:
    the element at planar offset [c * (rows * cols) + p] goes back to the
    interleaved offset [p * channelCount + c]. *)
Definition planar_to_interleaved {cv : OpenCV} (rowCount channelCount : Z)
    (src dst : list elt) : list elt :=
  foldl (fun dst p =>
           foldl (fun dst c =>
                    <[ Z.to_nat (p * channelCount + c) :=
                       default elt_zero (src !! Z.to_nat (c * rowCount + p)) ]> dst)
             dst (seqZ 0 channelCount))
    dst (seqZ 0 rowCount).

(** ** A model of the interfaces

    A generator is the tape of the 32-bit words it is about to put out;
    the distributions read one word a draw.  Images of integers, resized
    by nearest neighbour. *)

Definition tape_next (g : list Z) : Z * list Z :=
  match g with
  | [] => (0, [])
  | w :: rest => (w mod 2 ^ 32, rest)
  end.

Fixpoint lcg_tape (n : nat) (x : Z) : list Z :=
  match n with
  | O => []
  | S n' => let x' := (1664525 * x + 1013904223) mod 2 ^ 32 in x' :: lcg_tape n' x'
  end.

Definition tape_UniIntT (a b : Z) (g : list Z) : Z * list Z :=
  let (w, rest) := tape_next g in
  (if a <=? b then a + w mod (b - a + 1) else a, rest).

Definition d_two : double := S754_finite false 4503599627370496 (-51).

Definition tape_UniRealT (a b : double) (g : list Z) : double * list Z :=
  let (w, rest) := tape_next g in
  let mid := SFdiv 53 1024 (SFadd 53 1024 a b) d_two in
  (if Z.odd w && valid_binary 53 1024 mid && d_leb a mid && d_ltb mid b then mid else a,
   rest).

Definition tape_bernoulli (g : list Z) : bool * list Z :=
  let (w, rest) := tape_next g in (w <? 2 ^ 31, rest).

Definition nearest_resize (interpolation rows cols channels : Z) (data : list Z)
    (w h : Z) : list Z :=
  r ← seqZ 0 h; c ← seqZ 0 w; k ← seqZ 0 channels;
  [default 0 (data !! Z.to_nat (((r * rows / h) * cols + c * cols / w) * channels + k))].

(** The model satisfies the laws of the interfaces. *)

Lemma SFcompare_refl (x : double) : x <> S754_nan -> SFcompare x x = Some Eq.
Proof.
  destruct x as [s | s | | s m e]; intros Hx; try congruence.
  - reflexivity.
  - destruct s; reflexivity.
  - simpl. rewrite Z.compare_refl.
    fold (Pos.compare m m). rewrite Pos.compare_refl. destruct s; reflexivity.
Qed.

Lemma d_ltb_not_nan (a b : double) : d_ltb a b = true -> a <> S754_nan.
Proof. intros H ->. discriminate. Qed.

Lemma tape_UniIntT_range (a b : Z) (g : list Z) :
  a <= b -> a <= fst (tape_UniIntT a b g) <= b.
Proof.
  intros Hab. unfold tape_UniIntT. destruct (tape_next g) as [w rest]. simpl.
  destruct (Z.leb_spec a b); [ | lia].
  pose proof (Z.mod_pos_bound w (b - a + 1)). lia.
Qed.

Lemma tape_UniRealT_range (a b : double) (g : list Z) :
  is_double a -> is_double b -> d_ltb a b = true ->
  is_double (fst (tape_UniRealT a b g)) /\
  d_leb a (fst (tape_UniRealT a b g)) = true /\
  d_ltb (fst (tape_UniRealT a b g)) b = true.
Proof.
  intros Ha Hb Hab. unfold tape_UniRealT.
  destruct (tape_next g) as [w rest]. simpl.
  set (mid := SFdiv 53 1024 (SFadd 53 1024 a b) d_two).
  destruct (Z.odd w && valid_binary 53 1024 mid && d_leb a mid && d_ltb mid b) eqn:Hc.
  - apply andb_prop in Hc. destruct Hc as [Hc H3].
    apply andb_prop in Hc. destruct Hc as [Hc H2].
    apply andb_prop in Hc. destruct Hc as [_ H1]. auto.
  - split; [assumption | ]. split; [ | assumption].
    unfold d_leb, SFleb. rewrite SFcompare_refl; [reflexivity | ].
    eapply d_ltb_not_nan, Hab.
Qed.

#[export] Instance TapeRandom : RandomLib := {|
  mt19937 := list Z;
  mt19937_seed := lcg_tape 64;
  UniIntT := tape_UniIntT;
  UniRealT := tape_UniRealT;
  bernoulli_distribution := tape_bernoulli;
  UniIntT_range := tape_UniIntT_range;
  UniRealT_range := tape_UniRealT_range
|}.

#[export] Instance IntegerImages : OpenCV := {|
  elt := Z;
  elt_zero := 0;
  elt_sub := Z.sub;
  elt_convert := fun _ _ x => x;
  resize_data := nearest_resize
|}.

(** Sample inputs for the model. *)

Definition multiview_jitter : SlimCropTransformer :=
  mkSlimCropTransformer (SlimImageTransformerBase_new None) CropType.MultiView10
    d_half d_one RatioJitterType.UniRatio false.

Definition multiview_hflip_config : CropConfig :=
  mkCropConfig None (Some "MultiView10") None None (Some true).

Definition multiview_hflip : SlimCropTransformer :=
  mkSlimCropTransformer (SlimImageTransformerBase_new None) CropType.MultiView10
    d_one d_one RatioJitterType.None true.

Definition image_4x6 : Mat IntegerImages := mkMat 4 6 CV_64F 1 true (seqZ 0 24).

Definition scale_config : ScaleConfig :=
  mkScaleConfig None 2 2 3 (Some "Linear:CUBIC:bogus").

Definition gray_stream : StreamDescription := mkStreamDescription dense tdouble [1; 6; 4].

(** The scale transform of [scale_config] after the negotiation of
    [gray_stream]. *)
Definition scale_2x2x3 : SlimScaleTransformer :=
  mkSlimScaleTransformer
    (mkSlimImageTransformerBase 0 (Some gray_stream) (Some gray_stream) CV_64F)
    2 2 3 [INTER_LINEAR; INTER_CUBIC].

(** A sample of one channel, 6 pixels wide and 4 high. *)
Definition gray_4x6 : DenseSequenceData IntegerImages :=
  mkDenseSequenceData 7 1 [1; 6; 4] (seqZ 0 24).

(** A configuration that draws the position and the ratio of the crop,
    and the transform the constructor makes of it. *)
Definition random_jitter_config : CropConfig :=
  mkCropConfig (Some 7) (Some "Random") (Some (d_half, [d_one])) (Some "UniRatio") None.

Definition random_jitter : SlimCropTransformer :=
  mkSlimCropTransformer (mkSlimImageTransformerBase 7 None None 0) CropType.Random
    d_half d_one RatioJitterType.UniRatio true.

(** A configuration with one crop ratio, and its transform. *)
Definition half_crop_config : CropConfig :=
  mkCropConfig None (Some "center") (Some (d_half, [])) (Some "uniRatio") None.

Definition half_crop : SlimCropTransformer :=
  mkSlimCropTransformer (SlimImageTransformerBase_new None) CropType.Center
    d_half d_half RatioJitterType.UniRatio false.

(** The transform the constructor makes of [scale_config]. *)
Definition scale_constructed : SlimScaleTransformer :=
  mkSlimScaleTransformer (SlimImageTransformerBase_new None) 2 2 3
    [INTER_LINEAR; INTER_CUBIC].

(** The ten views with the smaller of two ratios, and what the
    transform makes of sample 12, view 2. *)
Definition multiview_fixed : SlimCropTransformer :=
  mkSlimCropTransformer (SlimImageTransformerBase_new None) CropType.MultiView10
    d_half d_one RatioJitterType.None false.

Definition multiview_view_2 : CropTrace (cv := IntegerImages) :=
  mkCropTrace d_half 2 (mkRect 0 2 2 2) false
    (mkMat 2 2 CV_64F 1 false [12; 13; 18; 19]).

(** A configuration whose width is 2^32, and the transform the
    constructor makes of it. *)
Definition scale_too_wide_config : ScaleConfig :=
  mkScaleConfig None 4294967296 1 1 None.

Definition scale_too_wide : SlimScaleTransformer :=
  mkSlimScaleTransformer (SlimImageTransformerBase_new None) 4294967296 1 1
    [INTER_LINEAR].

(** ** The vocabulary of the properties *)

(** [scaled_le m e K] reads [m * 2^e <= K], with the powers of two
    cleared. *)
Definition scaled_le (m e K : Z) : Prop :=
  exists B, 0 <= B /\ 0 <= e + B /\ m * 2 ^ (e + B) <= K * 2 ^ B.

(** What [k] right shifts make of [(M, false, false)]. *)
Definition shifted (M k : Z) (mrs : shr_record) : Prop :=
  shr_m mrs = M / 2 ^ k /\
  (M mod 2 ^ k = 0 -> shr_r mrs = false /\ shr_s mrs = false).

(** The view indices the assertions of [GetCropRect] allow. *)
Definition viewIndex_allowed (type : CropType.t) (viewIndex : Z) : Prop :=
  match type with
  | CropType.MultiView10 => 0 <= viewIndex < 10
  | _ => viewIndex = 0
  end.

Definition in_bounds (rect : Rect) (crow ccol : Z) : Prop :=
  0 <= rect_x rect /\ 0 <= rect_y rect /\
  rect_x rect + rect_width rect <= ccol /\
  rect_y rect + rect_height rect <= crow.

(** What the crop transform makes of a sample in MultiView10 mode
    without the coin, once the ratio is chosen. *)
Definition multiview_outcome (NDEBUG : bool) {rnd : RandomLib} {cv : OpenCV}
    (viewIndex : Z) (mat : Mat cv) (ratio : double) : result CropTrace :=
  match fst (GetCropRect NDEBUG CropType.MultiView10 viewIndex (mat_rows mat)
               (mat_cols mat) ratio (mt19937_seed 0)) with
  | Throw e => Throw e
  | Ok rect =>
      match cv_roi mat rect with
      | Throw e => Throw e
      | Ok cropped =>
          Ok (mkCropTrace ratio viewIndex rect (5 <=? viewIndex)
                (if 5 <=? viewIndex then cv_flip_horizontal cropped else cropped))
      end
  end.

Definition crop_type_names : list string := ["center"; "random"; "multiview10"].

Definition jitter_type_names : list string := ["none"; "uniratio"; "unilength"; "uniarea"].

(** A name is recognized when it is empty (the default) or equals a
    listed name ignoring case; it is unrecognized otherwise. *)
Definition unrecognized (names : list string) (s : string) : Prop :=
  s <> "" /\ forall name, In name names -> to_lower s <> name.

(** The values the constructor reads from the configuration. *)
Definition config_cropType (config : CropConfig) : string :=
  default "" (cfg_cropType config).

Definition config_jitterType (config : CropConfig) : string :=
  default "" (cfg_jitterType config).

Definition config_cropRatioMin (config : CropConfig) : double :=
  let cropRatio := default (d_one, []) (cfg_cropRatio config) in
  argvector_get (fst cropRatio) (snd cropRatio) 0.

Definition config_cropRatioMax (config : CropConfig) : double :=
  let cropRatio := default (d_one, []) (cfg_cropRatio config) in
  argvector_get (fst cropRatio) (snd cropRatio) 1.

(** [x] lies in (0, 1]. *)
Definition in_unit_interval (x : double) : bool := d_ltb d_zero x && d_leb x d_one.

(** The error of a jitter mode that is reserved. *)
Definition not_implemented : exception :=
  RuntimeError "Jitter type currently not implemented.".

(** A loop of writes [dst[key b] = val b]. *)
Definition write_all {A B : Type} (key : B -> nat) (val : B -> A)
    (dst : list A) (l : list B) : list A :=
  foldl (fun d b => <[key b := val b]> d) dst l.

(** The names of the crop strategies and of the jitter modes. *)
Definition crop_type_name (type : CropType.t) : string :=
  match type with
  | CropType.Center => "center"
  | CropType.Random => "random"
  | CropType.MultiView10 => "multiview10"
  end.

Definition jitter_type_name (type : RatioJitterType.t) : string :=
  match type with
  | RatioJitterType.None => "none"
  | RatioJitterType.UniRatio => "uniratio"
  | RatioJitterType.UniLength => "unilength"
  | RatioJitterType.UniArea => "uniarea"
  end.

(** The kernels [m_interpMap] knows. *)
Definition interpolation_kernels : list Z :=
  [INTER_NEAREST; INTER_LINEAR; INTER_CUBIC; INTER_LANCZOS4].

(** A matrix holds rows x columns x channels elements. *)
Definition mat_well_formed {cv : OpenCV} (m : Mat cv) : Prop :=
  length (mat_data m) =
  (Z.to_nat (mat_rows m) * Z.to_nat (mat_cols m) * Z.to_nat (mat_channels m))%nat.

(** A [DenseSequenceWithBuffer] read as the [DenseSequenceData] it
    derives from: [m_data] points to the buffer. *)
Definition DenseSequenceWithBuffer_base {cv : OpenCV} (id : Z)
    (s : DenseSequenceWithBuffer) : DenseSequenceData cv :=
  mkDenseSequenceData id (buf_numberOfSamples s) (buf_sampleLayout s) (m_buffer s).

(** The ratio bounds the constructor lets through. *)
Definition ratio_bounds_ok (t : SlimCropTransformer) : Prop :=
  is_double (m_cropRatioMin t) /\ is_double (m_cropRatioMax t) /\
  in_unit_interval (m_cropRatioMin t) = true /\
  in_unit_interval (m_cropRatioMax t) = true /\
  d_ltb (m_cropRatioMax t) (m_cropRatioMin t) = false.

(** The offsets [GetCropRect] chooses, in unbounded integers and without
    the assertions, for a crop of side [cropSize]; the generator after
    the draws. *)
Definition crop_offsets {rnd : RandomLib} (type : CropType.t)
    (viewIndex crow ccol cropSize : Z) (rng : mt19937) : (Z * Z) * mt19937 :=
  match type with
  | CropType.Center => (((ccol - cropSize) / 2, (crow - cropSize) / 2), rng)
  | CropType.Random =>
      let x := UniIntT 0 (ccol - cropSize) rng in
      let y := UniIntT 0 (crow - cropSize) (snd x) in
      ((fst x, fst y), snd y)
  | CropType.MultiView10 =>
      (match Z.rem viewIndex 5 with
       | 0 => (0, 0)
       | 1 => (ccol - cropSize, 0)
       | 2 => (0, crow - cropSize)
       | 3 => (ccol - cropSize, crow - cropSize)
       | _ => ((ccol - cropSize) / 2, (crow - cropSize) / 2)
       end, rng)
  end.

(** The side of the crop of an image for a ratio. *)
Definition crop_size (crow ccol : Z) (ratio : double) : Z :=
  double_to_int (d_mul (int_to_double (Z.min crow ccol)) ratio).

(** * Properties *)

(** ** Machine integers *)

Lemma int_wrap_id (z : Z) : is_int z -> int_wrap z = z.
Proof.
  unfold is_int, INT_MIN, INT_MAX, int_wrap. intros H.
  rewrite Z.mod_small; lia.
Qed.

Lemma in_int_range_true (z : Z) : is_int z -> in_int_range z = true.
Proof.
  unfold is_int, in_int_range. intros [H1 H2].
  apply andb_true_intro. split; apply Z.leb_le; assumption.
Qed.

Lemma size_wrap_id (z : Z) : 0 <= z <= SIZE_MAX -> size_wrap z = z.
Proof. unfold size_wrap, SIZE_MAX. intros H. apply Z.mod_small. lia. Qed.

(** ** Doubles: rounding never exceeds an integer bound *)

Lemma scaled_le_elim (m e K : Z) :
  scaled_le m e K ->
  if 0 <=? e then m * 2 ^ e <= K else m <= K * 2 ^ (- e).
Proof.
  intros (B & HB & HeB & Hle).
  destruct (Z.leb_spec 0 e) as [He | He].
  - rewrite Z.pow_add_r in Hle by lia.
    assert (0 < 2 ^ B) by (apply Z.pow_pos_nonneg; lia).
    nia.
  - replace B with (- e + (e + B)) in Hle at 2 by lia.
    rewrite (Z.pow_add_r 2 (- e) (e + B)) in Hle by lia.
    assert (0 < 2 ^ (e + B)) by (apply Z.pow_pos_nonneg; lia).
    nia.
Qed.

Lemma scaled_le_intro_neg (m e K : Z) :
  e <= 0 -> m <= K * 2 ^ (- e) -> scaled_le m e K.
Proof.
  intros He H. exists (- e). repeat split; try lia.
  replace (e + - e) with 0 by lia. simpl. lia.
Qed.

Lemma scaled_le_intro_pos (m e K : Z) :
  0 <= e -> m * 2 ^ e <= K -> scaled_le m e K.
Proof.
  intros He H. exists 0. repeat split; try lia.
  rewrite Z.add_0_r. simpl. lia.
Qed.

Lemma digits2_pos_bounds (m : positive) :
  2 ^ (Zpos (digits2_pos m) - 1) <= Zpos m < 2 ^ Zpos (digits2_pos m).
Proof.
  induction m as [m IH | m IH | ]; simpl digits2_pos.
  - rewrite Pos2Z.inj_succ.
    replace (Z.succ (Zpos (digits2_pos m)) - 1) with (Z.succ (Zpos (digits2_pos m) - 1)) by lia.
    rewrite !Z.pow_succ_r by lia. lia.
  - rewrite Pos2Z.inj_succ.
    replace (Z.succ (Zpos (digits2_pos m)) - 1) with (Z.succ (Zpos (digits2_pos m) - 1)) by lia.
    rewrite !Z.pow_succ_r by lia. lia.
  - simpl. lia.
Qed.

Lemma shr_1_nonneg (mrs : shr_record) :
  0 <= shr_m mrs ->
  shr_1 mrs = Build_shr_record (shr_m mrs / 2) (Z.odd (shr_m mrs))
                (shr_r mrs || shr_s mrs).
Proof.
  destruct mrs as [m r s]. simpl. intros Hm.
  rewrite <- Z.div2_div.
  destruct m as [ | [p | p | ] | p]; try reflexivity. lia.
Qed.

Lemma iter_pos_invariant {A : Type} (P : Z -> A -> Prop) (f : A -> A) :
  (forall k x, 0 <= k -> P k x -> P (k + 1) (f x)) ->
  forall p k x, 0 <= k -> P k x -> P (k + Zpos p) (SpecFloat.iter_pos f p x).
Proof.
  intros Hstep. induction p as [p IH | p IH | ]; intros k x Hk HP; simpl.
  - replace (k + Zpos p~1) with (k + 1 + Zpos p + Zpos p) by lia.
    apply IH; [lia | ]. apply IH; [lia | ]. apply Hstep; assumption.
  - replace (k + Zpos p~0) with (k + Zpos p + Zpos p) by lia.
    apply IH; [lia | ]. apply IH; assumption.
  - apply Hstep; assumption.
Qed.

Lemma shifted_step (M k : Z) (mrs : shr_record) :
  0 <= M -> 0 <= k -> shifted M k mrs -> shifted M (k + 1) (shr_1 mrs).
Proof.
  intros HM Hk [Hm Hrs].
  assert (Hpow : 0 < 2 ^ k) by (apply Z.pow_pos_nonneg; lia).
  assert (Hm0 : 0 <= shr_m mrs) by (rewrite Hm; apply Z.div_pos; lia).
  rewrite shr_1_nonneg by assumption. split; simpl.
  - rewrite Hm, Z.pow_add_r, Z.pow_1_r by lia.
    rewrite Z.div_div by lia. reflexivity.
  - rewrite Z.pow_add_r, Z.pow_1_r by lia. intros Hmod.
    assert (Hdiv : M = 2 ^ k * 2 * (M / (2 ^ k * 2))).
    { pose proof (Z.div_mod M (2 ^ k * 2)). lia. }
    assert (Hmodk : M mod 2 ^ k = 0).
    { rewrite Hdiv. rewrite <- Z.mul_assoc, Z.mul_comm. apply Z.mod_mul. lia. }
    destruct (Hrs Hmodk) as [-> ->]. split; [ | reflexivity].
    rewrite Hm. rewrite Hdiv at 1.
    rewrite <- Z.mul_assoc, Z.mul_comm, Z.div_mul by lia.
    rewrite Z.odd_mul. change (Z.odd 2) with false.
    destruct (Z.odd _); reflexivity.
Qed.

Lemma shr_shifted (M e n : Z) :
  0 <= M ->
  exists k, 0 <= k /\ k = Z.max n 0 /\
    snd (shr (Build_shr_record M false false) e n) = e + k /\
    shifted M k (fst (shr (Build_shr_record M false false) e n)).
Proof.
  intros HM.
  assert (H0 : shifted M 0 (Build_shr_record M false false)).
  { split; simpl; [rewrite Z.div_1_r; reflexivity | auto]. }
  destruct n as [ | p | p]; simpl.
  - exists 0. split; [lia | ]. split; [lia | ]. split; [lia | exact H0].
  - exists (Zpos p). split; [lia | ]. split; [lia | ]. split; [reflexivity | ].
    apply (iter_pos_invariant (shifted M) shr_1
             (fun k x Hk => shifted_step M k x HM Hk) p 0); [lia | exact H0].
  - exists 0. split; [lia | ]. split; [lia | ]. split; [lia | exact H0].
Qed.

Lemma shr_fexp_shifted (M e : Z) :
  0 <= M ->
  exists k, 0 <= k /\ k = Z.max (fexp 53 1024 (Zdigits2 M + e) - e) 0 /\
    snd (shr_fexp 53 1024 M e loc_Exact) = e + k /\
    shifted M k (fst (shr_fexp 53 1024 M e loc_Exact)).
Proof. intros HM. unfold shr_fexp. simpl shr_record_of_loc. apply shr_shifted, HM. Qed.

Lemma round_nearest_even_bounds (M k : Z) (mrs : shr_record) :
  shifted M k mrs ->
  shr_m mrs <= round_nearest_even (shr_m mrs) (loc_of_shr_record mrs) <= shr_m mrs + 1 /\
  (M mod 2 ^ k = 0 ->
   round_nearest_even (shr_m mrs) (loc_of_shr_record mrs) = shr_m mrs).
Proof.
  intros [_ Hrs]. destruct mrs as [q r s]. simpl in *. split.
  - destruct r, s; simpl; try lia. destruct (Z.even q); lia.
  - intros Hmod. destruct (Hrs Hmod) as [-> ->]. reflexivity.
Qed.

Lemma scaled_le_shift (m e k K : Z) :
  0 <= m -> 0 <= k -> scaled_le m e K -> scaled_le (m / 2 ^ k) (e + k) K.
Proof.
  intros Hm Hk (B & HB & HeB & Hle). exists B.
  split; [assumption | ]. split; [lia | ].
  replace (e + k + B) with (k + (e + B)) by lia.
  rewrite Z.pow_add_r by lia.
  assert (Hk2 : 0 < 2 ^ k) by (apply Z.pow_pos_nonneg; lia).
  assert (He2 : 0 < 2 ^ (e + B)) by (apply Z.pow_pos_nonneg; lia).
  pose proof (Z.mul_div_le m (2 ^ k) Hk2). nia.
Qed.

(** The first shift and the rounding keep the bound. *)
Lemma round_step_le (M E K k : Z) (mrs : shr_record) :
  0 < M -> 0 < K < 2 ^ 53 -> scaled_le M E K ->
  k = Z.max (fexp 53 1024 (Zdigits2 M + E) - E) 0 ->
  shifted M k mrs ->
  scaled_le (round_nearest_even (shr_m mrs) (loc_of_shr_record mrs)) (E + k) K.
Proof.
  intros HM HK Hle Hk Hsh.
  destruct (round_nearest_even_bounds M k mrs Hsh) as [Hb Hex].
  destruct Hsh as [Hq _].
  set (m1 := round_nearest_even (shr_m mrs) (loc_of_shr_record mrs)) in *.
  destruct (Z.eq_dec k 0) as [Hk0 | Hk0].
  - rewrite Hk0 in *. rewrite Z.add_0_r.
    assert (Hm1 : m1 = M).
    { rewrite Hex, Hq; simpl; [apply Z.div_1_r | apply Z.mod_1_r]. }
    rewrite Hm1. exact Hle.
  - assert (Hkpos : 0 < k) by lia.
    destruct M as [ | Mp | Mp]; try lia.
    simpl Zdigits2 in Hk.
    pose proof (digits2_pos_bounds Mp) as [Hd1 Hd2].
    set (d := Zpos (digits2_pos Mp)) in *.
    assert (He1 : E + k = Z.max (d + E - 53) (-1074)).
    { unfold fexp, emin in Hk. lia. }
    pose proof (scaled_le_elim _ _ _ Hle) as Helim.
    assert (He1neg : E + k <= 0).
    { destruct (Z.le_gt_cases (E + k) 0) as [ | Hgt]; [assumption | exfalso].
      assert (Hd : 53 - E <= d - 1) by lia.
      destruct (Z.leb_spec 0 E) as [HE | HE].
      - assert (2 ^ 53 <= 2 ^ (d - 1 + E)) by (apply Z.pow_le_mono_r; lia).
        rewrite Z.pow_add_r in H by lia.
        assert (0 < 2 ^ E) by (apply Z.pow_pos_nonneg; lia). nia.
      - assert (2 ^ (53 - E) <= 2 ^ (d - 1)) by (apply Z.pow_le_mono_r; lia).
        replace (53 - E) with (53 + - E) in H by lia.
        rewrite Z.pow_add_r in H by lia.
        assert (0 < 2 ^ (- E)) by (apply Z.pow_pos_nonneg; lia). nia. }
    apply scaled_le_intro_neg; [assumption | ].
    assert (HE : E < 0) by lia.
    destruct (Z.leb_spec 0 E) as [ | _]; [lia | ].
    replace (- E) with (- (E + k) + k) in Helim by lia.
    rewrite Z.pow_add_r in Helim by lia.
    set (K' := K * 2 ^ (- (E + k))) in *.
    assert (Hk2 : 0 < 2 ^ k) by (apply Z.pow_pos_nonneg; lia).
    assert (HMK : Zpos Mp <= K' * 2 ^ k) by (unfold K'; lia).
    pose proof (Z.div_mod (Zpos Mp) (2 ^ k) ltac:(lia)) as Hdm.
    pose proof (Z.mod_pos_bound (Zpos Mp) (2 ^ k) Hk2) as Hmb.
    destruct (Z.eq_dec (Zpos Mp mod 2 ^ k) 0) as [Hz | Hnz].
    + rewrite (Hex Hz). rewrite Hq. nia.
    + assert (shr_m mrs < K') by (rewrite Hq; nia). lia.
Qed.

(** Rounding a positive number that is at most [K], for an integer [K]
    of at most 53 bits, gives zero or a finite number that is at most [K]. *)
Lemma binary_round_aux_le (s : bool) (M : positive) (E K : Z) :
  0 < K < 2 ^ 53 -> scaled_le (Zpos M) E K ->
  binary_round_aux 53 1024 s (Zpos M) E loc_Exact = S754_zero s \/
  exists m e,
    binary_round_aux 53 1024 s (Zpos M) E loc_Exact = S754_finite s m e /\
    scaled_le (Zpos m) e K.
Proof.
  intros HK Hle. unfold binary_round_aux.
  destruct (shr_fexp_shifted (Zpos M) E ltac:(lia)) as (k1 & Hk1 & Hk1eq & He1 & Hsh1).
  destruct (shr_fexp 53 1024 (Zpos M) E loc_Exact) as [mrs1 e1]. simpl in He1, Hsh1.
  pose proof (round_step_le (Zpos M) E K k1 mrs1 ltac:(lia) HK Hle Hk1eq Hsh1) as Hle1.
  pose proof (round_nearest_even_bounds _ _ _ Hsh1) as [Hb1 _].
  assert (Hq1 : 0 <= shr_m mrs1).
  { destruct Hsh1 as [-> _]. apply Z.div_pos; [lia | apply Z.pow_pos_nonneg; lia]. }
  set (m1 := round_nearest_even (shr_m mrs1) (loc_of_shr_record mrs1)) in *.
  destruct (shr_fexp_shifted m1 e1 ltac:(lia)) as (k2 & Hk2 & _ & He2 & Hsh2).
  destruct (shr_fexp 53 1024 m1 e1 loc_Exact) as [mrs2 e2]. simpl in He2, Hsh2.
  destruct Hsh2 as [Hm2 _].
  assert (Hle2 : scaled_le (shr_m mrs2) e2 K).
  { rewrite Hm2, He2, He1. rewrite <- He1. apply scaled_le_shift; try lia.
    rewrite He1. exact Hle1. }
  assert (Hm2pos : 0 <= shr_m mrs2).
  { rewrite Hm2. apply Z.div_pos; [lia | apply Z.pow_pos_nonneg; lia]. }
  destruct (shr_m mrs2) as [ | m2 | m2]; [left; reflexivity | | lia].
  right. destruct (Z.leb_spec e2 (1024 - 53)) as [Hfin | Hinf].
  - exists m2, e2. split; [reflexivity | exact Hle2].
  - exfalso. pose proof (scaled_le_elim _ _ _ Hle2) as Helim.
    destruct (Z.leb_spec 0 e2); [ | lia].
    assert (2 ^ 53 <= 2 ^ e2) by (apply Z.pow_le_mono_r; lia). nia.
Qed.

Lemma Pos_iter_xO (m d : positive) :
  Zpos (Pos.iter xO m d) = Zpos m * 2 ^ Zpos d.
Proof.
  induction d as [ | d IH] using Pos.peano_ind.
  - simpl. lia.
  - rewrite Pos.iter_succ, Pos2Z.inj_succ, Z.pow_succ_r by lia.
    rewrite Pos2Z.inj_xO, IH. lia.
Qed.

Lemma binary_round_le (s : bool) (m : positive) (K : Z) :
  0 < K < 2 ^ 53 -> Zpos m <= K ->
  binary_round 53 1024 s m 0 = S754_zero s \/
  exists m' e',
    binary_round 53 1024 s m 0 = S754_finite s m' e' /\ scaled_le (Zpos m') e' K.
Proof.
  intros HK Hm. unfold binary_round, shl_align.
  set (ex' := fexp 53 1024 (Zpos (digits2_pos m) + 0)).
  destruct (ex' - 0) as [ | d | d] eqn:Hd.
  - apply binary_round_aux_le; [assumption | ].
    apply scaled_le_intro_pos; simpl; lia.
  - apply binary_round_aux_le; [assumption | ].
    apply scaled_le_intro_pos; simpl; lia.
  - apply binary_round_aux_le; [assumption | ].
    apply scaled_le_intro_neg; [lia | ].
    rewrite Pos_iter_xO. replace (- ex') with (Zpos d) by lia.
    assert (0 < 2 ^ Zpos d) by (apply Z.pow_pos_nonneg; lia). nia.
Qed.

Lemma int_to_double_le (z : Z) :
  0 < z < 2 ^ 53 ->
  int_to_double z = S754_zero false \/
  exists m e, int_to_double z = S754_finite false m e /\ scaled_le (Zpos m) e z.
Proof.
  intros Hz. destruct z as [ | p | p]; try lia.
  unfold int_to_double, binary_normalize. apply binary_round_le; lia.
Qed.

Lemma digits2_pos_iter_xO (m d : positive) :
  digits2_pos (Pos.iter xO m d) = (digits2_pos m + d)%positive.
Proof.
  induction d as [ | d IH] using Pos.peano_ind.
  - simpl. rewrite Pos.add_1_r. reflexivity.
  - rewrite Pos.iter_succ. simpl. rewrite IH, Pos.add_succ_r. reflexivity.
Qed.

(** A mantissa of 53 bits with an exponent in range is left as it is. *)
Lemma binary_round_aux_exact (s : bool) (m : positive) (e : Z) :
  Zpos (digits2_pos m) = 53 -> -1074 <= e <= 971 ->
  binary_round_aux 53 1024 s (Zpos m) e loc_Exact = S754_finite s m e.
Proof.
  intros Hd He.
  assert (Hf : fexp 53 1024 (53 + e) - e = 0) by (unfold fexp, emin; lia).
  unfold binary_round_aux, shr_fexp. simpl Zdigits2. rewrite Hd, Hf. simpl.
  rewrite Hd, Hf. simpl.
  destruct (Z.leb_spec e (1024 - 53)); [reflexivity | lia].
Qed.

(** The conversion of a positive [int] to [double] is exact. *)
Lemma int_to_double_exact (z : Z) :
  0 < z < 2 ^ 53 ->
  exists m e,
    int_to_double z = S754_finite false m e /\ e <= 0 /\ Zpos m = z * 2 ^ (- e).
Proof.
  intros Hz. destruct z as [ | p | p]; try lia.
  pose proof (digits2_pos_bounds p) as [Hlo Hhi].
  assert (Hd : Zpos (digits2_pos p) <= 53).
  { destruct (Z.le_gt_cases (Zpos (digits2_pos p)) 53) as [ | Hgt]; [assumption | ].
    assert (2 ^ 53 <= 2 ^ (Zpos (digits2_pos p) - 1)) by (apply Z.pow_le_mono_r; lia).
    lia. }
  unfold int_to_double, binary_normalize, binary_round, shl_align.
  assert (Hf : fexp 53 1024 (Zpos (digits2_pos p) + 0) = Zpos (digits2_pos p) - 53)
    by (unfold fexp, emin; lia).
  rewrite Hf.
  destruct (Zpos (digits2_pos p) - 53 - 0) as [ | k | k] eqn:Hk; try lia.
  - exists p, 0. split; [ | simpl; lia].
    apply binary_round_aux_exact; lia.
  - exists (Pos.iter xO p k), (Zpos (digits2_pos p) - 53).
    split; [ | split; [lia | ]].
    + apply binary_round_aux_exact; [ | lia].
      rewrite digits2_pos_iter_xO, Pos2Z.inj_add. lia.
    + rewrite Pos_iter_xO. f_equal. f_equal. lia.
Qed.

Lemma d_ltb_zero_cases (x : double) :
  d_ltb d_zero x = true ->
  x = S754_infinity false \/ exists m e, x = S754_finite false m e.
Proof.
  destruct x as [s | s | | s m e]; try discriminate;
    destruct s; try discriminate; eauto.
Qed.

Lemma is_double_mantissa (s : bool) (m : positive) (e : Z) :
  is_double (S754_finite s m e) -> Zpos m < 2 ^ 53.
Proof.
  unfold is_double, valid_binary, bounded, canonical_mantissa, fexp, emin.
  intros H. apply andb_prop in H. destruct H as [H _].
  apply Z.eqb_eq in H.
  pose proof (digits2_pos_bounds m) as [_ Hd].
  assert (Zpos (digits2_pos m) <= 53) by lia.
  assert (2 ^ Zpos (digits2_pos m) <= 2 ^ 53) by (apply Z.pow_le_mono_r; lia).
  lia.
Qed.

Lemma d_leb_one_bound (m : positive) (e : Z) :
  is_double (S754_finite false m e) ->
  d_leb (S754_finite false m e) d_one = true ->
  e < 0 /\ Zpos m <= 2 ^ (- e).
Proof.
  intros Hv Hle. pose proof (is_double_mantissa _ _ _ Hv) as Hm.
  unfold d_leb, SFleb, SFcompare, d_one in Hle.
  destruct (Z.compare_spec e (-52)) as [He | He | He]; try discriminate.
  - subst e. split; [lia | ].
    assert (Hp : 2 ^ (- -52) = 4503599627370496) by reflexivity.
    rewrite Hp.
    pose proof (Pos.compare_spec m 4503599627370496) as Hs.
    unfold Pos.compare in Hs.
    destruct Hs as [H | H | H]; try discriminate.
    + rewrite H. lia.
    + apply Pos2Z.pos_lt_pos in H. lia.
  - split; [lia | ].
    assert (2 ^ 53 <= 2 ^ (- e)) by (apply Z.pow_le_mono_r; lia). lia.
Qed.

Lemma d_trunc_scaled_le (m : positive) (e K : Z) :
  scaled_le (Zpos m) e K ->
  exists t, d_trunc (S754_finite false m e) = Some t /\ 0 <= t <= K.
Proof.
  intros Hle. apply scaled_le_elim in Hle. unfold d_trunc, cond_Zopp.
  destruct (Z.leb_spec 0 e) as [He | He].
  - eexists. split; [reflexivity | ].
    assert (0 < 2 ^ e) by (apply Z.pow_pos_nonneg; lia). nia.
  - eexists. split; [reflexivity | ].
    assert (0 < 2 ^ (- e)) by (apply Z.pow_pos_nonneg; lia). split.
    + apply Z.div_pos; lia.
    + apply Z.div_le_upper_bound; lia.
Qed.

Lemma d_floor_trunc_nonneg (m : positive) (e : Z) :
  d_floor (S754_finite false m e) = d_trunc (S754_finite false m e).
Proof.
  unfold d_floor, d_trunc, SF2Q, cond_Zopp. simpl.
  destruct (Z.leb_spec 0 e) as [He | He]; simpl; f_equal.
  - apply Z.div_1_r.
  - rewrite Z2Pos.id by (apply Z.pow_pos_nonneg; lia). reflexivity.
Qed.

(** The crop size: for a side [0 < side < 2^31] and a ratio in (0, 1],
    [static_cast<int>(side * ratio)] lies in [0, side] and is the floor of
    the product as the double multiplication yields it. *)
Lemma cropSize_range (side : Z) (ratio : double) :
  0 < side <= INT_MAX -> is_double ratio ->
  d_ltb d_zero ratio = true -> d_leb ratio d_one = true ->
  0 <= double_to_int (d_mul (int_to_double side) ratio) <= side /\
  d_floor (d_mul (int_to_double side) ratio) =
    Some (double_to_int (d_mul (int_to_double side) ratio)).
Proof.
  unfold INT_MAX. intros Hside Hv Hpos Hle1.
  destruct (d_ltb_zero_cases _ Hpos) as [-> | (my & ey & ->)]; [discriminate | ].
  destruct (d_leb_one_bound _ _ Hv Hle1) as [Hey Hmy].
  assert (Hzero : double_to_int (S754_zero false) = 0) by reflexivity.
  destruct (int_to_double_le side ltac:(lia)) as [-> | (mx & ex & -> & Hx)].
  - simpl d_mul. rewrite Hzero. split; [lia | reflexivity].
  - unfold d_mul, SFmul. simpl xorb.
    assert (Hprod : scaled_le (Zpos (mx * my)) (ex + ey) side).
    { destruct Hx as (B & HB & HeB & Hle). exists (B + - ey).
      split; [lia | ]. split; [lia | ].
      replace (ex + ey + (B + - ey)) with (ex + B) by lia.
      rewrite Pos2Z.inj_mul, (Z.pow_add_r 2 B (- ey)) by lia.
      assert (0 < 2 ^ (ex + B)) by (apply Z.pow_pos_nonneg; lia).
      pose proof (Z.mul_le_mono_nonneg (Zpos mx * 2 ^ (ex + B)) (side * 2 ^ B)
                    (Zpos my) (2 ^ (- ey)) ltac:(lia) Hle ltac:(lia) Hmy).
      lia. }
    destruct (binary_round_aux_le false (mx * my) (ex + ey) side ltac:(lia) Hprod)
      as [-> | (m & e & -> & Hres)].
    + rewrite Hzero. split; [lia | reflexivity].
    + destruct (d_trunc_scaled_le _ _ _ Hres) as (t & Ht & Hrange).
      rewrite d_floor_trunc_nonneg. unfold double_to_int. rewrite Ht.
      rewrite in_int_range_true by (unfold is_int, INT_MIN, INT_MAX; lia).
      split; [lia | reflexivity].
Qed.

(** ** Running the generator monad *)

Section RngLemmas.
Context {rnd : RandomLib}.
Variable NDEBUG : bool.

Lemma check_ok {A : Type} (c : bool) (k : unit -> Rng A) (g : mt19937) :
  NDEBUG = true \/ c = true -> bind (assert_ NDEBUG c) k g = k tt g.
Proof.
  intros [-> | ->]; unfold bind, assert_; simpl; [reflexivity | ].
  rewrite orb_true_r. reflexivity.
Qed.

Lemma check_fails {A : Type} (c : bool) (k : unit -> Rng A) (g : mt19937) :
  NDEBUG = false -> c = false ->
  bind (assert_ NDEBUG c) k g = (Throw AssertionFailure, g).
Proof. intros -> ->. reflexivity. Qed.

Lemma bind_ret {A B : Type} (a : A) (k : A -> Rng B) (g : mt19937) :
  bind (ret a) k g = k a g.
Proof. reflexivity. Qed.

Lemma bind_draw {A B : Type} (d : mt19937 -> A * mt19937) (k : A -> Rng B) (g : mt19937) :
  bind (draw d) k g = k (fst (d g)) (snd (d g)).
Proof. reflexivity. Qed.

Lemma bind_throw {A B : Type} (e : exception) (k : A -> Rng B) (g : mt19937) :
  bind (throw e) k g = (Throw e, g).
Proof. reflexivity. Qed.

Lemma bind_bind {A B C : Type} (m : Rng A) (k : A -> Rng B) (h : B -> Rng C) (g : mt19937) :
  bind (bind m k) h g = bind m (fun a => bind (k a) h) g.
Proof. unfold bind. destruct (m g) as [[a | e] g']; reflexivity. Qed.

End RngLemmas.

(** ** The crop rectangle *)

Lemma int_sub_small (a b : Z) :
  0 <= b <= a -> a <= INT_MAX -> int_sub a b = a - b.
Proof.
  unfold INT_MAX. intros H1 H2. unfold int_sub.
  apply int_wrap_id. unfold is_int, INT_MIN, INT_MAX. lia.
Qed.

Lemma int_div_half (a : Z) :
  0 <= a <= INT_MAX -> int_div a 2 = a / 2 /\ 0 <= a / 2 <= a.
Proof.
  unfold INT_MAX. intros H. unfold int_div.
  rewrite Z.quot_div_nonneg by lia.
  assert (0 <= a / 2 <= a).
  { split; [apply Z.div_pos; lia | apply Z.div_le_upper_bound; lia]. }
  split; [ | assumption].
  apply int_wrap_id. unfold is_int, INT_MIN, INT_MAX. lia.
Qed.

Lemma range_check (lo x hi : Z) :
  lo <= x <= hi -> (lo <=? x) && (x <=? hi) = true.
Proof. intros [H1 H2]. apply andb_true_intro. split; apply Z.leb_le; assumption. Qed.

Lemma isubView_cases (viewIndex : Z) :
  0 <= viewIndex ->
  int_rem viewIndex 5 = 0 \/ int_rem viewIndex 5 = 1 \/ int_rem viewIndex 5 = 2 \/
  int_rem viewIndex 5 = 3 \/ int_rem viewIndex 5 = 4.
Proof.
  intros H. unfold int_rem.
  pose proof (Z.rem_bound_pos viewIndex 5 H ltac:(lia)). lia.
Qed.

Lemma range_check_lt (lo x hi : Z) :
  lo <= x < hi -> (lo <=? x) && (x <? hi) = true.
Proof.
  intros [H1 H2]. apply andb_true_intro.
  split; [apply Z.leb_le | apply Z.ltb_lt]; assumption.
Qed.

(** The view indices [Apply] passes are among those the assertions
    allow. *)
Lemma view_index_allowed (type : CropType.t) (id : Z) :
  viewIndex_allowed type
    (if CropType.eqb type CropType.MultiView10
     then int_wrap (size_wrap id mod 10) else 0).
Proof.
  destruct type; simpl; try reflexivity.
  pose proof (Z.mod_pos_bound (size_wrap id) 10 ltac:(lia)).
  rewrite int_wrap_id by (unfold is_int, INT_MIN, INT_MAX; lia). lia.
Qed.

(** C1: for every crop strategy, every view index [Apply] passes to
    [GetCropRect] ((int)(id % 10) of the sample id in MultiView10 mode, 0
    otherwise) and, more generally, every index the assertions allow,
    every image with rows > 0 and cols > 0 and every ratio with
    0 < ratio <= 1, [GetCropRect] returns a rectangle with
    0 <= x, 0 <= y, x + size <= cols, y + size <= rows, a square of side
    size = floor(min(rows, cols) * ratio), the product being the double
    multiplication of the code. *)
Theorem GetCropRect_in_bounds (NDEBUG : bool) (rnd : RandomLib) (type : CropType.t)
    (id viewIndex crow ccol : Z) (ratio : double) (rng : mt19937) :
  0 < crow <= INT_MAX -> 0 < ccol <= INT_MAX ->
  is_double ratio -> d_ltb d_zero ratio = true -> d_leb ratio d_one = true ->
  viewIndex = (if CropType.eqb type CropType.MultiView10
               then int_wrap (size_wrap id mod 10) else 0) \/
  viewIndex_allowed type viewIndex \/ (NDEBUG = true /\ 0 <= viewIndex) ->
  exists rect,
    fst (GetCropRect NDEBUG type viewIndex crow ccol ratio rng) = Ok rect /\
    in_bounds rect crow ccol /\
    rect_width rect = rect_height rect /\
    d_floor (d_mul (int_to_double (Z.min crow ccol)) ratio) = Some (rect_width rect).
Proof.
  intros Hrow Hcol Hv Hpos Hle1 Hpassed.
  assert (Hview : viewIndex_allowed type viewIndex \/ (NDEBUG = true /\ 0 <= viewIndex)).
  { destruct Hpassed as [-> | [H | H]].
    - left. apply view_index_allowed.
    - left. exact H.
    - right. exact H. }
  clear Hpassed.
  destruct (cropSize_range (Z.min crow ccol) ratio ltac:(lia) Hv Hpos Hle1)
    as [Hcs Hfloor].
  unfold GetCropRect, in_bounds. cbv zeta.
  set (cs := double_to_int (d_mul (int_to_double (Z.min crow ccol)) ratio)) in *.
  assert (Hx : int_sub ccol cs = ccol - cs) by (apply int_sub_small; lia).
  assert (Hy : int_sub crow cs = crow - cs) by (apply int_sub_small; lia).
  destruct (int_div_half (ccol - cs) ltac:(lia)) as [Hdx Hrx].
  destruct (int_div_half (crow - cs) ltac:(lia)) as [Hdy Hry].
  rewrite check_ok by (right; apply Z.ltb_lt; lia).
  rewrite check_ok by (right; apply Z.ltb_lt; lia).
  rewrite check_ok by (right; rewrite Hpos, Hle1; reflexivity).
  cbv beta. rewrite ?Hx, ?Hy. rewrite Hfloor.
  match goal with
  | |- context [bind _ ?K rng] => set (finish := K)
  end.
  assert (Hfinish : forall x y g,
    0 <= x <= ccol - cs -> 0 <= y <= crow - cs ->
    exists rect,
      fst (finish (x, y) g) = Ok rect /\
      (0 <= rect_x rect /\ 0 <= rect_y rect /\
       rect_x rect + rect_width rect <= ccol /\ rect_y rect + rect_height rect <= crow) /\
      rect_width rect = rect_height rect /\ Some cs = Some (rect_width rect)).
  { intros x y g Hxr Hyr. unfold finish. simpl fst. simpl snd.
    rewrite check_ok by (right; apply range_check; lia).
    rewrite check_ok by (right; apply range_check; lia).
    eexists. split; [reflexivity | ]. simpl. repeat split; lia. }
  clearbody finish.
  destruct type.
  - rewrite bind_bind, check_ok
      by (destruct Hview as [Hview | [-> _]];
          [right; simpl in Hview; subst; reflexivity | left; reflexivity]).
    rewrite bind_ret, Hdx, Hdy. apply Hfinish; lia.
  - rewrite bind_bind, check_ok
      by (destruct Hview as [Hview | [-> _]];
          [right; simpl in Hview; subst; reflexivity | left; reflexivity]).
    rewrite bind_bind, bind_draw, bind_bind, bind_draw, bind_ret.
    apply Hfinish; apply UniIntT_range; lia.
  - rewrite bind_bind, check_ok
      by (destruct Hview as [Hview | [-> _]];
          [right; simpl in Hview; apply range_check_lt; lia | left; reflexivity]).
    rewrite bind_ret.
    assert (Hnonneg : 0 <= viewIndex)
      by (destruct Hview as [Hview | [_ ?]]; [simpl in Hview | ]; lia).
    destruct (isubView_cases viewIndex Hnonneg) as [-> | [-> | [-> | [-> | ->]]]];
      try rewrite Hdx; try rewrite Hdy; apply Hfinish; lia.
Qed.

Lemma GetCropRect_in_bounds_witness :
  exists rect,
    fst (GetCropRect false CropType.Random 0 10 20 d_half [7; 12345]) = Ok rect /\
    in_bounds rect 10 20 /\
    rect_width rect = rect_height rect /\
    d_floor (d_mul (int_to_double (Z.min 10 20)) d_half) = Some (rect_width rect).
Proof.
  apply (GetCropRect_in_bounds false TapeRandom CropType.Random 12 0 10 20 d_half).
  - unfold INT_MAX. lia.
  - unfold INT_MAX. lia.
  - reflexivity.
  - reflexivity.
  - reflexivity.
  - left. reflexivity.
Defined.

(** The range of the view index is a precondition of [GetCropRect],
    which [Apply] always meets.  Called on its own with the index -1 in
    MultiView10 mode, it keeps the initial offsets (-1, -1) when the
    assertions are compiled out, and fails its assertion otherwise. *)
Lemma GetCropRect_negative_view_index :
  exists rect,
    fst (GetCropRect true CropType.MultiView10 (-1) 10 10 d_one (lcg_tape 64 0))
      = Ok rect /\
    ~ in_bounds rect 10 10.
Proof.
  exists (mkRect (-1) (-1) 10 10). split; [vm_compute; reflexivity | ].
  unfold in_bounds. simpl. lia.
Qed.

(** With the assertions enabled the same call aborts. *)
Lemma GetCropRect_negative_view_index_debug :
  fst (GetCropRect false CropType.MultiView10 (-1) 10 10 d_one (lcg_tape 64 0))
    = Throw AssertionFailure.
Proof. vm_compute. reflexivity. Qed.

(** The floor is the floor of the rounded product: three times the
    double nearest to 1/3 is the double 1, so the crop of a 3 x 3 image
    has size 1, although the exact product is below 1. *)
Lemma cropSize_rounded_product :
  double_to_int (d_mul (int_to_double 3) d_third) = 1 /\
  (3 * 6004799503160661 < 1 * 2 ^ 54)%Z.
Proof. split; [vm_compute; reflexivity | lia]. Qed.

(** C9: the center crop has offsets xOff = (cols - size) / 2 and
    yOff = (rows - size) / 2 in integer division; for cols = 100,
    rows = 80 and ratio = 0.5 it is size = 40, xOff = 30, yOff = 20. *)
Theorem center_crop_offsets (NDEBUG : bool) (rnd : RandomLib)
    (crow ccol : Z) (ratio : double) (rng : mt19937) :
  0 < crow <= INT_MAX -> 0 < ccol <= INT_MAX ->
  is_double ratio -> d_ltb d_zero ratio = true -> d_leb ratio d_one = true ->
  (exists size,
     d_floor (d_mul (int_to_double (Z.min crow ccol)) ratio) = Some size /\
     GetCropRect NDEBUG CropType.Center 0 crow ccol ratio rng =
       (Ok (mkRect ((ccol - size) / 2) ((crow - size) / 2) size size), rng)) /\
  GetCropRect NDEBUG CropType.Center 0 80 100 d_half rng =
    (Ok (mkRect 30 20 40 40), rng).
Proof.
  intros Hrow Hcol Hv Hpos Hle1. split.
  - destruct (cropSize_range (Z.min crow ccol) ratio ltac:(lia) Hv Hpos Hle1)
      as [Hcs Hfloor].
    eexists. split; [exact Hfloor | ].
    unfold GetCropRect. cbv zeta.
    set (cs := double_to_int (d_mul (int_to_double (Z.min crow ccol)) ratio)) in *.
    assert (Hx : int_sub ccol cs = ccol - cs) by (apply int_sub_small; lia).
    assert (Hy : int_sub crow cs = crow - cs) by (apply int_sub_small; lia).
    destruct (int_div_half (ccol - cs) ltac:(lia)) as [Hdx Hrx].
    destruct (int_div_half (crow - cs) ltac:(lia)) as [Hdy Hry].
    rewrite check_ok by (right; apply Z.ltb_lt; lia).
    rewrite check_ok by (right; apply Z.ltb_lt; lia).
    rewrite check_ok by (right; rewrite Hpos, Hle1; reflexivity).
    rewrite bind_bind, check_ok by (right; reflexivity).
    rewrite bind_ret. rewrite Hx, Hy, Hdx, Hdy. simpl fst. simpl snd.
    rewrite check_ok by (right; apply range_check; lia).
    rewrite check_ok by (right; apply range_check; lia).
    reflexivity.
  - destruct NDEBUG; vm_compute; reflexivity.
Qed.

Lemma center_crop_offsets_witness :
  (exists size,
     d_floor (d_mul (int_to_double (Z.min 80 100)) d_half) = Some size /\
     GetCropRect false CropType.Center 0 80 100 d_half (lcg_tape 64 0) =
       (Ok (mkRect ((100 - size) / 2) ((80 - size) / 2) size size), lcg_tape 64 0)) /\
  GetCropRect false CropType.Center 0 80 100 d_half (lcg_tape 64 0) =
    (Ok (mkRect 30 20 40 40), lcg_tape 64 0).
Proof.
  apply (center_crop_offsets false TapeRandom 80 100 d_half (lcg_tape 64 0)).
  - unfold INT_MAX. lia.
  - unfold INT_MAX. lia.
  - reflexivity.
  - reflexivity.
  - reflexivity.
Defined.

(** ** The crop transform in MultiView10 mode *)

Lemma fst_with_rng {rnd : RandomLib} {A : Type} (seed : Z) (body : Rng A)
    (m_rngs : list mt19937) :
  fst (with_rng seed body m_rngs) =
  fst (body (fst (pop_or_create (fun _ => mt19937_seed seed) m_rngs))).
Proof.
  unfold with_rng. destruct (pop_or_create _ m_rngs) as [rng rest]. simpl.
  destruct (body rng) as [[a | e] g]; reflexivity.
Qed.

(** In MultiView10 mode [GetCropRect] does not touch the generator. *)
Lemma GetCropRect_MultiView10_pure (NDEBUG : bool) {rnd : RandomLib}
    (viewIndex crow ccol : Z) (ratio : double) :
  exists res, forall g,
    GetCropRect NDEBUG CropType.MultiView10 viewIndex crow ccol ratio g = (res, g).
Proof.
  unfold GetCropRect, bind, assert_, ret, throw. cbv zeta.
  repeat match goal with
         | |- context [if ?b then _ else _] => destruct b
         end;
    eexists; intros g; reflexivity.
Qed.

Lemma Apply_body_MultiView10 (NDEBUG : bool) {rnd : RandomLib} {cv : OpenCV}
    (t : SlimCropTransformer) (id : Z) (mat : Mat cv) (g : mt19937) :
  m_cropType t = CropType.MultiView10 -> m_hFlip t = false ->
  fst (SlimCropTransformer_Apply_body NDEBUG t id mat g) =
  match fst (jitter_ratio NDEBUG t g) with
  | Throw e => Throw e
  | Ok ratio => multiview_outcome NDEBUG (int_wrap (size_wrap id mod 10)) mat ratio
  end.
Proof.
  intros Htype Hflip. unfold SlimCropTransformer_Apply_body, bind at 1.
  destruct (jitter_ratio NDEBUG t g) as [[ratio | e] g']; [ | reflexivity].
  simpl fst. cbv zeta. rewrite Htype, Hflip. simpl CropType.eqb. cbv iota.
  set (v := int_wrap (size_wrap id mod 10)).
  unfold multiview_outcome.
  destruct (GetCropRect_MultiView10_pure NDEBUG v (mat_rows mat) (mat_cols mat) ratio)
    as [res Hres].
  unfold bind. rewrite !Hres. simpl fst.
  destruct res as [rect | e]; [ | reflexivity].
  unfold lift. destruct (cv_roi mat rect) as [cropped | e]; reflexivity.
Qed.

Lemma multiview_outcome_Ok (NDEBUG : bool) {rnd : RandomLib} {cv : OpenCV}
    (v : Z) (mat : Mat cv) (ratio : double) (tr : CropTrace) :
  multiview_outcome NDEBUG v mat ratio = Ok tr ->
  trace_ratio tr = ratio /\ trace_viewIndex tr = v /\ trace_flip tr = (5 <=? v).
Proof.
  unfold multiview_outcome.
  destruct (fst (GetCropRect _ _ _ _ _ _ _)) as [rect | e]; [ | discriminate].
  destruct (cv_roi mat rect) as [cropped | e]; [ | discriminate].
  intros H. injection H as <-. auto.
Qed.

(** Without a ratio to draw, the ratio does not depend on the generator. *)
Lemma jitter_ratio_fixed (NDEBUG : bool) {rnd : RandomLib} (t : SlimCropTransformer)
    (g1 g2 : mt19937) :
  m_jitterType t <> RatioJitterType.UniRatio \/
  d_eqb (m_cropRatioMin t) (m_cropRatioMax t) = true ->
  fst (jitter_ratio NDEBUG t g1) = fst (jitter_ratio NDEBUG t g2).
Proof.
  unfold jitter_ratio. intros [H | H].
  - destruct (m_jitterType t); try reflexivity. congruence.
  - rewrite H. destruct (m_jitterType t); reflexivity.
Qed.

Lemma view_of_id (id : Z) :
  0 <= id <= SIZE_MAX -> int_wrap (size_wrap id mod 10) = id mod 10.
Proof.
  intros Hid. rewrite size_wrap_id by assumption.
  apply int_wrap_id. pose proof (Z.mod_pos_bound id 10 ltac:(lia)).
  unfold is_int, INT_MIN, INT_MAX. lia.
Qed.

(** C2, amended: in MultiView10 mode with the horizontal flip not
    enabled (the default of this mode), two calls of the crop transform on
    the same input with sample ids equal modulo 10 select the view
    sampleId mod 10 and flip exactly when that view is at least 5,
    whatever the states of the generators they borrow; they produce the
    same rectangle and image whenever they use the same ratio, and they
    always do when no ratio is drawn (jitter other than UniRatio, or
    min = max), in which case the two calls agree also on failure. *)
Theorem MultiView10_pure_in_sample_id (NDEBUG : bool) (rnd : RandomLib) (cv : OpenCV)
    (t : SlimCropTransformer) (id1 id2 : Z) (mat : Mat cv)
    (m_rngs1 m_rngs2 : list mt19937) :
  m_cropType t = CropType.MultiView10 ->
  m_hFlip t = false ->
  0 <= id1 <= SIZE_MAX -> 0 <= id2 <= SIZE_MAX -> id1 mod 10 = id2 mod 10 ->
  (forall tr1 tr2,
     fst (SlimCropTransformer_Apply_trace NDEBUG t id1 mat m_rngs1) = Ok tr1 ->
     fst (SlimCropTransformer_Apply_trace NDEBUG t id2 mat m_rngs2) = Ok tr2 ->
     trace_viewIndex tr1 = id1 mod 10 /\
     trace_viewIndex tr2 = id1 mod 10 /\
     trace_flip tr1 = (5 <=? id1 mod 10) /\
     trace_flip tr2 = (5 <=? id1 mod 10) /\
     (trace_ratio tr1 = trace_ratio tr2 ->
      trace_rect tr1 = trace_rect tr2 /\ trace_mat tr1 = trace_mat tr2)) /\
  (m_jitterType t <> RatioJitterType.UniRatio \/
   d_eqb (m_cropRatioMin t) (m_cropRatioMax t) = true ->
   fst (SlimCropTransformer_Apply_trace NDEBUG t id1 mat m_rngs1) =
   fst (SlimCropTransformer_Apply_trace NDEBUG t id2 mat m_rngs2)).
Proof.
  intros Htype Hflip Hid1 Hid2 Hmod.
  unfold SlimCropTransformer_Apply_trace. rewrite !fst_with_rng.
  set (g1 := fst (pop_or_create _ m_rngs1)).
  set (g2 := fst (pop_or_create _ m_rngs2)).
  rewrite !Apply_body_MultiView10 by assumption.
  rewrite !view_of_id by assumption. rewrite <- Hmod.
  split.
  - intros tr1 tr2 H1 H2.
    destruct (fst (jitter_ratio NDEBUG t g1)) as [r1 | e1]; [ | discriminate].
    destruct (fst (jitter_ratio NDEBUG t g2)) as [r2 | e2]; [ | discriminate].
    destruct (multiview_outcome_Ok _ _ _ _ _ H1) as (Hr1 & Hv1 & Hf1).
    destruct (multiview_outcome_Ok _ _ _ _ _ H2) as (Hr2 & Hv2 & Hf2).
    repeat split; try assumption.
    + assert (tr1 = tr2) by congruence. congruence.
    + assert (tr1 = tr2) by congruence. congruence.
  - intros Hfixed. rewrite (jitter_ratio_fixed NDEBUG t g1 g2 Hfixed). reflexivity.
Qed.

Lemma MultiView10_pure_in_sample_id_witness :
  (forall tr1 tr2,
     fst (SlimCropTransformer_Apply_trace false multiview_jitter 3 image_4x6 []) = Ok tr1 ->
     fst (SlimCropTransformer_Apply_trace false multiview_jitter 13 image_4x6 [[1; 2]]) = Ok tr2 ->
     trace_viewIndex tr1 = 3 mod 10 /\
     trace_viewIndex tr2 = 3 mod 10 /\
     trace_flip tr1 = (5 <=? 3 mod 10) /\
     trace_flip tr2 = (5 <=? 3 mod 10) /\
     (trace_ratio tr1 = trace_ratio tr2 ->
      trace_rect tr1 = trace_rect tr2 /\ trace_mat tr1 = trace_mat tr2)) /\
  (m_jitterType multiview_jitter <> RatioJitterType.UniRatio \/
   d_eqb (m_cropRatioMin multiview_jitter) (m_cropRatioMax multiview_jitter) = true ->
   fst (SlimCropTransformer_Apply_trace false multiview_jitter 3 image_4x6 []) =
   fst (SlimCropTransformer_Apply_trace false multiview_jitter 13 image_4x6 [[1; 2]])).
Proof.
  apply (MultiView10_pure_in_sample_id false TapeRandom IntegerImages
           multiview_jitter 3 13 image_4x6 [] [[1; 2]]).
  - reflexivity.
  - reflexivity.
  - unfold SIZE_MAX. lia.
  - unfold SIZE_MAX. lia.
  - reflexivity.
Defined.

(** C2 as stated fails: the configuration may enable the horizontal
    flip in MultiView10 mode, and then the flip of the views 0 to 4 is the
    coin of the generator.  Two calls with the same id on the same image
    differ in the flip when their generators do in the coin. *)
Lemma MultiView10_flip_follows_coin :
  SlimCropTransformer_new multiview_hflip_config = Ok multiview_hflip /\
  m_cropType multiview_hflip = CropType.MultiView10 /\
  map_result trace_rect
    (fst (SlimCropTransformer_Apply_trace false multiview_hflip 0 image_4x6 [[0]]))
    = Ok (mkRect 0 0 4 4) /\
  map_result trace_rect
    (fst (SlimCropTransformer_Apply_trace false multiview_hflip 0 image_4x6 [[2 ^ 31]]))
    = Ok (mkRect 0 0 4 4) /\
  map_result trace_flip
    (fst (SlimCropTransformer_Apply_trace false multiview_hflip 0 image_4x6 [[0]]))
    = Ok true /\
  map_result trace_flip
    (fst (SlimCropTransformer_Apply_trace false multiview_hflip 0 image_4x6 [[2 ^ 31]]))
    = Ok false.
Proof. repeat split; vm_compute; reflexivity. Qed.

(** In every mode, a view of the mirrored half is flipped, and without
    the configured flip no other is. *)
Lemma crop_flip_decision (NDEBUG : bool) (rnd : RandomLib) (cv : OpenCV)
    (t : SlimCropTransformer) (id : Z) (mat : Mat cv) (m_rngs : list mt19937)
    (tr : CropTrace) :
  fst (SlimCropTransformer_Apply_trace NDEBUG t id mat m_rngs) = Ok tr ->
  (5 <= trace_viewIndex tr -> trace_flip tr = true) /\
  (m_hFlip t = false -> trace_flip tr = (5 <=? trace_viewIndex tr)).
Proof.
  unfold SlimCropTransformer_Apply_trace. rewrite fst_with_rng.
  set (g := fst (pop_or_create _ m_rngs)).
  unfold SlimCropTransformer_Apply_body. unfold bind at 1.
  destruct (jitter_ratio NDEBUG t g) as [[ratio | e] g1]; [ | discriminate].
  cbv zeta. unfold bind at 1.
  destruct (GetCropRect NDEBUG _ _ _ _ ratio g1) as [[rect | e] g2]; [ | discriminate].
  unfold bind at 1, lift.
  destruct (cv_roi mat rect) as [cropped | e]; [ | discriminate].
  unfold bind, ret, draw.
  destruct (m_hFlip t); simpl; intros H; injection H as <-; simpl; split.
  - intros Hv. apply Z.leb_le in Hv. rewrite Hv. apply orb_true_r.
  - discriminate.
  - intros Hv. apply Z.leb_le. exact Hv.
  - reflexivity.
Qed.

(** The rectangle follows the ratio: with the jitter UniRatio and
    min < max, the top-right view of a 4 x 6 image starts at column 4 for
    the ratio 0.5 and at column 3 for the ratio 0.75. *)
Lemma MultiView10_rect_follows_ratio :
  map_result trace_rect
    (fst (SlimCropTransformer_Apply_trace false multiview_jitter 1 image_4x6 [[0]]))
    = Ok (mkRect 4 0 2 2) /\
  map_result trace_rect
    (fst (SlimCropTransformer_Apply_trace false multiview_jitter 1 image_4x6 [[1]]))
    = Ok (mkRect 3 0 3 3).
Proof. split; vm_compute; reflexivity. Qed.

(** ** Names and ratios of the crop configuration *)

Lemma AreEqualIgnoreCase_spec (s1 s2 : string) :
  AreEqualIgnoreCase s1 s2 = true <-> to_lower s1 = to_lower s2.
Proof.
  revert s2. induction s1 as [ | c1 r1 IH]; intros [ | c2 r2]; simpl;
    try (split; [discriminate | discriminate]); [tauto | ].
  rewrite andb_true_iff, Ascii.eqb_eq, IH. split.
  - intros [-> ->]. reflexivity.
  - intros H. injection H. auto.
Qed.

Lemma AreEqualIgnoreCase_lower (s name : string) :
  to_lower name = name -> to_lower s <> name -> AreEqualIgnoreCase s name = false.
Proof.
  intros Hname Hne. destruct (AreEqualIgnoreCase s name) eqn:H; [ | reflexivity].
  apply AreEqualIgnoreCase_spec in H. congruence.
Qed.

Lemma string_empty_false (s : string) : s <> "" -> string_empty s = false.
Proof. destruct s; [congruence | reflexivity]. Qed.

Lemma ParseCropType_unrecognized (s : string) :
  unrecognized crop_type_names s ->
  ParseCropType s = Throw (RuntimeError ("Invalid crop type: " ++ s ++ ".")).
Proof.
  intros [Hne Hnames]. unfold ParseCropType.
  rewrite string_empty_false by assumption.
  rewrite !AreEqualIgnoreCase_lower;
    try reflexivity; apply Hnames; simpl; auto.
Qed.

Lemma ParseJitterType_unrecognized (s : string) :
  unrecognized jitter_type_names s ->
  ParseJitterType s = Throw (RuntimeError ("Invalid jitter type: " ++ s ++ ".")).
Proof.
  intros [Hne Hnames]. unfold ParseJitterType.
  rewrite string_empty_false by assumption.
  rewrite !AreEqualIgnoreCase_lower;
    try reflexivity; apply Hnames; simpl; auto 6.
Qed.

(** C7: the construction of the crop transform fails with a
    configuration error, and yields no transform, whenever the minimum or
    the maximum of the crop ratio lies outside (0, 1], or min > max, or
    the name of the crop strategy or of the jitter mode is unrecognized,
    names being matched ignoring case. *)
Theorem SlimCropTransformer_new_rejects (config : CropConfig) :
  in_unit_interval (config_cropRatioMin config) = false \/
  in_unit_interval (config_cropRatioMax config) = false \/
  d_ltb (config_cropRatioMax config) (config_cropRatioMin config) = true \/
  unrecognized crop_type_names (config_cropType config) \/
  unrecognized jitter_type_names (config_jitterType config) ->
  exists msg, SlimCropTransformer_new config = Throw (RuntimeError msg).
Proof.
  intros Hbad. unfold SlimCropTransformer_new.
  fold (config_cropType config) (config_jitterType config).
  fold (config_cropRatioMin config) (config_cropRatioMax config).
  fold (in_unit_interval (config_cropRatioMin config)).
  fold (in_unit_interval (config_cropRatioMax config)).
  destruct (ParseCropType (config_cropType config)) as [cropType | e] eqn:Hcrop.
  - destruct (negb (in_unit_interval (config_cropRatioMin config)) ||
              negb (in_unit_interval (config_cropRatioMax config)) ||
              d_ltb (config_cropRatioMax config) (config_cropRatioMin config))
      eqn:Hratio; [eauto | ].
    apply orb_false_elim in Hratio. destruct Hratio as [Hratio Hgt].
    apply orb_false_elim in Hratio. destruct Hratio as [Hmin Hmax].
    apply negb_false_iff in Hmin, Hmax.
    destruct Hbad as [H | [H | [H | [H | H]]]]; try congruence.
    + rewrite ParseCropType_unrecognized in Hcrop by assumption. discriminate.
    + rewrite ParseJitterType_unrecognized by assumption. eauto.
  - unfold ParseCropType in Hcrop.
    repeat match type of Hcrop with
           | (if ?b then _ else _) = _ => destruct b; try discriminate
           end.
    injection Hcrop as <-. eauto.
Qed.

Lemma SlimCropTransformer_new_rejects_witness :
  exists msg,
    SlimCropTransformer_new
      (mkCropConfig None (Some "Random") (Some (d_half, [d_one_and_half])) None None)
    = Throw (RuntimeError msg).
Proof.
  apply (SlimCropTransformer_new_rejects
           (mkCropConfig None (Some "Random") (Some (d_half, [d_one_and_half])) None None)).
  right. left. reflexivity.
Defined.

(** The examples of the specification: a crop ratio of 0 or of 1.5, an
    unknown strategy, an unknown jitter mode. *)
Lemma SlimCropTransformer_new_rejects_examples :
  SlimCropTransformer_new (mkCropConfig None None (Some (d_zero, [])) None None)
    = Throw (RuntimeError "Invalid cropRatio value, must be > 0 and <= 1. cropMin must <= cropMax") /\
  SlimCropTransformer_new (mkCropConfig None None (Some (d_one_and_half, [])) None None)
    = Throw (RuntimeError "Invalid cropRatio value, must be > 0 and <= 1. cropMin must <= cropMax") /\
  SlimCropTransformer_new (mkCropConfig None None (Some (d_one, [d_half])) None None)
    = Throw (RuntimeError "Invalid cropRatio value, must be > 0 and <= 1. cropMin must <= cropMax") /\
  SlimCropTransformer_new (mkCropConfig None (Some "corner") None None None)
    = Throw (RuntimeError "Invalid crop type: corner.") /\
  SlimCropTransformer_new (mkCropConfig None (Some "CENTER") None (Some "gaussian") None)
    = Throw (RuntimeError "Invalid jitter type: gaussian.").
Proof. repeat split; vm_compute; reflexivity. Qed.

(** C10: an empty crop-strategy name parses to Center and an empty
    jitter-mode name to None; with them (and a crop ratio in range) the
    construction succeeds. *)
Theorem empty_names_are_defaults :
  ParseCropType "" = Ok CropType.Center /\
  ParseJitterType "" = Ok RatioJitterType.None /\
  forall seed cropRatio hflip,
    in_unit_interval (config_cropRatioMin
                        (mkCropConfig seed (Some "") cropRatio (Some "") hflip)) = true ->
    in_unit_interval (config_cropRatioMax
                        (mkCropConfig seed (Some "") cropRatio (Some "") hflip)) = true ->
    d_ltb (config_cropRatioMax (mkCropConfig seed (Some "") cropRatio (Some "") hflip))
          (config_cropRatioMin (mkCropConfig seed (Some "") cropRatio (Some "") hflip))
      = false ->
    exists t,
      SlimCropTransformer_new (mkCropConfig seed (Some "") cropRatio (Some "") hflip)
        = Ok t /\
      m_cropType t = CropType.Center /\
      m_jitterType t = RatioJitterType.None.
Proof.
  split; [reflexivity | ]. split; [reflexivity | ].
  intros seed cropRatio hflip. unfold SlimCropTransformer_new.
  unfold config_cropRatioMin, config_cropRatioMax, in_unit_interval. simpl.
  intros -> -> ->. simpl. eexists. split; [reflexivity | ]. split; reflexivity.
Qed.

(** The same with the keys absent: the defaults are the empty names and
    the ratio 1. *)
Lemma default_configuration_constructs :
  SlimCropTransformer_new (mkCropConfig None None None None None) =
  Ok (mkSlimCropTransformer (SlimImageTransformerBase_new None) CropType.Center
        d_one d_one RatioJitterType.None false).
Proof. vm_compute. reflexivity. Qed.

(** ** The reserved jitter modes *)

Lemma GetCropRect_throws_assertion (NDEBUG : bool) {rnd : RandomLib}
    (type : CropType.t) (viewIndex crow ccol : Z) (ratio : double) (g : mt19937)
    (e : exception) :
  fst (GetCropRect NDEBUG type viewIndex crow ccol ratio g) = Throw e ->
  e = AssertionFailure.
Proof.
  unfold GetCropRect, bind, assert_, ret, throw, draw. cbv zeta.
  destruct type;
    repeat match goal with
           | |- context [if ?b then _ else _] => destruct b
           end;
    simpl; intros H; congruence.
Qed.

Lemma jitter_ratio_reserved (NDEBUG : bool) {rnd : RandomLib}
    (t : SlimCropTransformer) (g : mt19937) :
  m_jitterType t = RatioJitterType.UniLength \/
  m_jitterType t = RatioJitterType.UniArea ->
  jitter_ratio NDEBUG t g = (Throw not_implemented, g).
Proof. unfold jitter_ratio. intros [-> | ->]; reflexivity. Qed.

Lemma jitter_ratio_handled (NDEBUG : bool) {rnd : RandomLib}
    (t : SlimCropTransformer) (g : mt19937) (e : exception) :
  m_jitterType t = RatioJitterType.None \/
  m_jitterType t = RatioJitterType.UniRatio ->
  fst (jitter_ratio NDEBUG t g) = Throw e -> e = AssertionFailure.
Proof.
  unfold jitter_ratio, bind, assert_, ret, throw, draw.
  intros [-> | ->];
    repeat match goal with
           | |- context [if ?b then _ else _] => destruct b
           end;
    simpl; intros H; congruence.
Qed.

Lemma Apply_body_handled (NDEBUG : bool) {rnd : RandomLib} {cv : OpenCV}
    (t : SlimCropTransformer) (id : Z) (mat : Mat cv) (g : mt19937) (e : exception) :
  m_jitterType t = RatioJitterType.None \/
  m_jitterType t = RatioJitterType.UniRatio ->
  fst (SlimCropTransformer_Apply_body NDEBUG t id mat g) = Throw e ->
  e = AssertionFailure \/ e = CvException.
Proof.
  intros Hmode. unfold SlimCropTransformer_Apply_body. unfold bind at 1.
  pose proof (jitter_ratio_handled NDEBUG t g) as Hj.
  destruct (jitter_ratio NDEBUG t g) as [[ratio | e1] g1]; simpl.
  2: { intros H. injection H as <-. left. eapply Hj; [exact Hmode | reflexivity]. }
  cbv zeta. unfold bind at 1.
  match goal with
  | |- context [GetCropRect NDEBUG ?ty ?v ?r ?c ratio g1] =>
      pose proof (GetCropRect_throws_assertion NDEBUG ty v r c ratio g1) as Hg;
      destruct (GetCropRect NDEBUG ty v r c ratio g1) as [[rect | e2] g2]
  end; simpl.
  2: { intros H. injection H as <-. left. apply Hg. reflexivity. }
  unfold bind at 1, lift.
  assert (Hroi : forall e3, cv_roi mat rect = Throw e3 -> e3 = CvException).
  { unfold cv_roi. intros e3.
    repeat match goal with
           | |- context [if ?b then _ else _] => destruct b
           end; congruence. }
  destruct (cv_roi mat rect) as [cropped | e3]; simpl.
  2: { intros H. injection H as <-. right. apply Hroi. reflexivity. }
  unfold bind, ret, draw. destruct (m_hFlip t); simpl; discriminate.
Qed.

Lemma Apply_not_implemented_iff (NDEBUG : bool) (rnd : RandomLib) (cv : OpenCV)
    (t : SlimCropTransformer) (id : Z) (mat : Mat cv) (m_rngs : list mt19937) :
  fst (SlimCropTransformer_Apply NDEBUG t id mat m_rngs) = Throw not_implemented <->
  m_jitterType t = RatioJitterType.UniLength \/
  m_jitterType t = RatioJitterType.UniArea.
Proof.
  unfold SlimCropTransformer_Apply, SlimCropTransformer_Apply_trace. simpl fst.
  rewrite fst_with_rng. set (g := fst (pop_or_create _ m_rngs)). split.
  - intros H.
    destruct (m_jitterType t) eqn:Hmode; auto; exfalso.
    + destruct (fst (SlimCropTransformer_Apply_body NDEBUG t id mat g)) as [tr | e] eqn:Hb;
        [discriminate | ].
      injection H as ->.
      destruct (Apply_body_handled NDEBUG t id mat g _ ltac:(left; exact Hmode) Hb);
        discriminate.
    + destruct (fst (SlimCropTransformer_Apply_body NDEBUG t id mat g)) as [tr | e] eqn:Hb;
        [discriminate | ].
      injection H as ->.
      destruct (Apply_body_handled NDEBUG t id mat g _ ltac:(right; exact Hmode) Hb);
        discriminate.
  - intros Hmode. unfold SlimCropTransformer_Apply_body, bind.
    rewrite (jitter_ratio_reserved NDEBUG t g Hmode). reflexivity.
Qed.

(** C8: the crop transform fails with the not-implemented error when
    the jitter mode is one of the reserved modes UniLength and UniArea,
    in [Apply] and so in the transform of a sample; under None and
    UniRatio, the modes that are handled, it never fails with it. *)
Theorem reserved_jitter_not_implemented (NDEBUG : bool) (rnd : RandomLib) (cv : OpenCV)
    (t : SlimCropTransformer) (id : Z) (mat : Mat cv) (m_rngs : list mt19937) :
  (fst (SlimCropTransformer_Apply NDEBUG t id mat m_rngs) = Throw not_implemented <->
   m_jitterType t = RatioJitterType.UniLength \/
   m_jitterType t = RatioJitterType.UniArea) /\
  (forall (sequence : DenseSequenceData cv) c w h,
     m_jitterType t = RatioJitterType.UniLength \/
     m_jitterType t = RatioJitterType.UniArea ->
     seq_sampleLayout sequence = [c; w; h] ->
     fst (SlimImageTransformerBase_Transform_sequence NDEBUG (crop_base t)
            (SlimCropTransformer_Apply NDEBUG t) sequence m_rngs)
     = Throw not_implemented).
Proof.
  split; [apply Apply_not_implemented_iff | ].
  intros sequence c w h Hmode Hlayout.
  unfold SlimImageTransformerBase_Transform_sequence.
  rewrite Hlayout. simpl ImageDimensions_of. cbv iota beta zeta.
  match goal with
  | |- context [SlimCropTransformer_Apply NDEBUG t ?i ?m m_rngs] =>
      pose proof (proj2 (Apply_not_implemented_iff NDEBUG rnd cv t i m m_rngs) Hmode) as H;
      destruct (SlimCropTransformer_Apply NDEBUG t i m m_rngs) as [[out | e] m_rngs']
  end; simpl in H; [discriminate | ].
  injection H as ->. reflexivity.
Qed.

(** ** The mean transform *)

Lemma CV_MAKETYPE_inj (d1 c1 d2 c2 : Z) :
  CV_MAKETYPE d1 c1 = CV_MAKETYPE d2 c2 -> Z.land d1 7 = Z.land d2 7 /\ c1 = c2.
Proof.
  unfold CV_MAKETYPE. rewrite !Z.shiftl_mul_pow2 by lia.
  change 7 with (Z.ones 3). rewrite !Z.land_ones by lia.
  pose proof (Z.mod_pos_bound d1 (2 ^ 3) ltac:(lia)).
  pose proof (Z.mod_pos_bound d2 (2 ^ 3) ltac:(lia)).
  change (2 ^ 3) with 8 in *. lia.
Qed.

Lemma cv_subtract_Ok {cv : OpenCV} (a b out : Mat cv) :
  cv_subtract a b = Ok out ->
  mat_size a = mat_size b /\ mat_channels a = mat_channels b /\
  out = mkMat (mat_rows a) (mat_cols a) (mat_depth a) (mat_channels a)
          (mat_continuous a) (zip_with elt_sub (mat_data a) (mat_data b)).
Proof.
  unfold cv_subtract, size_eqb, mat_size, mat_type. simpl.
  destruct ((mat_cols a =? mat_cols b) && (mat_rows a =? mat_rows b) &&
            (CV_MAKETYPE (mat_depth a) (mat_channels a) =?
             CV_MAKETYPE (mat_depth b) (mat_channels b))) eqn:Hc; [ | discriminate].
  apply andb_prop in Hc. destruct Hc as [Hc Ht].
  apply andb_prop in Hc. destruct Hc as [Hcols Hrows].
  apply Z.eqb_eq in Hcols, Hrows, Ht. apply CV_MAKETYPE_inj in Ht.
  intros H. injection H as <-. rewrite Hcols, Hrows. tauto.
Qed.

Lemma cv_subtract_same_type {cv : OpenCV} (a b : Mat cv) :
  mat_size a = mat_size b -> mat_depth a = mat_depth b ->
  mat_channels a = mat_channels b ->
  cv_subtract a b =
  Ok (mkMat (mat_rows a) (mat_cols a) (mat_depth a) (mat_channels a)
        (mat_continuous a) (zip_with elt_sub (mat_data a) (mat_data b))).
Proof.
  unfold cv_subtract, size_eqb, mat_size, mat_type. intros Hs Hd Hc.
  injection Hs as Hcols Hrows. rewrite Hcols, Hrows, Hd, Hc, !Z.eqb_refl.
  reflexivity.
Qed.

Lemma size_eqb_eq (a b : Z * Z) : size_eqb a b = true <-> a = b.
Proof.
  destruct a as [a1 a2], b as [b1 b2]. unfold size_eqb. simpl.
  rewrite andb_true_iff, !Z.eqb_eq. split; [intros [-> ->]; reflexivity | ].
  intros H. injection H. auto.
Qed.

(** C3, amended: the mean transform leaves the buffer unchanged,
    without an error, whenever the pixel dimensions of the stored mean
    image differ from those of the sample and either no mean image is
    loaded (its size is 0 x 0) or the assertions are compiled out; with
    the assertions enabled, a loaded mean image of other dimensions
    fails the assertion of the transform.  It returns a subtracted buffer
    only when the pixel dimensions and the channel counts match, and then
    the buffer is the element-wise difference; with dimensions, channel
    count and depth matching it always does. *)
Theorem mean_subtraction_cases (NDEBUG : bool) (cv : OpenCV)
    (t : SlimMeanTransformer) (id : Z) (mat : Mat cv) :
  (mat_size (m_meanImg t) <> mat_size mat ->
   NDEBUG = true \/ mat_size (m_meanImg t) = (0, 0) ->
   SlimMeanTransformer_Apply NDEBUG t id mat = Ok mat) /\
  (mat_size (m_meanImg t) <> mat_size mat ->
   NDEBUG = false -> mat_size (m_meanImg t) <> (0, 0) ->
   SlimMeanTransformer_Apply NDEBUG t id mat = Throw AssertionFailure) /\
  (forall out,
     SlimMeanTransformer_Apply NDEBUG t id mat = Ok out ->
     (mat_size (m_meanImg t) <> mat_size mat /\ out = mat) \/
     (mat_size (m_meanImg t) = mat_size mat /\
      mat_channels (m_meanImg t) = mat_channels mat /\
      out = mkMat (mat_rows mat) (mat_cols mat) (mat_depth mat) (mat_channels mat)
              (mat_continuous mat)
              (zip_with elt_sub (mat_data mat) (mat_data (m_meanImg t))))) /\
  (mat_size (m_meanImg t) = mat_size mat ->
   mat_channels (m_meanImg t) = mat_channels mat ->
   mat_depth (m_meanImg t) = mat_depth mat ->
   SlimMeanTransformer_Apply NDEBUG t id mat =
   Ok (mkMat (mat_rows mat) (mat_cols mat) (mat_depth mat) (mat_channels mat)
         (mat_continuous mat)
         (zip_with elt_sub (mat_data mat) (mat_data (m_meanImg t))))).
Proof.
  unfold SlimMeanTransformer_Apply.
  destruct (size_eqb (mat_size (m_meanImg t)) (mat_size mat)) eqn:Hsize.
  - apply size_eqb_eq in Hsize. repeat split; try congruence.
    + intros out H.
      destruct (negb _); [discriminate | ].
      apply cv_subtract_Ok in H. destruct H as (_ & Hc & ->). right. auto.
    + intros _ Hc Hd. rewrite Hc, Z.eqb_refl. simpl.
      rewrite !orb_true_r. simpl.
      apply cv_subtract_same_type; congruence.
  - assert (Hne : mat_size (m_meanImg t) <> mat_size mat).
    { intros H. apply size_eqb_eq in H. congruence. }
    repeat split; try congruence.
    + intros _ [-> | H0]; [reflexivity | ].
      apply size_eqb_eq in H0. rewrite H0. simpl. rewrite orb_true_r. reflexivity.
    + intros _ -> H0.
      destruct (size_eqb (mat_size (m_meanImg t)) (0, 0)) eqn:Hz;
        [apply size_eqb_eq in Hz; congruence | reflexivity].
    + intros out H. destruct (negb _); [discriminate | ].
      injection H as <-. left. auto.
Qed.

(** Without a mean file the transform is the no-op in every build. *)
Lemma mean_absent_is_noop (NDEBUG : bool) (cv : OpenCV) (seed : option Z) (id : Z)
    (mat : Mat cv) :
  mat_size mat <> (0, 0) ->
  SlimMeanTransformer_Apply NDEBUG (SlimMeanTransformer_new_without_file seed) id mat
  = Ok mat.
Proof.
  intros Hne. unfold SlimMeanTransformer_Apply. simpl m_meanImg.
  change (size_eqb (mat_size mat_released) (0, 0)) with true.
  rewrite orb_true_r. simpl negb. cbv iota.
  destruct (size_eqb (mat_size mat_released) (mat_size mat)) eqn:H; [ | reflexivity].
  apply size_eqb_eq in H. unfold mat_released, mat_size in H. simpl in H.
  exfalso. apply Hne. unfold mat_size. congruence.
Qed.

(** C3 as stated fails in a build with the assertions enabled: a loaded
    mean image of 1 x 1 pixels and a sample of 4 x 6 pixels. *)
Lemma mean_mismatch_fails_assertion :
  mat_size (mkMat 1 1 CV_64F 1 true [5]) <> mat_size image_4x6 /\
  SlimMeanTransformer_Apply false
    (mkSlimMeanTransformer (SlimImageTransformerBase_new None) (mkMat 1 1 CV_64F 1 true [5]))
    0 image_4x6
  = Throw AssertionFailure.
Proof. split; [discriminate | reflexivity]. Qed.

(** With the assertions compiled out the same call is the no-op. *)
Lemma mean_mismatch_release :
  SlimMeanTransformer_Apply true
    (mkSlimMeanTransformer (SlimImageTransformerBase_new None) (mkMat 1 1 CV_64F 1 true [5]))
    0 image_4x6
  = Ok image_4x6.
Proof. reflexivity. Qed.

(** ** Shape negotiation *)

Lemma StorageType_eqb_dense (s : StorageType) :
  s <> dense -> StorageType_eqb s dense = false.
Proof. destruct s; [congruence | reflexivity]. Qed.

(** C4, amended: the shape negotiation of the crop, scale and mean
    transforms (that of their base class) fails with an invalid-input
    error when the stream is not dense or its elements are neither
    32-bit nor 64-bit floats, and succeeds otherwise.  The negotiation
    of the transpose transform fails when the stream is not dense, but
    does not look at the element type: on a dense stream of rank three
    it succeeds for every element type, and an unsupported element type
    is rejected by the transform of the first sample. *)
Theorem negotiation_checks :
  (forall b input,
     m_storageType input <> dense ->
     fst (SlimImageTransformerBase_Transform b input) =
     Throw (LogicError "ImageTransformerBase supports only dense input streams.")) /\
  (forall b input,
     m_storageType input = dense ->
     m_elementType input <> tfloat -> m_elementType input <> tdouble ->
     fst (SlimImageTransformerBase_Transform b input) =
     Throw (RuntimeError "Unsupported type")) /\
  (forall b input,
     m_storageType input = dense ->
     m_elementType input = tfloat \/ m_elementType input = tdouble ->
     fst (SlimImageTransformerBase_Transform b input) = Ok input) /\
  (forall input,
     m_storageType input <> dense ->
     exists e, SlimTransposeTransformer_Transform input = Throw e) /\
  (forall input c w h,
     m_storageType input = dense ->
     m_sampleLayout input = [c; w; h] ->
     SlimTransposeTransformer_Transform input =
     Ok (mkStreamDescription dense (m_elementType input) [w; h; c],
         mkSlimTransposeTransformer input
           (mkStreamDescription dense (m_elementType input) [w; h; c]))) /\
  (forall (NDEBUG : bool) (cv : OpenCV) t (sequence : DenseSequenceData cv),
     m_elementType (tr_inputStream t) <> tfloat ->
     m_elementType (tr_inputStream t) <> tdouble ->
     SlimTransposeTransformer_Transform_sequence NDEBUG t sequence =
     Throw (RuntimeError "Unsupported type")).
Proof.
  repeat split.
  - intros b input Hs. unfold SlimImageTransformerBase_Transform.
    rewrite StorageType_eqb_dense by assumption. reflexivity.
  - intros b input Hs Hf Hd. unfold SlimImageTransformerBase_Transform.
    rewrite Hs. simpl.
    destruct (m_elementType input) eqn:He; try congruence; reflexivity.
  - intros b input Hs He. unfold SlimImageTransformerBase_Transform.
    rewrite Hs. simpl. destruct He as [-> | ->]; reflexivity.
  - intros input Hs. unfold SlimTransposeTransformer_Transform.
    destruct (ImageDimensions_of _ _); [ | eauto].
    rewrite StorageType_eqb_dense by assumption. simpl. eauto.
  - intros input c w h Hs Hl. unfold SlimTransposeTransformer_Transform.
    rewrite Hl, Hs. reflexivity.
  - intros NDEBUG cv t sequence Hf Hd.
    unfold SlimTransposeTransformer_Transform_sequence.
    destruct (m_elementType (tr_inputStream t)) eqn:He; try congruence; reflexivity.
Qed.

(** C4 as stated fails for the transpose transform: its negotiation
    accepts a dense stream whose elements are neither floats nor doubles,
    and the element type is refused only when the first sample arrives. *)
Lemma transpose_negotiation_accepts_any_element_type :
  SlimTransposeTransformer_Transform (mkStreamDescription dense tatom [3; 6; 4]) =
  Ok (mkStreamDescription dense tatom [6; 4; 3],
      mkSlimTransposeTransformer (mkStreamDescription dense tatom [3; 6; 4])
        (mkStreamDescription dense tatom [6; 4; 3])) /\
  SlimTransposeTransformer_Transform_sequence false
    (mkSlimTransposeTransformer (mkStreamDescription dense tatom [3; 6; 4])
       (mkStreamDescription dense tatom [6; 4; 3]))
    (mkDenseSequenceData (cv := IntegerImages) 0 1 [3; 6; 4] (seqZ 0 72))
  = Throw (RuntimeError "Unsupported type").
Proof. split; reflexivity. Qed.

(** ** The scale transform *)

Lemma CV_MAKETYPE_channels (depth cn : Z) :
  1 <= cn <= 512 ->
  Z.land (Z.shiftr (CV_MAKETYPE depth cn) 3) 511 + 1 = cn /\
  Z.land (CV_MAKETYPE depth cn) 7 = Z.land depth 7.
Proof.
  intros Hcn. unfold CV_MAKETYPE.
  rewrite Z.shiftl_mul_pow2, Z.shiftr_div_pow2 by lia.
  change 511 with (Z.ones 9). change 7 with (Z.ones 3).
  rewrite !Z.land_ones by lia.
  change (2 ^ 3) with 8. change (2 ^ 9) with 512.
  pose proof (Z.mod_pos_bound depth 8 ltac:(lia)) as Hd.
  rewrite Z.div_add by lia. rewrite (Z.div_small (depth mod 8) 8) by lia.
  rewrite Z.add_0_l, (Z.mod_small (cn - 1) 512) by lia.
  split; [lia | ].
  rewrite Z.mod_add by lia. apply Z.mod_mod. lia.
Qed.

Lemma cv_convertTo_shape {cv : OpenCV} (m : Mat cv) (rtype : Z) :
  mat_rows (cv_convertTo m rtype) = mat_rows m /\
  mat_cols (cv_convertTo m rtype) = mat_cols m /\
  mat_channels (cv_convertTo m rtype) = mat_channels m.
Proof. unfold cv_convertTo. destruct (_ =? _); auto. Qed.

Lemma SlimScaleTransformer_new_fields (config : ScaleConfig) (t : SlimScaleTransformer) :
  SlimScaleTransformer_new config = Ok t ->
  m_imgWidth t = scfg_width config /\ m_imgHeight t = scfg_height config /\
  m_imgChannels t = scfg_channels config /\ m_interp t <> [].
Proof.
  unfold SlimScaleTransformer_new. cbv zeta.
  destruct (_ || _); [discriminate | ].
  intros H. injection H as <-. simpl.
  repeat split. destruct (omap _ _); discriminate.
Qed.

Lemma SlimScaleTransformer_Apply_shape (NDEBUG : bool) {rnd : RandomLib} {cv : OpenCV}
    (t : SlimScaleTransformer) (id : Z) (mat : Mat cv) (m_rngs : list mt19937) :
  0 < mat_rows mat -> 0 < mat_cols mat ->
  0 < int_wrap (m_imgWidth t) -> 0 < int_wrap (m_imgHeight t) ->
  m_interp t <> [] ->
  exists out,
    fst (SlimScaleTransformer_Apply NDEBUG t id mat m_rngs) = Ok out /\
    mat_rows out = int_wrap (m_imgHeight t) /\
    mat_cols out = int_wrap (m_imgWidth t) /\
    mat_channels out = mat_channels mat /\ mat_continuous out = true.
Proof.
  intros Hrows Hcols Hw Hh Hinterp. unfold SlimScaleTransformer_Apply. cbv zeta.
  set (mat1 := if negb _ then _ else mat).
  assert (Hshape : mat_rows mat1 = mat_rows mat /\ mat_cols mat1 = mat_cols mat /\
                   mat_channels mat1 = mat_channels mat).
  { unfold mat1. destruct (negb _); [apply cv_convertTo_shape | auto]. }
  destruct Hshape as (Hr & Hc & Hch).
  rewrite fst_with_rng. set (g := fst (pop_or_create _ m_rngs)).
  rewrite bind_draw.
  rewrite check_ok.
  2: { right. apply Z.ltb_lt. destruct (m_interp t); [congruence | simpl; lia]. }
  unfold lift, cv_resize. simpl fst.
  rewrite Hr, Hc.
  destruct (Z.leb_spec (mat_rows mat) 0); [lia | ].
  destruct (Z.leb_spec (mat_cols mat) 0); [lia | ].
  destruct (Z.leb_spec (int_wrap (m_imgWidth t)) 0); [lia | ].
  destruct (Z.leb_spec (int_wrap (m_imgHeight t)) 0); [lia | ].
  simpl. eexists. split; [reflexivity | ]. simpl. auto.
Qed.

(** C6, amended: for a scale transform the constructor returned, in
    whatever state the negotiation left its base, and every sample of
    positive width and height with 1 to 512 channels, the transform
    returns a buffer whose declared shape is the configured target width
    and height as [Apply] casts them to [int], provided both casts are
    positive, with the channel count of the input, not the configured
    channel count: resizing keeps the channels of its source. *)
Theorem scale_output_shape (NDEBUG : bool) (rnd : RandomLib) (cv : OpenCV)
    (config : ScaleConfig) (t : SlimScaleTransformer) (b : SlimImageTransformerBase)
    (sequence : DenseSequenceData cv) (m_rngs : list mt19937) (c w h : Z) :
  SlimScaleTransformer_new config = Ok t ->
  seq_sampleLayout sequence = [c; w; h] ->
  1 <= c <= 512 -> 0 < w <= INT_MAX -> 0 < h <= INT_MAX ->
  0 < int_wrap (scfg_width config) -> 0 < int_wrap (scfg_height config) ->
  exists res,
    fst (SlimImageTransformerBase_Transform_sequence NDEBUG b
           (SlimScaleTransformer_Apply NDEBUG
              (mkSlimScaleTransformer b (m_imgWidth t) (m_imgHeight t)
                 (m_imgChannels t) (m_interp t)))
           sequence m_rngs) = Ok res /\
    img_sampleLayout res =
      [c; int_wrap (scfg_width config); int_wrap (scfg_height config)].
Proof.
  intros Hnew Hlayout Hc Hw Hh Htw Hth.
  destruct (SlimScaleTransformer_new_fields config t Hnew) as (Hfw & Hfh & _ & Hinterp).
  set (t' := mkSlimScaleTransformer b (m_imgWidth t) (m_imgHeight t)
               (m_imgChannels t) (m_interp t)).
  unfold SlimImageTransformerBase_Transform_sequence.
  rewrite Hlayout. simpl ImageDimensions_of. cbv iota beta zeta. simpl m_width.
  simpl m_height. simpl m_numChannels.
  rewrite (int_wrap_id c), (int_wrap_id w), (int_wrap_id h)
    by (unfold is_int, INT_MIN, INT_MAX in *; lia).
  destruct (CV_MAKETYPE_channels (m_imageElementType b) c Hc) as [Hch Hdepth].
  set (buffer := cv_Mat_on h w _ (m_data sequence)).
  destruct (SlimScaleTransformer_Apply_shape NDEBUG t' (m_id sequence) buffer m_rngs
              ltac:(simpl; lia) ltac:(simpl; lia)
              ltac:(simpl; rewrite Hfw; exact Htw)
              ltac:(simpl; rewrite Hfh; exact Hth) Hinterp)
    as (out & Hout & Hrows & Hcols & Hchan & Hcont).
  simpl m_imgWidth in Hcols. simpl m_imgHeight in Hrows.
  rewrite Hfw in Hcols. rewrite Hfh in Hrows.
  destruct (SlimScaleTransformer_Apply NDEBUG t' (m_id sequence) buffer m_rngs)
    as [[out' | e] m_rngs']; simpl in Hout; [ | discriminate].
  injection Hout as ->. rewrite Hcont. simpl negb. cbv iota.
  rewrite Hcont, orb_true_r. simpl.
  eexists. split; [reflexivity | ]. simpl.
  rewrite Hrows, Hcols, Hchan. unfold buffer, cv_Mat_on. simpl. rewrite Hch.
  reflexivity.
Qed.

Lemma scale_output_shape_witness :
  exists res,
    fst (SlimImageTransformerBase_Transform_sequence false (scale_base scale_2x2x3)
           (SlimScaleTransformer_Apply false
              (mkSlimScaleTransformer (scale_base scale_2x2x3)
                 (m_imgWidth scale_constructed) (m_imgHeight scale_constructed)
                 (m_imgChannels scale_constructed) (m_interp scale_constructed)))
           gray_4x6 []) = Ok res /\
    img_sampleLayout res =
      [1; int_wrap (scfg_width scale_config); int_wrap (scfg_height scale_config)].
Proof.
  apply (scale_output_shape false TapeRandom IntegerImages scale_config
           scale_constructed (scale_base scale_2x2x3) gray_4x6 [] 1 6 4).
  - reflexivity.
  - reflexivity.
  - lia.
  - unfold INT_MAX. lia.
  - unfold INT_MAX. lia.
  - vm_compute. reflexivity.
  - vm_compute. reflexivity.
Defined.

(** A width that does not fit an [int] is declared as cast: the
    constructor accepts the width 2^32 + 2, and the declared shape of
    the sample is 1 x 2 x 1. *)
Lemma scale_declares_the_cast_width :
  map_result m_imgWidth (SlimScaleTransformer_new (mkScaleConfig None 4294967298 1 1 None))
    = Ok 4294967298 /\
  map_result img_sampleLayout
    (fst (SlimImageTransformerBase_Transform_sequence false (scale_base scale_2x2x3)
            (SlimScaleTransformer_Apply false
               (mkSlimScaleTransformer (scale_base scale_2x2x3) 4294967298 1 1
                  [INTER_LINEAR]))
            gray_4x6 []))
    = Ok [1; 2; 1].
Proof. split; vm_compute; reflexivity. Qed.

(** C6 as stated fails: a transform configured for 2 x 2 pixels of 3
    channels gives a sample of one channel the shape 2 x 2 x 1. *)
Lemma scale_keeps_input_channels :
  map_result scale_base (SlimScaleTransformer_new scale_config)
    = Ok (SlimImageTransformerBase_new None) /\
  map_result m_imgChannels (SlimScaleTransformer_new scale_config) = Ok 3 /\
  map_result m_interp (SlimScaleTransformer_new scale_config)
    = Ok (m_interp scale_2x2x3) /\
  SlimImageTransformerBase_Transform (SlimImageTransformerBase_new None) gray_stream
    = (Ok gray_stream, scale_base scale_2x2x3) /\
  map_result img_sampleLayout
    (fst (SlimImageTransformerBase_Transform_sequence false (scale_base scale_2x2x3)
            (SlimScaleTransformer_Apply false scale_2x2x3) gray_4x6 []))
    = Ok [1; 2; 2] /\
  AsTensorShape (mkImageDimensions (m_imgWidth scale_2x2x3) (m_imgHeight scale_2x2x3)
                   (m_imgChannels scale_2x2x3)) HWC = [3; 2; 2].
Proof. repeat split; vm_compute; reflexivity. Qed.

(** ** The transposition *)

Section Writes.
Context {A B : Type}.
Variables (key : B -> nat) (val : B -> A).

Lemma length_write_all (l : list B) (dst : list A) :
  length (write_all key val dst l) = length dst.
Proof.
  revert dst. induction l as [ | b l IH]; intros dst; simpl; [reflexivity | ].
  unfold write_all in *. simpl. rewrite IH. apply length_insert.
Qed.

Lemma write_all_other (l : list B) (dst : list A) (j : nat) :
  (forall b, b ∈ l -> key b <> j) ->
  write_all key val dst l !! j = dst !! j.
Proof.
  revert dst. induction l as [ | b l IH]; intros dst Hl; [reflexivity | ].
  unfold write_all in *. simpl. rewrite IH.
  - apply list_lookup_insert_ne, Hl. left.
  - intros b' Hb'. apply Hl. right. exact Hb'.
Qed.

Lemma write_all_written (l : list B) (dst : list A) (b : B) :
  b ∈ l ->
  (forall b', b' ∈ l -> key b' = key b -> val b' = val b) ->
  (key b < length dst)%nat ->
  write_all key val dst l !! key b = Some (val b).
Proof.
  revert dst b. induction l as [ | b0 l IH]; intros dst b Hb Hsame Hlen.
  - inversion Hb.
  - change (write_all key val dst (b0 :: l))
      with (write_all key val (<[key b0 := val b0]> dst) l).
    destruct (decide (key b ∈ key <$> l)) as [Hin | Hnotin].
    + apply list_elem_of_fmap in Hin. destruct Hin as (b' & Hkey & Hb').
      assert (Hval : val b' = val b) by (apply Hsame; [right; exact Hb' | auto]).
      rewrite Hkey, <- Hval. apply IH.
      * exact Hb'.
      * intros b'' Hb'' Hk. rewrite Hval. apply Hsame; [right; exact Hb'' | congruence].
      * rewrite length_insert. lia.
    + rewrite write_all_other.
      * apply elem_of_cons in Hb. destruct Hb as [-> | Hb].
        -- apply list_lookup_insert_eq. exact Hlen.
        -- exfalso. apply Hnotin. apply list_elem_of_fmap. eauto.
      * intros b' Hb' Hk. apply Hnotin. apply list_elem_of_fmap. eauto.
Qed.

End Writes.

Lemma foldl_nested {A R C : Type} (h : A -> R -> C -> A) (rows : list R)
    (cols : list C) (dst : A) :
  foldl (fun d r => foldl (fun d c => h d r c) d cols) dst rows =
  foldl (fun d rc => h d (fst rc) (snd rc)) dst (r ← rows; pair r <$> cols).
Proof.
  revert dst. induction rows as [ | r rows IH]; intros dst; [reflexivity | ].
  rewrite bind_cons, foldl_app, foldl_fmap. simpl. apply IH.
Qed.

Lemma elem_of_pairs (R C r c : Z) :
  (r, c) ∈ (r ← seqZ 0 R; pair r <$> seqZ 0 C) <-> 0 <= r < R /\ 0 <= c < C.
Proof.
  rewrite list_elem_of_bind. split.
  - intros (r' & Hc & Hr). apply list_elem_of_fmap in Hc.
    destruct Hc as (c' & Heq & Hc). injection Heq as -> ->.
    apply elem_of_seqZ in Hr, Hc. lia.
  - intros [Hr Hc]. exists r. split.
    + apply list_elem_of_fmap. exists c. split; [reflexivity | ].
      apply elem_of_seqZ. lia.
    + apply elem_of_seqZ. lia.
Qed.

Lemma offset_unique (R r c r' c' : Z) :
  0 <= r < R -> 0 <= r' < R -> c * R + r = c' * R + r' -> c = c' /\ r = r'.
Proof.
  intros Hr Hr' Heq.
  destruct (Z.lt_trichotomy c c') as [Hlt | [-> | Hgt]].
  - assert ((c + 1) * R <= c' * R) by (apply Z.mul_le_mono_nonneg_r; lia). lia.
  - lia.
  - assert ((c' + 1) * R <= c * R) by (apply Z.mul_le_mono_nonneg_r; lia). lia.
Qed.

Lemma offset_bound (R C r c : Z) :
  0 <= r < R -> 0 <= c < C -> 0 <= c * R + r < R * C.
Proof.
  intros Hr Hc.
  assert (0 <= c * R) by (apply Z.mul_nonneg_nonneg; lia).
  assert ((c + 1) * R <= C * R) by (apply Z.mul_le_mono_nonneg_r; lia). lia.
Qed.

Lemma size_offset (R C r c : Z) :
  0 <= r < R -> 0 <= c < C -> R * C <= SIZE_MAX ->
  size_add (size_mul c R) r = c * R + r.
Proof.
  intros Hr Hc Hmax. pose proof (offset_bound R C r c Hr Hc).
  assert (0 <= c * R) by (apply Z.mul_nonneg_nonneg; lia).
  unfold size_add, size_mul. rewrite (size_wrap_id (c * R)) by lia.
  apply size_wrap_id. lia.
Qed.

Section Transpose.
Context {cv : OpenCV}.

Lemma transpose_loops_writes (R C : Z) (src dst : list elt) :
  transpose_loops R C src dst =
  write_all (fun rc => Z.to_nat (size_add (size_mul (snd rc) R) (fst rc)))
    (fun rc => default elt_zero
                 (src !! Z.to_nat (size_add (size_mul (fst rc) C) (snd rc))))
    dst (r ← seqZ 0 R; pair r <$> seqZ 0 C).
Proof.
  unfold transpose_loops, write_all.
  apply (foldl_nested
           (fun d irow icol =>
              <[Z.to_nat (size_add (size_mul icol R) irow) :=
                  default elt_zero
                    (src !! Z.to_nat (size_add (size_mul irow C) icol))]> d)).
Qed.

Lemma planar_to_interleaved_writes (R C : Z) (src dst : list elt) :
  planar_to_interleaved R C src dst =
  write_all (fun rc => Z.to_nat (fst rc * C + snd rc))
    (fun rc => default elt_zero (src !! Z.to_nat (snd rc * R + fst rc)))
    dst (r ← seqZ 0 R; pair r <$> seqZ 0 C).
Proof.
  unfold planar_to_interleaved, write_all.
  apply (foldl_nested
           (fun d p c =>
              <[Z.to_nat (p * C + c) :=
                  default elt_zero (src !! Z.to_nat (c * R + p))]> d)).
Qed.

Lemma length_transpose_loops (R C : Z) (src dst : list elt) :
  length (transpose_loops R C src dst) = length dst.
Proof. rewrite transpose_loops_writes. apply length_write_all. Qed.

Lemma length_planar_to_interleaved (R C : Z) (src dst : list elt) :
  length (planar_to_interleaved R C src dst) = length dst.
Proof. rewrite planar_to_interleaved_writes. apply length_write_all. Qed.

(** The loops copy the element at interleaved offset [p * C + c] to the
    planar offset [c * R + p]. *)
Lemma transpose_loops_lookup (R C : Z) (src dst : list elt) (p c : Z) :
  R * C <= SIZE_MAX -> 0 <= p < R -> 0 <= c < C ->
  length dst = Z.to_nat (R * C) ->
  transpose_loops R C src dst !! Z.to_nat (c * R + p) =
  Some (default elt_zero (src !! Z.to_nat (p * C + c))).
Proof.
  intros Hmax Hp Hc Hlen. rewrite transpose_loops_writes.
  pose proof (size_offset R C p c Hp Hc Hmax) as Hkey.
  pose proof (size_offset C R c p Hc Hp ltac:(lia)) as Hval.
  pose proof (offset_bound R C p c Hp Hc) as Hb.
  rewrite <- Hkey, <- Hval.
  apply (write_all_written
           (fun rc => Z.to_nat (size_add (size_mul (snd rc) R) (fst rc)))
           (fun rc => default elt_zero
                        (src !! Z.to_nat (size_add (size_mul (fst rc) C) (snd rc))))
           _ dst (p, c)).
  - apply elem_of_pairs. auto.
  - intros [r' c'] Hin Heq. apply elem_of_pairs in Hin. destruct Hin as [Hr' Hc'].
    simpl in *. rewrite Hkey, (size_offset R C r' c' Hr' Hc' Hmax) in Heq.
    pose proof (offset_bound R C r' c' Hr' Hc').
    apply Z2Nat.inj in Heq; try lia.
    destruct (offset_unique R r' c' p c Hr' Hp Heq) as [-> ->]. reflexivity.
  - simpl. rewrite Hkey, Hlen. apply Z2Nat.inj_lt; lia.
Qed.

Lemma planar_to_interleaved_lookup (R C : Z) (src dst : list elt) (p c : Z) :
  0 <= p < R -> 0 <= c < C ->
  length dst = Z.to_nat (R * C) ->
  planar_to_interleaved R C src dst !! Z.to_nat (p * C + c) =
  Some (default elt_zero (src !! Z.to_nat (c * R + p))).
Proof.
  intros Hp Hc Hlen. rewrite planar_to_interleaved_writes.
  pose proof (offset_bound C R c p Hc Hp) as Hb.
  apply (write_all_written
           (fun rc => Z.to_nat (fst rc * C + snd rc))
           (fun rc => default elt_zero (src !! Z.to_nat (snd rc * R + fst rc)))
           _ dst (p, c)).
  - apply elem_of_pairs. auto.
  - intros [r' c'] Hin Heq. apply elem_of_pairs in Hin. destruct Hin as [Hr' Hc'].
    simpl in *. pose proof (offset_bound C R c' r' Hc' Hr').
    apply Z2Nat.inj in Heq; try lia.
    destruct (offset_unique C c' r' c p Hc' Hc Heq) as [-> ->]. reflexivity.
  - simpl. rewrite Hlen. apply Z2Nat.inj_lt; lia.
Qed.

(** Transposing and mapping back gives the buffer one started from. *)
Lemma transpose_loops_roundtrip (R C : Z) (src : list elt) :
  0 <= R -> 0 <= C -> R * C <= SIZE_MAX ->
  length src = Z.to_nat (R * C) ->
  planar_to_interleaved R C
    (transpose_loops R C src (replicate (length src) elt_zero))
    (replicate (length src) elt_zero) = src.
Proof.
  intros HR HC Hmax Hlen. apply list_eq. intros i.
  destruct (decide (i < length src)%nat) as [Hi | Hi].
  - assert (Hj : 0 <= Z.of_nat i < R * C) by lia.
    assert (HCpos : 0 < C) by nia.
    pose proof (Z.div_mod (Z.of_nat i) C ltac:(lia)) as Hdm.
    pose proof (Z.mod_pos_bound (Z.of_nat i) C HCpos) as Hc.
    assert (Hp : 0 <= Z.of_nat i / C < R).
    { split; [apply Z.div_pos; lia | apply Z.div_lt_upper_bound; lia]. }
    set (p := Z.of_nat i / C) in *. set (c := Z.of_nat i mod C) in *.
    assert (Hidx : i = Z.to_nat (p * C + c)) by lia.
    rewrite Hidx at 1.
    rewrite planar_to_interleaved_lookup
      by (try assumption; rewrite length_replicate; assumption).
    rewrite transpose_loops_lookup
      by (try assumption; rewrite length_replicate; assumption).
    simpl. rewrite <- Hidx.
    destruct (lookup_lt_is_Some_2 src i Hi) as [x Hx]. rewrite Hx. reflexivity.
  - rewrite !lookup_ge_None_2; [reflexivity | lia | ].
    rewrite length_planar_to_interleaved, length_replicate. lia.
Qed.

End Transpose.

(** C5: for a single-sample buffer of [rows] x [cols] pixels of
    [channelCount] channels, the transpose transform copies the element
    at interleaved offset p * channelCount + c to the planar offset
    c * (rows * cols) + p, for every position p and channel c, and the
    inverse map brings the original buffer back. *)
Theorem transpose_planar_roundtrip (NDEBUG : bool) (cv : OpenCV)
    (t : SlimTransposeTransformer) (sequence : DenseSequenceData cv)
    (channelCount cols rows : Z) :
  m_sampleLayout (tr_inputStream t) = [channelCount; cols; rows] ->
  m_elementType (tr_inputStream t) = tfloat \/
  m_elementType (tr_inputStream t) = tdouble ->
  m_numberOfSamples sequence = 1 ->
  0 <= rows <= SIZE_MAX -> 0 <= cols <= SIZE_MAX -> 0 <= channelCount <= SIZE_MAX ->
  rows * cols <= SIZE_MAX ->
  rows * cols * channelCount * 8 <= SIZE_MAX ->
  length (m_data sequence) = Z.to_nat (rows * cols * channelCount) ->
  exists res,
    SlimTransposeTransformer_Transform_sequence NDEBUG t sequence = Ok res /\
    length (m_buffer res) = length (m_data sequence) /\
    (forall p c,
       0 <= p < rows * cols -> 0 <= c < channelCount ->
       m_buffer res !! Z.to_nat (c * (rows * cols) + p) =
       m_data sequence !! Z.to_nat (p * channelCount + c)) /\
    planar_to_interleaved (rows * cols) channelCount (m_buffer res)
      (replicate (length (m_data sequence)) elt_zero) = m_data sequence.
Proof.
  intros Hlayout Htype Hone Hrows Hcols Hchan Hrc Hmax Hlen.
  assert (Hrcn : 0 <= rows * cols) by (apply Z.mul_nonneg_nonneg; lia).
  assert (Hn : 0 <= rows * cols * channelCount) by (apply Z.mul_nonneg_nonneg; lia).
  assert (Hnum : GetNumElements [channelCount; cols; rows] = rows * cols * channelCount).
  { unfold GetNumElements. simpl. unfold size_mul.
    rewrite Z.mul_1_r, (size_wrap_id rows) by lia.
    rewrite (size_wrap_id (cols * rows)) by lia.
    rewrite size_wrap_id by lia. lia. }
  assert (Hbuf : forall esize, esize = 4 \/ esize = 8 ->
            Z.to_nat (size_mul (rows * cols * channelCount) esize / esize) =
            length (m_data sequence)).
  { intros esize He. unfold size_mul. rewrite size_wrap_id by lia.
    rewrite Z.div_mul by lia. lia. }
  assert (Hrow : size_mul rows cols = rows * cols).
  { unfold size_mul. apply size_wrap_id. lia. }
  exists (mkDenseSequenceWithBuffer (m_numberOfSamples sequence)
            (m_sampleLayout (tr_outputStream t))
            (transpose_loops (rows * cols) channelCount (m_data sequence)
               (replicate (length (m_data sequence)) elt_zero))).
  split.
  - unfold SlimTransposeTransformer_Transform_sequence,
      SlimTransposeTransformer_TypedApply.
    rewrite Hone, Z.eqb_refl, orb_true_r. simpl negb. cbv iota.
    rewrite Hlayout, Hnum. simpl ImageDimensions_of. cbv iota beta zeta.
    simpl m_height. simpl m_width. simpl m_numChannels. rewrite Hrow.
    destruct Htype as [-> | ->]; simpl GetSizeByType;
      rewrite Hbuf by auto; reflexivity.
  - simpl m_buffer. split; [ | split].
    + rewrite length_transpose_loops. apply length_replicate.
    + intros p c Hp Hc.
      rewrite transpose_loops_lookup
        by (try assumption; try lia; rewrite length_replicate; lia).
      assert (Hi : (Z.to_nat (p * channelCount + c) < length (m_data sequence))%nat).
      { pose proof (offset_bound channelCount (rows * cols) c p Hc Hp). lia. }
      destruct (lookup_lt_is_Some_2 _ _ Hi) as [x Hx]. rewrite Hx. reflexivity.
    + apply transpose_loops_roundtrip; try assumption; lia.
Qed.

Lemma transpose_planar_roundtrip_witness :
  exists res,
    SlimTransposeTransformer_Transform_sequence false
      (mkSlimTransposeTransformer (mkStreamDescription dense tfloat [3; 2; 2])
         (mkStreamDescription dense tfloat [2; 2; 3]))
      (mkDenseSequenceData (cv := IntegerImages) 0 1 [3; 2; 2] (seqZ 0 12)) = Ok res /\
    length (m_buffer res) = length (seqZ 0 12) /\
    (forall p c,
       0 <= p < 2 * 2 -> 0 <= c < 3 ->
       m_buffer res !! Z.to_nat (c * (2 * 2) + p) =
       seqZ 0 12 !! Z.to_nat (p * 3 + c)) /\
    planar_to_interleaved (2 * 2) 3 (m_buffer res)
      (replicate (length (seqZ 0 12)) elt_zero) = seqZ 0 12.
Proof.
  apply (transpose_planar_roundtrip false IntegerImages
           (mkSlimTransposeTransformer (mkStreamDescription dense tfloat [3; 2; 2])
              (mkStreamDescription dense tfloat [2; 2; 3]))
           (mkDenseSequenceData (cv := IntegerImages) 0 1 [3; 2; 2] (seqZ 0 12))
           3 2 2).
  - reflexivity.
  - left. reflexivity.
  - reflexivity.
  - unfold SIZE_MAX. lia.
  - unfold SIZE_MAX. lia.
  - unfold SIZE_MAX. lia.
  - unfold SIZE_MAX. lia.
  - unfold SIZE_MAX. lia.
  - reflexivity.
Defined.

(** The transposition of a 2 x 2 image of three channels. *)
Lemma transpose_example :
  map_result m_buffer
    (SlimTransposeTransformer_Transform_sequence false
       (mkSlimTransposeTransformer (mkStreamDescription dense tfloat [3; 2; 2])
          (mkStreamDescription dense tfloat [2; 2; 3]))
       (mkDenseSequenceData (cv := IntegerImages) 0 1 [3; 2; 2] (seqZ 0 12)))
  = Ok [0; 3; 6; 9; 1; 4; 7; 10; 2; 5; 8; 11].
Proof. reflexivity. Qed.

(** * Further properties of the code *)

(** ** The order of doubles *)

Lemma d_ltb_finite (m1 m2 : positive) (e1 e2 : Z) :
  d_ltb (S754_finite false m1 e1) (S754_finite false m2 e2) = true <->
  e1 < e2 \/ (e1 = e2 /\ Zpos m1 < Zpos m2).
Proof.
  unfold d_ltb, SFltb, SFcompare.
  pose proof (Pos.compare_spec m1 m2) as Hm. unfold Pos.compare in Hm.
  destruct (Z.compare_spec e1 e2) as [He | He | He];
    destruct Hm as [Hm | Hm | Hm];
    try apply Pos2Z.pos_lt_pos in Hm; try subst m1;
    (split; intros H; first [discriminate | reflexivity | lia | exfalso; lia | idtac]).
Qed.

Lemma d_leb_finite (m1 m2 : positive) (e1 e2 : Z) :
  d_leb (S754_finite false m1 e1) (S754_finite false m2 e2) = true <->
  e1 < e2 \/ (e1 = e2 /\ Zpos m1 <= Zpos m2).
Proof.
  unfold d_leb, SFleb, SFcompare.
  pose proof (Pos.compare_spec m1 m2) as Hm. unfold Pos.compare in Hm.
  destruct (Z.compare_spec e1 e2) as [He | He | He];
    destruct Hm as [Hm | Hm | Hm];
    try apply Pos2Z.pos_lt_pos in Hm; try subst m1;
    (split; intros H; first [discriminate | reflexivity | lia | exfalso; lia | idtac]).
Qed.

Lemma d_eqb_finite (m1 m2 : positive) (e1 e2 : Z) :
  d_eqb (S754_finite false m1 e1) (S754_finite false m2 e2) = true <->
  e1 = e2 /\ m1 = m2.
Proof.
  unfold d_eqb, SFeqb, SFcompare.
  pose proof (Pos.compare_spec m1 m2) as Hm. unfold Pos.compare in Hm.
  destruct (Z.compare_spec e1 e2) as [He | He | He];
    destruct Hm as [Hm | Hm | Hm];
    try apply Pos2Z.pos_lt_pos in Hm; try subst m1;
    (split; intros H; first [discriminate | reflexivity | lia | exfalso; lia | (destruct H as [_ H]; injection H as H; lia) | (split; [lia | reflexivity]) | (split; [lia | congruence])]).
Qed.

(** A double in (0, 1] is finite and positive. *)
Lemma in_unit_interval_finite (x : double) :
  in_unit_interval x = true -> exists m e, x = S754_finite false m e.
Proof.
  unfold in_unit_interval. intros H. apply andb_prop in H. destruct H as [Hpos Hle].
  destruct (d_ltb_zero_cases x Hpos) as [-> | H]; [discriminate | exact H].
Qed.

Lemma in_unit_interval_split (x : double) :
  in_unit_interval x = true -> d_ltb d_zero x = true /\ d_leb x d_one = true.
Proof. unfold in_unit_interval. intros H. apply andb_prop in H. exact H. Qed.

(** A ratio between two ratios of (0, 1] lies in (0, 1]. *)
Lemma in_unit_interval_between (lo hi x : double) :
  in_unit_interval lo = true -> in_unit_interval hi = true ->
  d_leb lo x = true -> d_ltb x hi = true ->
  in_unit_interval x = true.
Proof.
  intros Hlo Hhi Hlox Hxhi.
  destruct (in_unit_interval_finite lo Hlo) as (ml & el & ->).
  destruct (in_unit_interval_finite hi Hhi) as (mh & eh & ->).
  apply in_unit_interval_split in Hhi. destruct Hhi as [_ Hhi1].
  unfold d_one in Hhi1.
  destruct x as [s | s | | s m e]; try (destruct s; discriminate); try discriminate.
  destruct s; [discriminate | ].
  unfold in_unit_interval. apply andb_true_intro. split; [reflexivity | ].
  unfold d_one. apply d_leb_finite.
  apply d_ltb_finite in Hxhi. apply d_leb_finite in Hhi1. lia.
Qed.

(** Two distinct ratios of (0, 1] of which the second is not below the
    first: the first is below the second. *)
Lemma d_ltb_of_distinct (lo hi : double) :
  in_unit_interval lo = true -> in_unit_interval hi = true ->
  d_eqb lo hi = false -> d_ltb hi lo = false -> d_ltb lo hi = true.
Proof.
  intros Hlo Hhi Hne Hnlt.
  destruct (in_unit_interval_finite lo Hlo) as (ml & el & ->).
  destruct (in_unit_interval_finite hi Hhi) as (mh & eh & ->).
  apply d_ltb_finite.
  destruct (Z.lt_trichotomy el eh) as [H | [H | H]]; [auto | | ].
  - right. split; [assumption | ].
    destruct (Z.lt_trichotomy (Zpos ml) (Zpos mh)) as [Hm | [Hm | Hm]]; [assumption | | ].
    + exfalso. injection Hm as ->.
      assert (d_eqb (S754_finite false mh el) (S754_finite false mh eh) = true)
        by (apply d_eqb_finite; auto).
      congruence.
    + exfalso.
      assert (d_ltb (S754_finite false mh eh) (S754_finite false ml el) = true)
        by (apply d_ltb_finite; right; auto).
      congruence.
  - exfalso.
    assert (d_ltb (S754_finite false mh eh) (S754_finite false ml el) = true)
      by (apply d_ltb_finite; left; assumption).
    congruence.
Qed.

(** ** The crop rectangle, in unbounded integers *)

(** Under its preconditions [GetCropRect] passes all its assertions,
    none of its [int] operations wraps around, and it returns the
    rectangle of [crop_offsets] and [crop_size]. *)
Lemma GetCropRect_value (NDEBUG : bool) {rnd : RandomLib} (type : CropType.t)
    (viewIndex crow ccol : Z) (ratio : double) (rng : mt19937) :
  0 < crow <= INT_MAX -> 0 < ccol <= INT_MAX ->
  is_double ratio -> in_unit_interval ratio = true ->
  viewIndex_allowed type viewIndex \/ (NDEBUG = true /\ 0 <= viewIndex) ->
  GetCropRect NDEBUG type viewIndex crow ccol ratio rng =
    (Ok (mkRect
           (fst (fst (crop_offsets type viewIndex crow ccol (crop_size crow ccol ratio) rng)))
           (snd (fst (crop_offsets type viewIndex crow ccol (crop_size crow ccol ratio) rng)))
           (crop_size crow ccol ratio) (crop_size crow ccol ratio)),
     snd (crop_offsets type viewIndex crow ccol (crop_size crow ccol ratio) rng)) /\
  0 <= crop_size crow ccol ratio <= Z.min crow ccol /\
  0 <= fst (fst (crop_offsets type viewIndex crow ccol (crop_size crow ccol ratio) rng))
    <= ccol - crop_size crow ccol ratio /\
  0 <= snd (fst (crop_offsets type viewIndex crow ccol (crop_size crow ccol ratio) rng))
    <= crow - crop_size crow ccol ratio.
Proof.
  intros Hrow Hcol Hv Hunit Hview.
  apply in_unit_interval_split in Hunit. destruct Hunit as [Hpos Hle1].
  destruct (cropSize_range (Z.min crow ccol) ratio ltac:(lia) Hv Hpos Hle1)
    as [Hcs _].
  unfold GetCropRect. cbv zeta. fold (crop_size crow ccol ratio) in *.
  set (cs := crop_size crow ccol ratio) in *.
  assert (Hx : int_sub ccol cs = ccol - cs) by (apply int_sub_small; lia).
  assert (Hy : int_sub crow cs = crow - cs) by (apply int_sub_small; lia).
  destruct (int_div_half (ccol - cs) ltac:(lia)) as [Hdx Hrx].
  destruct (int_div_half (crow - cs) ltac:(lia)) as [Hdy Hry].
  rewrite check_ok by (right; apply Z.ltb_lt; lia).
  rewrite check_ok by (right; apply Z.ltb_lt; lia).
  rewrite check_ok by (right; rewrite Hpos, Hle1; reflexivity).
  cbv beta. rewrite ?Hx, ?Hy.
  match goal with
  | |- context [bind _ ?K rng] => set (finish := K)
  end.
  assert (Hfinish : forall x y g,
    0 <= x <= ccol - cs -> 0 <= y <= crow - cs ->
    finish (x, y) g = (Ok (mkRect x y cs cs), g)).
  { intros x y g Hxr Hyr. unfold finish. simpl fst. simpl snd.
    rewrite check_ok by (right; apply range_check; lia).
    rewrite check_ok by (right; apply range_check; lia).
    reflexivity. }
  clearbody finish.
  destruct type; unfold crop_offsets.
  - rewrite bind_bind, check_ok
      by (destruct Hview as [Hview | [-> _]];
          [right; simpl in Hview; subst; reflexivity | left; reflexivity]).
    rewrite bind_ret, Hdx, Hdy. simpl fst. simpl snd.
    rewrite Hfinish by lia. repeat split; lia.
  - rewrite bind_bind, check_ok
      by (destruct Hview as [Hview | [-> _]];
          [right; simpl in Hview; subst; reflexivity | left; reflexivity]).
    rewrite bind_bind, bind_draw, bind_bind, bind_draw, bind_ret.
    cbv zeta. simpl fst. simpl snd.
    pose proof (UniIntT_range 0 (ccol - cs) rng ltac:(lia)) as Hux.
    pose proof (UniIntT_range 0 (crow - cs) (snd (UniIntT 0 (ccol - cs) rng)) ltac:(lia))
      as Huy.
    rewrite Hfinish by assumption. repeat split; lia.
  - rewrite bind_bind, check_ok
      by (destruct Hview as [Hview | [-> _]];
          [right; simpl in Hview; apply range_check_lt; lia | left; reflexivity]).
    rewrite bind_ret.
    assert (Hnonneg : 0 <= viewIndex)
      by (destruct Hview as [Hview | [_ ?]]; [simpl in Hview | ]; lia).
    unfold int_rem in *.
    destruct (isubView_cases viewIndex Hnonneg) as [Hr | [Hr | [Hr | [Hr | Hr]]]];
      unfold int_rem in Hr; rewrite Hr; try rewrite Hdx; try rewrite Hdy;
      simpl fst; simpl snd; rewrite Hfinish by lia; repeat split; lia.
Qed.

(** ** The crop transform on an image *)

Lemma d_ltb_leb (x y : double) : d_ltb x y = true -> d_leb x y = true.
Proof.
  unfold d_ltb, d_leb, SFltb, SFleb. destruct (SFcompare x y) as [[ | | ] | ];
    congruence.
Qed.

Lemma d_leb_of_not_ltb (lo hi : double) :
  in_unit_interval lo = true -> in_unit_interval hi = true ->
  d_ltb hi lo = false -> d_leb lo hi = true.
Proof.
  intros Hlo Hhi Hnlt.
  destruct (in_unit_interval_finite lo Hlo) as (ml & el & ->).
  destruct (in_unit_interval_finite hi Hhi) as (mh & eh & ->).
  apply d_leb_finite.
  destruct (Z.lt_trichotomy el eh) as [H | [H | H]]; [auto | | ].
  - destruct (Z.le_gt_cases (Zpos ml) (Zpos mh)) as [Hm | Hm]; [auto | ].
    assert (d_ltb (S754_finite false mh eh) (S754_finite false ml el) = true)
      by (apply d_ltb_finite; right; split; [auto | lia]).
    congruence.
  - assert (d_ltb (S754_finite false mh eh) (S754_finite false ml el) = true)
      by (apply d_ltb_finite; left; assumption).
    congruence.
Qed.

Lemma d_leb_refl (x : double) : in_unit_interval x = true -> d_leb x x = true.
Proof.
  intros Hx. destruct (in_unit_interval_finite x Hx) as (m & e & ->).
  apply d_leb_finite. right. split; [reflexivity | lia].
Qed.

(** Under the handled jitter modes, the ratio of a sample lies between
    the configured bounds, hence in (0, 1]. *)
Lemma jitter_ratio_in_bounds (NDEBUG : bool) {rnd : RandomLib}
    (t : SlimCropTransformer) (g : mt19937) :
  ratio_bounds_ok t ->
  m_jitterType t = RatioJitterType.None \/
  m_jitterType t = RatioJitterType.UniRatio ->
  exists ratio g',
    jitter_ratio NDEBUG t g = (Ok ratio, g') /\
    is_double ratio /\ in_unit_interval ratio = true /\
    d_leb (m_cropRatioMin t) ratio = true /\
    d_leb ratio (m_cropRatioMax t) = true.
Proof.
  intros (Hvmin & Hvmax & Hmin & Hmax & Hord) Hmode.
  assert (Hfixed : exists ratio g',
            ret (m_cropRatioMin t) g = (Ok ratio, g') /\
            is_double ratio /\ in_unit_interval ratio = true /\
            d_leb (m_cropRatioMin t) ratio = true /\
            d_leb ratio (m_cropRatioMax t) = true).
  { exists (m_cropRatioMin t), g. split; [reflexivity | ].
    split; [assumption | ]. split; [assumption | ].
    split; [apply d_leb_refl; assumption | apply d_leb_of_not_ltb; assumption]. }
  unfold jitter_ratio. destruct Hmode as [-> | ->]; [exact Hfixed | ].
  destruct (d_eqb (m_cropRatioMin t) (m_cropRatioMax t)) eqn:Heq; [exact Hfixed | ].
  pose proof (d_ltb_of_distinct _ _ Hmin Hmax Heq Hord) as Hlt.
  destruct (UniRealT_range (m_cropRatioMin t) (m_cropRatioMax t) g Hvmin Hvmax Hlt)
    as (Hvr & Hlo & Hhi).
  rewrite bind_draw, check_ok by (right; rewrite Hlo, Hhi; reflexivity).
  eexists. eexists. split; [reflexivity | ].
  split; [assumption | ].
  split; [apply (in_unit_interval_between (m_cropRatioMin t) (m_cropRatioMax t));
          assumption | ].
  split; [assumption | apply d_ltb_leb; assumption].
Qed.


(** The view on a rectangle that lies in the image has the size of the
    rectangle and the type of the image. *)
Lemma cv_roi_in_bounds {cv : OpenCV} (mat : Mat cv) (x y size : Z) :
  0 <= size -> 0 <= x <= mat_cols mat - size -> 0 <= y <= mat_rows mat - size ->
  exists cropped,
    cv_roi mat (mkRect x y size size) = Ok cropped /\
    mat_rows cropped = size /\ mat_cols cropped = size /\
    mat_depth cropped = mat_depth mat /\ mat_channels cropped = mat_channels mat.
Proof.
  intros Hs Hx Hy. unfold cv_roi. simpl.
  rewrite (proj2 (Z.leb_le 0 x)), (proj2 (Z.leb_le 0 size)),
    (proj2 (Z.leb_le (x + size) (mat_cols mat))), (proj2 (Z.leb_le 0 y)),
    (proj2 (Z.leb_le (y + size) (mat_rows mat))) by lia.
  simpl. destruct (Z.leb_spec size 0).
  - simpl. eexists. split; [reflexivity | ]. simpl. repeat split; lia.
  - simpl. eexists. split; [reflexivity | ]. simpl. auto.
Qed.

Lemma Apply_body_succeeds (NDEBUG : bool) {rnd : RandomLib} {cv : OpenCV}
    (t : SlimCropTransformer) (id : Z) (mat : Mat cv) (g : mt19937) :
  ratio_bounds_ok t ->
  m_jitterType t = RatioJitterType.None \/
  m_jitterType t = RatioJitterType.UniRatio ->
  0 < mat_rows mat <= INT_MAX -> 0 < mat_cols mat <= INT_MAX ->
  exists tr g',
    SlimCropTransformer_Apply_body NDEBUG t id mat g = (Ok tr, g') /\
    d_leb (m_cropRatioMin t) (trace_ratio tr) = true /\
    d_leb (trace_ratio tr) (m_cropRatioMax t) = true /\
    in_bounds (trace_rect tr) (mat_rows mat) (mat_cols mat) /\
    0 <= crop_size (mat_rows mat) (mat_cols mat) (trace_ratio tr)
      <= Z.min (mat_rows mat) (mat_cols mat) /\
    rect_width (trace_rect tr) = crop_size (mat_rows mat) (mat_cols mat) (trace_ratio tr) /\
    rect_height (trace_rect tr) = crop_size (mat_rows mat) (mat_cols mat) (trace_ratio tr) /\
    mat_rows (trace_mat tr) = crop_size (mat_rows mat) (mat_cols mat) (trace_ratio tr) /\
    mat_cols (trace_mat tr) = crop_size (mat_rows mat) (mat_cols mat) (trace_ratio tr) /\
    mat_depth (trace_mat tr) = mat_depth mat /\
    mat_channels (trace_mat tr) = mat_channels mat.
Proof.
  intros Hbounds Hmode Hrows Hcols.
  destruct (jitter_ratio_in_bounds NDEBUG t g Hbounds Hmode)
    as (ratio & g1 & Hj & Hvr & Hunit & Hlo & Hhi).
  unfold SlimCropTransformer_Apply_body. unfold bind at 1. rewrite Hj. cbv zeta.
  set (v := if CropType.eqb (m_cropType t) CropType.MultiView10
            then int_wrap (size_wrap id mod 10) else 0).
  destruct (GetCropRect_value NDEBUG (m_cropType t) v (mat_rows mat) (mat_cols mat)
              ratio g1 Hrows Hcols Hvr Hunit
              (or_introl (view_index_allowed (m_cropType t) id)))
    as (Hg & Hcs & Hx & Hy).
  unfold bind at 1. rewrite Hg.
  set (cs := crop_size (mat_rows mat) (mat_cols mat) ratio) in *.
  set (off := crop_offsets (m_cropType t) v (mat_rows mat) (mat_cols mat) cs g1) in *.
  destruct (cv_roi_in_bounds mat (fst (fst off)) (snd (fst off)) cs ltac:(lia) Hx Hy)
    as (cropped & Hroi & Hr & Hc & Hd & Hch).
  unfold bind at 1, lift. rewrite Hroi.
  assert (Hin : in_bounds (mkRect (fst (fst off)) (snd (fst off)) cs cs)
                  (mat_rows mat) (mat_cols mat)).
  { unfold in_bounds. simpl. lia. }
  destruct (m_hFlip t); unfold bind, draw, ret; simpl.
  - eexists. eexists. split; [reflexivity | ]. simpl.
    split; [assumption | ]. split; [assumption | ]. split; [exact Hin | ].
    split; [exact Hcs | ].
    destruct (_ || _); simpl; repeat split; first [assumption | reflexivity].
  - eexists. eexists. split; [reflexivity | ]. simpl.
    split; [assumption | ]. split; [assumption | ]. split; [exact Hin | ].
    split; [exact Hcs | ].
    destruct (5 <=? v); simpl; repeat split; first [assumption | reflexivity].
Qed.

(** ** What the constructor of the crop transform establishes *)

Lemma SlimCropTransformer_new_inv (config : CropConfig) (t : SlimCropTransformer) :
  SlimCropTransformer_new config = Ok t ->
  m_cropRatioMin t = config_cropRatioMin config /\
  m_cropRatioMax t = config_cropRatioMax config /\
  in_unit_interval (m_cropRatioMin t) = true /\
  in_unit_interval (m_cropRatioMax t) = true /\
  d_ltb (m_cropRatioMax t) (m_cropRatioMin t) = false /\
  ParseCropType (config_cropType config) = Ok (m_cropType t) /\
  ParseJitterType (config_jitterType config) = Ok (m_jitterType t) /\
  m_hFlip t = match cfg_hflip config with
              | None => CropType.eqb (m_cropType t) CropType.Random
              | Some b => b
              end /\
  crop_base t = SlimImageTransformerBase_new (cfg_seed config).
Proof.
  unfold SlimCropTransformer_new.
  fold (config_cropType config) (config_jitterType config).
  fold (config_cropRatioMin config) (config_cropRatioMax config).
  fold (in_unit_interval (config_cropRatioMin config)).
  fold (in_unit_interval (config_cropRatioMax config)).
  destruct (ParseCropType (config_cropType config)) as [cropType | e]; [ | discriminate].
  destruct (negb (in_unit_interval (config_cropRatioMin config)) ||
            negb (in_unit_interval (config_cropRatioMax config)) ||
            d_ltb (config_cropRatioMax config) (config_cropRatioMin config))
    eqn:Hratio; [discriminate | ].
  apply orb_false_elim in Hratio. destruct Hratio as [Hratio Hgt].
  apply orb_false_elim in Hratio. destruct Hratio as [Hmin Hmax].
  apply negb_false_iff in Hmin, Hmax.
  destruct (ParseJitterType (config_jitterType config)) as [jitterType | e];
    [ | discriminate].
  intros H. injection H as <-. simpl. auto 10.
Qed.

(** X1: a crop transform the constructor returned, with a jitter mode
    that is handled, crops every non-empty image without an error, in
    both builds: the ratio it uses lies between the configured bounds,
    the result is the square of side [crop_size] with the depth and the
    channels of the input, and the generator goes back to the pool. *)
Theorem crop_Apply_succeeds (NDEBUG : bool) (rnd : RandomLib) (cv : OpenCV)
    (config : CropConfig) (t : SlimCropTransformer) (id : Z) (mat : Mat cv)
    (m_rngs : list mt19937) :
  SlimCropTransformer_new config = Ok t ->
  is_double (config_cropRatioMin config) -> is_double (config_cropRatioMax config) ->
  m_jitterType t = RatioJitterType.None \/
  m_jitterType t = RatioJitterType.UniRatio ->
  0 < mat_rows mat <= INT_MAX -> 0 < mat_cols mat <= INT_MAX ->
  exists out ratio,
    fst (SlimCropTransformer_Apply NDEBUG t id mat m_rngs) = Ok out /\
    d_leb (m_cropRatioMin t) ratio = true /\
    d_leb ratio (m_cropRatioMax t) = true /\
    mat_rows out = crop_size (mat_rows mat) (mat_cols mat) ratio /\
    mat_cols out = crop_size (mat_rows mat) (mat_cols mat) ratio /\
    0 <= crop_size (mat_rows mat) (mat_cols mat) ratio
      <= Z.min (mat_rows mat) (mat_cols mat) /\
    mat_depth out = mat_depth mat /\
    mat_channels out = mat_channels mat /\
    length (snd (SlimCropTransformer_Apply NDEBUG t id mat m_rngs))
      = Nat.max 1 (length m_rngs).
Proof.
  intros Hnew Hvmin Hvmax Hmode Hrows Hcols.
  destruct (SlimCropTransformer_new_inv config t Hnew)
    as (Hmin & Hmax & Humin & Humax & Hord & _).
  assert (Hbounds : ratio_bounds_ok t).
  { unfold ratio_bounds_ok. rewrite Hmin, Hmax in *. auto. }
  unfold SlimCropTransformer_Apply, SlimCropTransformer_Apply_trace, with_rng.
  destruct (pop_or_create (fun _ => mt19937_seed (GetSeed (crop_base t))) m_rngs)
    as [rng rest] eqn:Hpop.
  destruct (Apply_body_succeeds NDEBUG t id mat rng Hbounds Hmode Hrows Hcols)
    as (tr & g' & Hbody & Hlo & Hhi & Hin & Hcs & Hw & Hh & Hr & Hc & Hd & Hch).
  rewrite Hbody. simpl.
  exists (trace_mat tr), (trace_ratio tr).
  split; [reflexivity | ]. split; [assumption | ]. split; [assumption | ].
  split; [assumption | ]. split; [assumption | ]. split; [assumption | ].
  split; [assumption | ]. split; [assumption | ].
  unfold push. destruct m_rngs; simpl in Hpop; injection Hpop as <- <-; reflexivity.
Qed.

Lemma crop_Apply_succeeds_witness :
  exists out ratio,
    fst (SlimCropTransformer_Apply false random_jitter 3 image_4x6 []) = Ok out /\
    d_leb (m_cropRatioMin random_jitter) ratio = true /\
    d_leb ratio (m_cropRatioMax random_jitter) = true /\
    mat_rows out = crop_size (mat_rows image_4x6) (mat_cols image_4x6) ratio /\
    mat_cols out = crop_size (mat_rows image_4x6) (mat_cols image_4x6) ratio /\
    0 <= crop_size (mat_rows image_4x6) (mat_cols image_4x6) ratio
      <= Z.min (mat_rows image_4x6) (mat_cols image_4x6) /\
    mat_depth out = mat_depth image_4x6 /\
    mat_channels out = mat_channels image_4x6 /\
    length (snd (SlimCropTransformer_Apply false random_jitter 3 image_4x6 []))
      = Nat.max 1 (length (A := mt19937) []).
Proof.
  apply (crop_Apply_succeeds false TapeRandom IntegerImages random_jitter_config
           random_jitter 3 image_4x6 []).
  - reflexivity.
  - reflexivity.
  - reflexivity.
  - right. reflexivity.
  - unfold INT_MAX. simpl. lia.
  - unfold INT_MAX. simpl. lia.
Defined.

(** ** The pool of generators *)



(** ** The names of the crop strategies and of the jitter modes *)

Lemma AreEqualIgnoreCase_name (s name : string) :
  to_lower name = name ->
  AreEqualIgnoreCase s name = true <-> to_lower s = name.
Proof. intros Hname. rewrite AreEqualIgnoreCase_spec, Hname. reflexivity. Qed.

Lemma to_lower_empty (s : string) : to_lower s = "" <-> s = "".
Proof. destruct s; simpl; split; congruence. Qed.

Lemma string_empty_true (s : string) : string_empty s = true <-> s = "".
Proof. destruct s; simpl; split; congruence. Qed.

(** X3: [ParseCropType] and [ParseJitterType] return a value exactly for
    the empty string, which gives the default (Center, None), and for the
    names of the values in any capitalisation. *)
Theorem Parse_Ok_iff :
  (forall s type,
     ParseCropType s = Ok type <->
     (s = "" /\ type = CropType.Center) \/ to_lower s = crop_type_name type) /\
  (forall s type,
     ParseJitterType s = Ok type <->
     (s = "" /\ type = RatioJitterType.None) \/ to_lower s = jitter_type_name type).
Proof.
  split; intros s type.
  - unfold ParseCropType.
    destruct (string_empty s) eqn:Hempty.
    + apply string_empty_true in Hempty. subst s. simpl. split.
      * intros H. injection H as <-. auto.
      * intros [[_ ->] | H]; [reflexivity | destruct type; discriminate].
    + assert (Hne : s <> "") by (intros ->; discriminate).
      simpl orb.
      destruct (AreEqualIgnoreCase s "center") eqn:H1;
        [apply AreEqualIgnoreCase_name in H1; [ | reflexivity]
        | destruct (AreEqualIgnoreCase s "random") eqn:H2;
          [apply AreEqualIgnoreCase_name in H2; [ | reflexivity]
          | destruct (AreEqualIgnoreCase s "multiview10") eqn:H3;
            [apply AreEqualIgnoreCase_name in H3; [ | reflexivity] | ]]];
        (split;
         [ intros H; try discriminate; injection H as <-; right; assumption
         | intros [[He _] | H]; [congruence | ];
           destruct type; simpl in H;
           first [ reflexivity
                 | congruence
                 | exfalso;
                   first [ apply (proj2 (AreEqualIgnoreCase_name s "center" eq_refl)) in H
                         | apply (proj2 (AreEqualIgnoreCase_name s "random" eq_refl)) in H
                         | apply (proj2 (AreEqualIgnoreCase_name s "multiview10" eq_refl)) in H ];
                   congruence ] ]).
  - unfold ParseJitterType.
    destruct (string_empty s) eqn:Hempty.
    + apply string_empty_true in Hempty. subst s. simpl. split.
      * intros H. injection H as <-. auto.
      * intros [[_ ->] | H]; [reflexivity | destruct type; discriminate].
    + assert (Hne : s <> "") by (intros ->; discriminate).
      simpl orb.
      destruct (AreEqualIgnoreCase s "none") eqn:H1;
        [apply AreEqualIgnoreCase_name in H1; [ | reflexivity]
        | destruct (AreEqualIgnoreCase s "uniratio") eqn:H2;
          [apply AreEqualIgnoreCase_name in H2; [ | reflexivity]
          | destruct (AreEqualIgnoreCase s "unilength") eqn:H3;
            [apply AreEqualIgnoreCase_name in H3; [ | reflexivity]
            | destruct (AreEqualIgnoreCase s "uniarea") eqn:H4;
              [apply AreEqualIgnoreCase_name in H4; [ | reflexivity] | ]]]];
        (split;
         [ intros H; try discriminate; injection H as <-; right; assumption
         | intros [[He _] | H]; [congruence | ];
           destruct type; simpl in H;
           first [ reflexivity
                 | congruence
                 | exfalso;
                   first [ apply (proj2 (AreEqualIgnoreCase_name s "none" eq_refl)) in H
                         | apply (proj2 (AreEqualIgnoreCase_name s "uniratio" eq_refl)) in H
                         | apply (proj2 (AreEqualIgnoreCase_name s "unilength" eq_refl)) in H
                         | apply (proj2 (AreEqualIgnoreCase_name s "uniarea" eq_refl)) in H ];
                   congruence ] ]).
Qed.

(** ** A configuration with one crop ratio *)

Lemma d_eqb_refl (x : double) : in_unit_interval x = true -> d_eqb x x = true.
Proof.
  intros H. destruct (in_unit_interval_finite x H) as (m & e & ->).
  apply d_eqb_finite. split; reflexivity.
Qed.

(** The ratio of a trace is the one the jitter switch chose. *)
Lemma Apply_body_ratio (NDEBUG : bool) {rnd : RandomLib} {cv : OpenCV}
    (t : SlimCropTransformer) (id : Z) (mat : Mat cv) (g g' : mt19937)
    (tr : CropTrace) :
  SlimCropTransformer_Apply_body NDEBUG t id mat g = (Ok tr, g') ->
  fst (jitter_ratio NDEBUG t g) = Ok (trace_ratio tr).
Proof.
  unfold SlimCropTransformer_Apply_body. unfold bind at 1.
  destruct (jitter_ratio NDEBUG t g) as [[ratio | e] g1]; [ | discriminate].
  cbv zeta. unfold bind at 1.
  destruct (GetCropRect _ _ _ _ _ _ g1) as [[rect | e] g2]; [ | discriminate].
  unfold bind at 1, lift.
  destruct (cv_roi mat rect) as [cropped | e]; [ | discriminate].
  destruct (m_hFlip t); unfold bind, draw, ret; simpl;
    intros H; injection H as <- _; reflexivity.
Qed.

(** X4: a crop transform built from a configuration with one crop ratio
    [r] never draws the ratio: the jitter switch returns [r] and leaves
    the generator as it was, under no jitter and under UniRatio alike,
    and every non-empty image is cropped to the side
    floor(min(rows, cols) * r). *)
Theorem single_ratio_is_not_drawn (NDEBUG : bool) (rnd : RandomLib) (cv : OpenCV)
    (config : CropConfig) (t : SlimCropTransformer) (r : double) (id : Z)
    (mat : Mat cv) (m_rngs : list mt19937) :
  SlimCropTransformer_new config = Ok t ->
  cfg_cropRatio config = Some (r, []) ->
  is_double r ->
  m_jitterType t = RatioJitterType.None \/
  m_jitterType t = RatioJitterType.UniRatio ->
  0 < mat_rows mat <= INT_MAX -> 0 < mat_cols mat <= INT_MAX ->
  (forall g, jitter_ratio NDEBUG t g = (Ok r, g)) /\
  exists out,
    fst (SlimCropTransformer_Apply NDEBUG t id mat m_rngs) = Ok out /\
    mat_rows out = crop_size (mat_rows mat) (mat_cols mat) r /\
    mat_cols out = crop_size (mat_rows mat) (mat_cols mat) r.
Proof.
  intros Hnew Hcfg Hr Hmode Hrows Hcols.
  destruct (SlimCropTransformer_new_inv config t Hnew)
    as (Hmin & Hmax & Humin & Humax & Hord & _).
  unfold config_cropRatioMin, config_cropRatioMax in Hmin, Hmax.
  rewrite Hcfg in Hmin, Hmax. simpl in Hmin, Hmax.
  assert (Hjit : forall g, jitter_ratio NDEBUG t g = (Ok r, g)).
  { intros g. unfold jitter_ratio.
    destruct Hmode as [-> | ->].
    - rewrite Hmin. reflexivity.
    - rewrite Hmin, Hmax. rewrite d_eqb_refl by (rewrite <- Hmin; assumption).
      reflexivity. }
  split; [exact Hjit | ].
  assert (Hbounds : ratio_bounds_ok t).
  { unfold ratio_bounds_ok. rewrite Hmin, Hmax.
    rewrite Hmin in Humin. rewrite Hmax in Humax. rewrite Hmin, Hmax in Hord.
    auto. }
  unfold SlimCropTransformer_Apply, SlimCropTransformer_Apply_trace. simpl fst.
  rewrite fst_with_rng. set (g := fst (pop_or_create _ m_rngs)).
  destruct (Apply_body_succeeds NDEBUG t id mat g Hbounds Hmode Hrows Hcols)
    as (tr & g' & Hbody & _ & _ & _ & _ & _ & _ & Hro & Hco & _).
  pose proof (Apply_body_ratio NDEBUG t id mat g g' tr Hbody) as Hratio.
  rewrite Hjit in Hratio. simpl in Hratio. injection Hratio as Hratio.
  rewrite Hbody. simpl. exists (trace_mat tr).
  rewrite <- Hratio in Hro, Hco. auto.
Qed.

Lemma single_ratio_is_not_drawn_witness :
  (forall g, jitter_ratio (rnd := TapeRandom) false half_crop g = (Ok d_half, g)) /\
  exists out,
    fst (SlimCropTransformer_Apply false half_crop 3 image_4x6 []) = Ok out /\
    mat_rows out = crop_size (mat_rows image_4x6) (mat_cols image_4x6) d_half /\
    mat_cols out = crop_size (mat_rows image_4x6) (mat_cols image_4x6) d_half.
Proof.
  apply (single_ratio_is_not_drawn false TapeRandom IntegerImages half_crop_config
           half_crop d_half 3 image_4x6 []).
  - reflexivity.
  - reflexivity.
  - reflexivity.
  - right. reflexivity.
  - unfold INT_MAX. simpl. lia.
  - unfold INT_MAX. simpl. lia.
Defined.

(** ** The interpolation kernels of the scale transform *)

Lemma m_interpMap_kernels (token : string) (k : Z) :
  m_interpMap token = Some k -> k ∈ interpolation_kernels.
Proof.
  unfold m_interpMap, interpolation_kernels.
  repeat (destruct (String.eqb token _);
          [intros H; injection H as <-; apply list_elem_of_In; simpl; auto | ]).
  discriminate.
Qed.

Lemma size_mul_zero_l (a : Z) : size_mul 0 a = 0.
Proof. reflexivity. Qed.

Lemma size_mul_zero_r (a : Z) : size_mul a 0 = 0.
Proof. unfold size_mul. rewrite Z.mul_0_r. reflexivity. Qed.

(** X5: a scale transform the constructor returned has a list of
    kernels that is never empty and holds only OpenCV's nearest, linear,
    cubic and Lanczos kernels: the kernel of every token of
    [interpolations] that names one in any capitalisation, in the order
    of the tokens, and linear alone when no token does.  None of its
    configured dimensions is zero. *)
Theorem SlimScaleTransformer_new_kernels (config : ScaleConfig)
    (t : SlimScaleTransformer) :
  SlimScaleTransformer_new config = Ok t ->
  m_interp t <> [] /\
  (forall k, k ∈ m_interp t -> k ∈ interpolation_kernels) /\
  (forall token k,
     token ∈ getline_tokens (default "" (scfg_interpolations config)) ->
     m_interpMap (to_lower token) = Some k -> k ∈ m_interp t) /\
  ((forall token,
      token ∈ getline_tokens (default "" (scfg_interpolations config)) ->
      m_interpMap (to_lower token) = None) ->
   m_interp t = [INTER_LINEAR]) /\
  m_imgWidth t <> 0 /\ m_imgHeight t <> 0 /\ m_imgChannels t <> 0.
Proof.
  unfold SlimScaleTransformer_new. cbv zeta.
  destruct (_ || _) eqn:Hdim; [discriminate | ].
  intros H. injection H as <-. simpl.
  apply orb_false_elim in Hdim. destruct Hdim as [Hzero _].
  apply Z.eqb_neq in Hzero.
  set (tokens := getline_tokens _).
  set (interp := omap _ tokens).
  assert (Hin : forall k, k ∈ interp -> k ∈ interpolation_kernels).
  { intros k Hk. apply list_elem_of_omap in Hk. destruct Hk as (token & _ & Hk).
    apply (m_interpMap_kernels _ _ Hk). }
  split; [destruct interp; discriminate | ].
  split.
  { destruct interp eqn:Hi; [ | exact Hin].
    intros k Hk. apply list_elem_of_singleton in Hk. subst k.
    apply list_elem_of_In. simpl. auto. }
  split.
  { intros token k Htoken Hk.
    assert (Hk' : k ∈ interp).
    { apply list_elem_of_omap. exists token. auto. }
    destruct interp; [inversion Hk' | exact Hk']. }
  split.
  { intros Hnone. destruct interp as [ | k rest] eqn:Hi; [reflexivity | ].
    assert (Hk : k ∈ interp) by (rewrite Hi; apply list_elem_of_here).
    apply list_elem_of_omap in Hk. destruct Hk as (token & Htoken & Hk).
    rewrite (Hnone token Htoken) in Hk. discriminate. }
  repeat split; intros Heq; apply Hzero; rewrite Heq.
  - rewrite size_mul_zero_l. reflexivity.
  - rewrite size_mul_zero_r. reflexivity.
  - apply size_mul_zero_r.
Qed.

Lemma SlimScaleTransformer_new_kernels_witness :
  m_interp scale_constructed <> [] /\
  (forall k, k ∈ m_interp scale_constructed -> k ∈ interpolation_kernels) /\
  (forall token k,
     token ∈ getline_tokens (default "" (scfg_interpolations scale_config)) ->
     m_interpMap (to_lower token) = Some k -> k ∈ m_interp scale_constructed) /\
  ((forall token,
      token ∈ getline_tokens (default "" (scfg_interpolations scale_config)) ->
      m_interpMap (to_lower token) = None) ->
   m_interp scale_constructed = [INTER_LINEAR]) /\
  m_imgWidth scale_constructed <> 0 /\ m_imgHeight scale_constructed <> 0 /\
  m_imgChannels scale_constructed <> 0.
Proof.
  apply (SlimScaleTransformer_new_kernels scale_config scale_constructed).
  reflexivity.
Defined.

(** X6: the scale transform resizes with one of its configured kernels:
    for a transform with a non-empty list of kernels, whatever the
    generator gives, the result of [Apply] is that of [cv::resize] to the
    configured width and height with a kernel of the list, on the buffer
    converted to the element type when its type is not the expected one. *)
Theorem scale_uses_a_configured_kernel (NDEBUG : bool) (rnd : RandomLib)
    (cv : OpenCV) (t : SlimScaleTransformer) (id : Z) (mat : Mat cv)
    (m_rngs : list mt19937) :
  m_interp t <> [] -> Z.of_nat (length (m_interp t)) <= INT_MAX ->
  exists k,
    k ∈ m_interp t /\
    fst (SlimScaleTransformer_Apply NDEBUG t id mat m_rngs) =
    cv_resize
      (if negb (mat_type mat =?
                CV_MAKETYPE (m_imageElementType (scale_base t)) (m_imgChannels t))
       then cv_convertTo mat (m_imageElementType (scale_base t)) else mat)
      (int_wrap (m_imgWidth t)) (int_wrap (m_imgHeight t)) k.
Proof.
  intros Hne Hlen. unfold SlimScaleTransformer_Apply. cbv zeta.
  set (mat1 := if negb _ then _ else mat).
  rewrite fst_with_rng. set (g := fst (pop_or_create _ m_rngs)).
  assert (Hpos : 0 < Z.of_nat (length (m_interp t))).
  { destruct (m_interp t); [congruence | simpl; lia]. }
  rewrite bind_draw.
  rewrite check_ok by (right; apply Z.ltb_lt; exact Hpos).
  unfold lift. simpl fst.
  rewrite (int_wrap_id (Z.of_nat (length (m_interp t))))
    by (unfold is_int, INT_MIN, INT_MAX in *; lia).
  rewrite int_sub_small by (unfold INT_MAX in *; lia).
  pose proof (UniIntT_range 0 (Z.of_nat (length (m_interp t)) - 1) g ltac:(lia))
    as Hindex.
  set (index := fst (UniIntT 0 (Z.of_nat (length (m_interp t)) - 1) g)) in *.
  assert (Hlt : (Z.to_nat index < length (m_interp t))%nat).
  { clearbody index. lia. }
  destruct (lookup_lt_is_Some_2 (m_interp t) (Z.to_nat index) Hlt) as [k Hk].
  exists k. split; [apply (list_elem_of_lookup_2 _ _ _ Hk) | ].
  rewrite Hk. reflexivity.
Qed.

Lemma scale_uses_a_configured_kernel_witness :
  exists k,
    k ∈ m_interp scale_2x2x3 /\
    fst (SlimScaleTransformer_Apply false scale_2x2x3 7 image_4x6 []) =
    cv_resize
      (if negb (mat_type image_4x6 =?
                CV_MAKETYPE (m_imageElementType (scale_base scale_2x2x3))
                  (m_imgChannels scale_2x2x3))
       then cv_convertTo image_4x6 (m_imageElementType (scale_base scale_2x2x3))
       else image_4x6)
      (int_wrap (m_imgWidth scale_2x2x3)) (int_wrap (m_imgHeight scale_2x2x3)) k.
Proof.
  apply (scale_uses_a_configured_kernel false TapeRandom IntegerImages scale_2x2x3 7
           image_4x6 []).
  - discriminate.
  - unfold INT_MAX. simpl. lia.
Defined.

(** ** Samples through [Transform] *)

(** The elements of a matrix built pixel by pixel. *)
Lemma length_bind_const {A B : Type} (f : A -> list B) (l : list A) (n : nat) :
  (forall x, length (f x) = n) -> length (l ≫= f) = (length l * n)%nat.
Proof.
  intros Hf. induction l as [ | x l IH]; [reflexivity | ].
  change ((x :: l) ≫= f) with (app (f x) (l ≫= f)).
  rewrite length_app, Hf, IH. reflexivity.
Qed.

Lemma length_mat_build {cv : OpenCV} (rows cols channels : Z) (f : Z -> Z -> Z -> elt) :
  length (mat_build rows cols channels f) =
  (Z.to_nat rows * Z.to_nat cols * Z.to_nat channels)%nat.
Proof.
  unfold mat_build.
  rewrite (length_bind_const _ _ (Z.to_nat cols * Z.to_nat channels)).
  - rewrite length_seqZ. lia.
  - intros r. rewrite (length_bind_const _ _ (Z.to_nat channels)).
    + rewrite length_seqZ. reflexivity.
    + intros c. rewrite (length_bind_const _ _ 1%nat).
      * rewrite length_seqZ. lia.
      * reflexivity.
Qed.

Lemma cv_roi_well_formed {cv : OpenCV} (m out : Mat cv) (roi : Rect) :
  cv_roi m roi = Ok out -> mat_well_formed out.
Proof.
  unfold cv_roi, mat_well_formed.
  destruct (_ && _); [ | discriminate].
  destruct (_ || _); intros H; injection H as <-; simpl.
  - reflexivity.
  - apply length_mat_build.
Qed.

Lemma cv_flip_horizontal_well_formed {cv : OpenCV} (m : Mat cv) :
  mat_well_formed (cv_flip_horizontal m).
Proof. unfold mat_well_formed. simpl. apply length_mat_build. Qed.

Lemma Apply_body_well_formed (NDEBUG : bool) {rnd : RandomLib} {cv : OpenCV}
    (t : SlimCropTransformer) (id : Z) (mat : Mat cv) (g g' : mt19937)
    (tr : CropTrace) :
  SlimCropTransformer_Apply_body NDEBUG t id mat g = (Ok tr, g') ->
  mat_well_formed (trace_mat tr).
Proof.
  unfold SlimCropTransformer_Apply_body. unfold bind at 1.
  destruct (jitter_ratio NDEBUG t g) as [[ratio | e] g1]; [ | discriminate].
  cbv zeta. unfold bind at 1.
  destruct (GetCropRect _ _ _ _ _ _ g1) as [[rect | e] g2]; [ | discriminate].
  unfold bind at 1, lift.
  destruct (cv_roi mat rect) as [cropped | e] eqn:Hroi; [ | discriminate].
  apply cv_roi_well_formed in Hroi.
  destruct (m_hFlip t); unfold bind, draw, ret; simpl;
    intros H; injection H as <- _; simpl;
    destruct (_ || _) || destruct (5 <=? _);
    first [apply cv_flip_horizontal_well_formed | exact Hroi].
Qed.

(** X8: the crop transform on a sample.  For a transform with ratio
    bounds as the constructor checks them and a handled jitter mode,
    [Transform] turns every sample of layout channels x width x height
    (all positive) into one of layout channels x size x size, with
    size = floor(min(height, width) * ratio) for a ratio between the
    bounds, holding size * size * channels elements, and the same number
    of samples. *)
Theorem crop_sample_layout (NDEBUG : bool) (rnd : RandomLib) (cv : OpenCV)
    (t : SlimCropTransformer) (sequence : DenseSequenceData cv)
    (m_rngs : list mt19937) (c w h : Z) :
  ratio_bounds_ok t ->
  m_jitterType t = RatioJitterType.None \/
  m_jitterType t = RatioJitterType.UniRatio ->
  seq_sampleLayout sequence = [c; w; h] ->
  1 <= c <= 512 -> 0 < w <= INT_MAX -> 0 < h <= INT_MAX ->
  exists res ratio,
    fst (SlimImageTransformerBase_Transform_sequence NDEBUG (crop_base t)
           (SlimCropTransformer_Apply NDEBUG t) sequence m_rngs) = Ok res /\
    d_leb (m_cropRatioMin t) ratio = true /\
    d_leb ratio (m_cropRatioMax t) = true /\
    0 <= crop_size h w ratio <= Z.min h w /\
    img_sampleLayout res = [c; crop_size h w ratio; crop_size h w ratio] /\
    length (img_data res) =
      (Z.to_nat (crop_size h w ratio) * Z.to_nat (crop_size h w ratio) * Z.to_nat c)%nat /\
    img_numberOfSamples res = m_numberOfSamples sequence.
Proof.
  intros Hbounds Hmode Hlayout Hc Hw Hh.
  unfold SlimImageTransformerBase_Transform_sequence.
  rewrite Hlayout. simpl ImageDimensions_of. cbv iota beta zeta. simpl m_width.
  simpl m_height. simpl m_numChannels.
  rewrite !int_wrap_id by (unfold is_int, INT_MIN, INT_MAX in *; lia).
  destruct (CV_MAKETYPE_channels (m_imageElementType (crop_base t)) c Hc) as [Hch Hdepth].
  set (buffer := cv_Mat_on h w _ (m_data sequence)).
  unfold SlimCropTransformer_Apply, SlimCropTransformer_Apply_trace, with_rng.
  destruct (pop_or_create _ m_rngs) as [g rest].
  destruct (Apply_body_succeeds NDEBUG t (m_id sequence) buffer g Hbounds Hmode
              ltac:(simpl; lia) ltac:(simpl; lia))
    as (tr & g' & Hbody & Hlo & Hhi & _ & Hcs & _ & _ & Hro & Hco & _ & Hchan).
  pose proof (Apply_body_well_formed NDEBUG t (m_id sequence) buffer g g' tr Hbody)
    as Hwf.
  rewrite Hbody. simpl fst. simpl snd. simpl map_result.
  simpl in Hcs, Hro, Hco, Hchan. rewrite Hch in Hchan.
  unfold mat_well_formed in Hwf. rewrite Hro, Hco, Hchan in Hwf.
  exists (mkImageSequenceData (m_numberOfSamples sequence)
            [c; crop_size h w (trace_ratio tr); crop_size h w (trace_ratio tr)]
            (mat_data (trace_mat tr))
            (if negb (mat_continuous (trace_mat tr))
             then cv_clone (trace_mat tr) else trace_mat tr)
            (if negb (mat_continuous (trace_mat tr)) then None else Some sequence)),
    (trace_ratio tr).
  split.
  - destruct (mat_continuous (trace_mat tr)) eqn:Hcont; simpl negb; cbv iota.
    + rewrite Hcont, orb_true_r. simpl. rewrite Hro, Hco, Hchan. reflexivity.
    + simpl mat_continuous. rewrite orb_true_r. simpl.
      rewrite Hro, Hco, Hchan. reflexivity.
  - simpl. auto 10.
Qed.

Lemma crop_sample_layout_witness :
  exists res ratio,
    fst (SlimImageTransformerBase_Transform_sequence false (crop_base random_jitter)
           (SlimCropTransformer_Apply false random_jitter) gray_4x6 []) = Ok res /\
    d_leb (m_cropRatioMin random_jitter) ratio = true /\
    d_leb ratio (m_cropRatioMax random_jitter) = true /\
    0 <= crop_size 4 6 ratio <= Z.min 4 6 /\
    img_sampleLayout res = [1; crop_size 4 6 ratio; crop_size 4 6 ratio] /\
    length (img_data res) =
      (Z.to_nat (crop_size 4 6 ratio) * Z.to_nat (crop_size 4 6 ratio) * Z.to_nat 1)%nat /\
    img_numberOfSamples res = m_numberOfSamples gray_4x6.
Proof.
  apply (crop_sample_layout false TapeRandom IntegerImages random_jitter gray_4x6 []
           1 6 4).
  - unfold ratio_bounds_ok. repeat split; reflexivity.
  - right. reflexivity.
  - reflexivity.
  - lia.
  - unfold INT_MAX. lia.
  - unfold INT_MAX. lia.
Defined.

(** ** More on the transposition *)

Lemma size_mul_three (a b c : Z) :
  size_mul a (size_mul b (size_mul c 1)) = size_wrap (a * b * c).
Proof.
  unfold size_mul, size_wrap. rewrite Z.mul_1_r.
  rewrite Z.mul_mod_idemp_r by lia. rewrite Z.mul_assoc.
  rewrite Z.mul_mod_idemp_r by lia. reflexivity.
Qed.

(** The value of the transposition of a sample. *)
Lemma transpose_sequence_value (NDEBUG : bool) {cv : OpenCV}
    (t : SlimTransposeTransformer) (sequence : DenseSequenceData cv)
    (channelCount cols rows : Z) :
  m_sampleLayout (tr_inputStream t) = [channelCount; cols; rows] ->
  m_elementType (tr_inputStream t) = tfloat \/
  m_elementType (tr_inputStream t) = tdouble ->
  m_numberOfSamples sequence = 1 ->
  0 <= rows <= SIZE_MAX -> 0 <= cols <= SIZE_MAX -> 0 <= channelCount <= SIZE_MAX ->
  rows * cols <= SIZE_MAX ->
  rows * cols * channelCount * 8 <= SIZE_MAX ->
  length (m_data sequence) = Z.to_nat (rows * cols * channelCount) ->
  SlimTransposeTransformer_Transform_sequence NDEBUG t sequence =
  Ok (mkDenseSequenceWithBuffer 1 (m_sampleLayout (tr_outputStream t))
        (transpose_loops (rows * cols) channelCount (m_data sequence)
           (replicate (length (m_data sequence)) elt_zero))).
Proof.
  intros Hlayout Htype Hone Hrows Hcols Hchan Hrc Hmax Hlen.
  assert (Hrcn : 0 <= rows * cols) by (apply Z.mul_nonneg_nonneg; lia).
  assert (Hn : 0 <= rows * cols * channelCount) by (apply Z.mul_nonneg_nonneg; lia).
  assert (Hnum : GetNumElements [channelCount; cols; rows] = rows * cols * channelCount).
  { unfold GetNumElements. simpl. unfold size_mul.
    rewrite Z.mul_1_r, (size_wrap_id rows) by lia.
    rewrite (size_wrap_id (cols * rows)) by lia.
    rewrite size_wrap_id by lia. lia. }
  assert (Hbuf : forall esize, esize = 4 \/ esize = 8 ->
            Z.to_nat (size_mul (rows * cols * channelCount) esize / esize) =
            length (m_data sequence)).
  { intros esize He. unfold size_mul. rewrite size_wrap_id by lia.
    rewrite Z.div_mul by lia. lia. }
  assert (Hrow : size_mul rows cols = rows * cols).
  { unfold size_mul. apply size_wrap_id. lia. }
  unfold SlimTransposeTransformer_Transform_sequence,
    SlimTransposeTransformer_TypedApply.
  rewrite Hone, Z.eqb_refl, orb_true_r. simpl negb. cbv iota.
  rewrite Hlayout, Hnum. simpl ImageDimensions_of. cbv iota beta zeta.
  simpl m_height. simpl m_width. simpl m_numChannels. rewrite Hrow.
  destruct Htype as [-> | ->]; simpl GetSizeByType;
    rewrite Hbuf by auto; reflexivity.
Qed.

(** X9: the transposition keeps its promises.  After a successful
    negotiation of a stream of layout channels x width x height, the
    declared output layout is width x height x channels, with the same
    number of elements, and the transform of every single-sample
    sequence of a float or double stream carries exactly the declared
    layout, one sample and a buffer of as many elements as the input. *)
Theorem transpose_keeps_declared_layout (NDEBUG : bool) (cv : OpenCV)
    (inputStream outputStream : StreamDescription) (t : SlimTransposeTransformer)
    (sequence : DenseSequenceData cv) (channelCount cols rows : Z) :
  SlimTransposeTransformer_Transform inputStream = Ok (outputStream, t) ->
  m_sampleLayout inputStream = [channelCount; cols; rows] ->
  m_elementType inputStream = tfloat \/ m_elementType inputStream = tdouble ->
  m_numberOfSamples sequence = 1 ->
  0 <= rows <= SIZE_MAX -> 0 <= cols <= SIZE_MAX -> 0 <= channelCount <= SIZE_MAX ->
  rows * cols <= SIZE_MAX ->
  rows * cols * channelCount * 8 <= SIZE_MAX ->
  length (m_data sequence) = Z.to_nat (rows * cols * channelCount) ->
  m_sampleLayout outputStream = [cols; rows; channelCount] /\
  m_elementType outputStream = m_elementType inputStream /\
  GetNumElements (m_sampleLayout outputStream) =
    GetNumElements (m_sampleLayout inputStream) /\
  exists res,
    SlimTransposeTransformer_Transform_sequence NDEBUG t sequence = Ok res /\
    buf_sampleLayout res = m_sampleLayout outputStream /\
    buf_numberOfSamples res = 1 /\
    length (m_buffer res) = length (m_data sequence).
Proof.
  intros Hneg Hlayout Htype Hone Hrows Hcols Hchan Hrc Hmax Hlen.
  unfold SlimTransposeTransformer_Transform in Hneg.
  rewrite Hlayout in Hneg. simpl ImageDimensions_of in Hneg. cbv iota beta zeta in Hneg.
  destruct (negb _); [discriminate | ].
  injection Hneg as <- <-. simpl m_sampleLayout. simpl m_elementType.
  split; [reflexivity | ]. split; [reflexivity | ].
  split.
  { rewrite Hlayout. unfold GetNumElements. simpl.
    rewrite !size_mul_three. f_equal. lia. }
  eexists. split.
  - apply (transpose_sequence_value NDEBUG _ sequence channelCount cols rows);
      simpl; assumption.
  - simpl. split; [reflexivity | ]. split; [reflexivity | ].
    rewrite length_transpose_loops. apply length_replicate.
Qed.

Lemma transpose_keeps_declared_layout_witness :
  m_sampleLayout (mkStreamDescription dense tfloat [2; 2; 3]) = [2; 2; 3] /\
  m_elementType (mkStreamDescription dense tfloat [2; 2; 3]) =
    m_elementType (mkStreamDescription dense tfloat [3; 2; 2]) /\
  GetNumElements (m_sampleLayout (mkStreamDescription dense tfloat [2; 2; 3])) =
    GetNumElements (m_sampleLayout (mkStreamDescription dense tfloat [3; 2; 2])) /\
  exists res,
    SlimTransposeTransformer_Transform_sequence false
      (mkSlimTransposeTransformer (mkStreamDescription dense tfloat [3; 2; 2])
         (mkStreamDescription dense tfloat [2; 2; 3]))
      (mkDenseSequenceData (cv := IntegerImages) 0 1 [3; 2; 2] (seqZ 0 12)) = Ok res /\
    buf_sampleLayout res = m_sampleLayout (mkStreamDescription dense tfloat [2; 2; 3]) /\
    buf_numberOfSamples res = 1 /\
    length (m_buffer res) =
      length (m_data (mkDenseSequenceData (cv := IntegerImages) 0 1 [3; 2; 2] (seqZ 0 12))).
Proof.
  apply (transpose_keeps_declared_layout false IntegerImages
           (mkStreamDescription dense tfloat [3; 2; 2])
           (mkStreamDescription dense tfloat [2; 2; 3])
           (mkSlimTransposeTransformer (mkStreamDescription dense tfloat [3; 2; 2])
              (mkStreamDescription dense tfloat [2; 2; 3]))
           (mkDenseSequenceData (cv := IntegerImages) 0 1 [3; 2; 2] (seqZ 0 12))
           3 2 2).
  - reflexivity.
  - reflexivity.
  - left. reflexivity.
  - reflexivity.
  - unfold SIZE_MAX. lia.
  - unfold SIZE_MAX. lia.
  - unfold SIZE_MAX. lia.
  - unfold SIZE_MAX. lia.
  - unfold SIZE_MAX. lia.
  - reflexivity.
Defined.

Section TransposeTwice.
Context {cv : OpenCV}.

(** With one channel, or one pixel, the two loops copy the buffer. *)
Lemma transpose_loops_single_channel (R : Z) (src : list elt) :
  0 <= R <= SIZE_MAX -> length src = Z.to_nat R ->
  transpose_loops R 1 src (replicate (length src) elt_zero) = src.
Proof.
  intros HR Hlen. apply list_eq. intros i.
  destruct (decide (i < length src)%nat) as [Hi | Hi].
  - replace i with (Z.to_nat (0 * R + Z.of_nat i)) at 1 by lia.
    rewrite transpose_loops_lookup by (rewrite ?length_replicate; lia).
    replace (Z.to_nat (Z.of_nat i * 1 + 0)) with i by lia.
    destruct (lookup_lt_is_Some_2 src i Hi) as [x Hx]. rewrite Hx. reflexivity.
  - rewrite !lookup_ge_None_2; [reflexivity | lia | ].
    rewrite length_transpose_loops, length_replicate. lia.
Qed.

Lemma transpose_loops_single_pixel (C : Z) (src : list elt) :
  0 <= C <= SIZE_MAX -> length src = Z.to_nat C ->
  transpose_loops 1 C src (replicate (length src) elt_zero) = src.
Proof.
  intros HC Hlen. apply list_eq. intros i.
  destruct (decide (i < length src)%nat) as [Hi | Hi].
  - replace i with (Z.to_nat (Z.of_nat i * 1 + 0)) at 1 by lia.
    rewrite transpose_loops_lookup by (rewrite ?length_replicate; lia).
    replace (Z.to_nat (0 * C + Z.of_nat i)) with i by lia.
    destruct (lookup_lt_is_Some_2 src i Hi) as [x Hx]. rewrite Hx. reflexivity.
  - rewrite !lookup_ge_None_2; [reflexivity | lia | ].
    rewrite length_transpose_loops, length_replicate. lia.
Qed.

(** The loops with the positions and the channels exchanged undo the
    loops. *)
Lemma transpose_loops_twice (R C : Z) (src : list elt) :
  0 <= R -> 0 <= C -> R * C <= SIZE_MAX ->
  length src = Z.to_nat (R * C) ->
  transpose_loops C R
    (transpose_loops R C src (replicate (length src) elt_zero))
    (replicate (length src) elt_zero) = src.
Proof.
  intros HR HC Hmax Hlen. apply list_eq. intros i.
  destruct (decide (i < length src)%nat) as [Hi | Hi].
  - assert (Hj : 0 <= Z.of_nat i < R * C) by lia.
    assert (HCpos : 0 < C) by nia.
    pose proof (Z.div_mod (Z.of_nat i) C ltac:(lia)) as Hdm.
    pose proof (Z.mod_pos_bound (Z.of_nat i) C HCpos) as Hc.
    assert (Hp : 0 <= Z.of_nat i / C < R).
    { split; [apply Z.div_pos; lia | apply Z.div_lt_upper_bound; lia]. }
    set (p := Z.of_nat i / C) in *. set (c := Z.of_nat i mod C) in *.
    assert (Hidx : i = Z.to_nat (p * C + c)) by lia.
    rewrite Hidx at 1.
    rewrite transpose_loops_lookup
      by (try assumption; rewrite ?length_replicate; lia).
    rewrite transpose_loops_lookup
      by (try assumption; rewrite ?length_replicate; lia).
    simpl. rewrite <- Hidx.
    destruct (lookup_lt_is_Some_2 src i Hi) as [x Hx]. rewrite Hx. reflexivity.
  - rewrite !lookup_ge_None_2; [reflexivity | lia | ].
    rewrite length_transpose_loops, length_replicate. lia.
Qed.

End TransposeTwice.

(** X10: on a sample with one channel, and on a sample of one pixel, the
    transposition returns the buffer unchanged. *)
Theorem transpose_of_one_channel_is_a_copy (NDEBUG : bool) (cv : OpenCV)
    (t : SlimTransposeTransformer) (sequence : DenseSequenceData cv)
    (channelCount cols rows : Z) :
  m_sampleLayout (tr_inputStream t) = [channelCount; cols; rows] ->
  m_elementType (tr_inputStream t) = tfloat \/
  m_elementType (tr_inputStream t) = tdouble ->
  m_numberOfSamples sequence = 1 ->
  0 <= rows <= SIZE_MAX -> 0 <= cols <= SIZE_MAX -> 0 <= channelCount <= SIZE_MAX ->
  rows * cols <= SIZE_MAX ->
  rows * cols * channelCount * 8 <= SIZE_MAX ->
  length (m_data sequence) = Z.to_nat (rows * cols * channelCount) ->
  channelCount = 1 \/ rows * cols = 1 ->
  exists res,
    SlimTransposeTransformer_Transform_sequence NDEBUG t sequence = Ok res /\
    m_buffer res = m_data sequence.
Proof.
  intros Hlayout Htype Hone Hrows Hcols Hchan Hrc Hmax Hlen Hcase.
  eexists. split.
  - apply (transpose_sequence_value NDEBUG t sequence channelCount cols rows);
      assumption.
  - simpl. destruct Hcase as [Hc1 | Hp1].
    + subst channelCount. apply transpose_loops_single_channel; lia.
    + rewrite Hp1 in *. apply transpose_loops_single_pixel; lia.
Qed.

Lemma transpose_of_one_channel_is_a_copy_witness :
  exists res,
    SlimTransposeTransformer_Transform_sequence false
      (mkSlimTransposeTransformer gray_stream
         (mkStreamDescription dense tdouble [6; 4; 1])) gray_4x6 = Ok res /\
    m_buffer res = m_data gray_4x6.
Proof.
  apply (transpose_of_one_channel_is_a_copy false IntegerImages
           (mkSlimTransposeTransformer gray_stream
              (mkStreamDescription dense tdouble [6; 4; 1])) gray_4x6 1 6 4).
  - reflexivity.
  - right. reflexivity.
  - reflexivity.
  - unfold SIZE_MAX. lia.
  - unfold SIZE_MAX. lia.
  - unfold SIZE_MAX. lia.
  - unfold SIZE_MAX. lia.
  - unfold SIZE_MAX. lia.
  - reflexivity.
  - left. reflexivity.
Defined.

(** X11: the transposition is undone by the transposition itself on the
    shape that reads the positions as channels: a transform negotiated
    on the layout (rows * cols) x channels x 1 takes the planar buffer
    back to the interleaved one. *)
Theorem transpose_undone_by_transpose (NDEBUG : bool) (cv : OpenCV)
    (t t' : SlimTransposeTransformer) (sequence : DenseSequenceData cv)
    (id channelCount cols rows : Z) :
  m_sampleLayout (tr_inputStream t) = [channelCount; cols; rows] ->
  m_sampleLayout (tr_inputStream t') = [rows * cols; channelCount; 1] ->
  m_elementType (tr_inputStream t) = tfloat \/
  m_elementType (tr_inputStream t) = tdouble ->
  m_elementType (tr_inputStream t') = tfloat \/
  m_elementType (tr_inputStream t') = tdouble ->
  m_numberOfSamples sequence = 1 ->
  0 <= rows <= SIZE_MAX -> 0 <= cols <= SIZE_MAX -> 0 <= channelCount <= SIZE_MAX ->
  rows * cols <= SIZE_MAX ->
  rows * cols * channelCount * 8 <= SIZE_MAX ->
  length (m_data sequence) = Z.to_nat (rows * cols * channelCount) ->
  exists res res',
    SlimTransposeTransformer_Transform_sequence NDEBUG t sequence = Ok res /\
    SlimTransposeTransformer_Transform_sequence NDEBUG t'
      (DenseSequenceWithBuffer_base id res) = Ok res' /\
    m_buffer res' = m_data sequence.
Proof.
  intros Hlayout Hlayout' Htype Htype' Hone Hrows Hcols Hchan Hrc Hmax Hlen.
  assert (Hrcn : 0 <= rows * cols) by (apply Z.mul_nonneg_nonneg; lia).
  eexists. eexists. split; [ | split].
  - apply (transpose_sequence_value NDEBUG t sequence channelCount cols rows);
      assumption.
  - apply (transpose_sequence_value NDEBUG t' _ (rows * cols) channelCount 1);
      try assumption; try reflexivity; try (unfold SIZE_MAX in *; lia).
    simpl. rewrite length_transpose_loops, length_replicate. lia.
  - simpl. rewrite length_transpose_loops, length_replicate.
    replace (1 * channelCount) with channelCount by lia.
    apply transpose_loops_twice; try assumption; lia.
Qed.

Lemma transpose_undone_by_transpose_witness :
  exists res res',
    SlimTransposeTransformer_Transform_sequence false
      (mkSlimTransposeTransformer (mkStreamDescription dense tfloat [3; 2; 2])
         (mkStreamDescription dense tfloat [2; 2; 3]))
      (mkDenseSequenceData (cv := IntegerImages) 0 1 [3; 2; 2] (seqZ 0 12)) = Ok res /\
    SlimTransposeTransformer_Transform_sequence false
      (mkSlimTransposeTransformer (mkStreamDescription dense tfloat [2 * 2; 3; 1])
         (mkStreamDescription dense tfloat [3; 1; 2 * 2]))
      (DenseSequenceWithBuffer_base 0 res) = Ok res' /\
    m_buffer res' =
      m_data (mkDenseSequenceData (cv := IntegerImages) 0 1 [3; 2; 2] (seqZ 0 12)).
Proof.
  apply (transpose_undone_by_transpose false IntegerImages
           (mkSlimTransposeTransformer (mkStreamDescription dense tfloat [3; 2; 2])
              (mkStreamDescription dense tfloat [2; 2; 3]))
           (mkSlimTransposeTransformer (mkStreamDescription dense tfloat [2 * 2; 3; 1])
              (mkStreamDescription dense tfloat [3; 1; 2 * 2]))
           (mkDenseSequenceData (cv := IntegerImages) 0 1 [3; 2; 2] (seqZ 0 12))
           0 3 2 2).
  - reflexivity.
  - reflexivity.
  - left. reflexivity.
  - left. reflexivity.
  - reflexivity.
  - unfold SIZE_MAX. lia.
  - unfold SIZE_MAX. lia.
  - unfold SIZE_MAX. lia.
  - unfold SIZE_MAX. lia.
  - unfold SIZE_MAX. lia.
  - reflexivity.
Defined.

(** ** The crop of ratio one *)

Lemma int_to_double_canonical (z : Z) :
  0 < z < 2 ^ 53 ->
  exists m e,
    int_to_double z = S754_finite false m e /\
    Zpos (digits2_pos m) = 53 /\ -52 <= e <= 0 /\ Zpos m = z * 2 ^ (- e).
Proof.
  intros Hz. destruct z as [ | p | p]; try lia.
  pose proof (digits2_pos_bounds p) as [Hlo Hhi].
  assert (Hd : Zpos (digits2_pos p) <= 53).
  { destruct (Z.le_gt_cases (Zpos (digits2_pos p)) 53) as [ | Hgt]; [assumption | ].
    assert (2 ^ 53 <= 2 ^ (Zpos (digits2_pos p) - 1)) by (apply Z.pow_le_mono_r; lia).
    lia. }
  unfold int_to_double, binary_normalize, binary_round, shl_align.
  assert (Hf : fexp 53 1024 (Zpos (digits2_pos p) + 0) = Zpos (digits2_pos p) - 53)
    by (unfold fexp, emin; lia).
  rewrite Hf.
  destruct (Zpos (digits2_pos p) - 53 - 0) as [ | k | k] eqn:Hk; try lia.
  - exists p, 0. split; [ | split; [lia | split; [lia | simpl; lia]]].
    apply binary_round_aux_exact; lia.
  - exists (Pos.iter xO p k), (Zpos (digits2_pos p) - 53).
    assert (Hdk : Zpos (digits2_pos (Pos.iter xO p k)) = 53).
    { rewrite digits2_pos_iter_xO, Pos2Z.inj_add. lia. }
    split; [ | split; [exact Hdk | split; [lia | ]]].
    + apply binary_round_aux_exact; [exact Hdk | lia].
    + rewrite Pos_iter_xO. f_equal. f_equal. lia.
Qed.

(** Rounding a mantissa of 53 digits that was shifted to the left gives
    the mantissa back. *)
Lemma binary_round_aux_shifted (s : bool) (m d : positive) (e : Z) :
  Zpos (digits2_pos m) = 53 -> -1074 <= e <= 971 ->
  binary_round_aux 53 1024 s (Zpos (Pos.iter xO m d)) (e - Zpos d) loc_Exact =
  S754_finite s m e.
Proof.
  intros Hd He. unfold binary_round_aux.
  destruct (shr_fexp_shifted (Zpos (Pos.iter xO m d)) (e - Zpos d) ltac:(lia))
    as (k1 & Hk1 & Hk1eq & He1 & Hsh1).
  destruct (shr_fexp 53 1024 (Zpos (Pos.iter xO m d)) (e - Zpos d) loc_Exact)
    as [mrs1 e1].
  simpl in He1, Hsh1.
  assert (Hk : k1 = Zpos d).
  { rewrite Hk1eq. simpl Zdigits2. rewrite digits2_pos_iter_xO, Pos2Z.inj_add, Hd.
    unfold fexp, emin. lia. }
  clear Hk1eq. subst k1.
  assert (Hdiv : Zpos (Pos.iter xO m d) / 2 ^ Zpos d = Zpos m).
  { rewrite Pos_iter_xO. apply Z.div_mul. apply Z.pow_nonzero; lia. }
  assert (Hmod : Zpos (Pos.iter xO m d) mod 2 ^ Zpos d = 0).
  { rewrite Pos_iter_xO. apply Z.mod_mul. apply Z.pow_nonzero; lia. }
  pose proof (round_nearest_even_bounds _ _ _ Hsh1) as [_ Hround].
  rewrite (Hround Hmod). destruct Hsh1 as [Hm1 _]. rewrite Hm1, Hdiv.
  replace e1 with e by lia.
  assert (Hf : fexp 53 1024 (53 + e) - e = 0) by (unfold fexp, emin; lia).
  unfold shr_fexp. simpl Zdigits2. rewrite Hd, Hf. simpl.
  destruct (Z.leb_spec e (1024 - 53)); [reflexivity | lia].
Qed.

Lemma d_mul_one (m : positive) (e : Z) :
  Zpos (digits2_pos m) = 53 -> -1022 <= e <= 971 ->
  d_mul (S754_finite false m e) d_one = S754_finite false m e.
Proof.
  intros Hd He. unfold d_mul, d_one, SFmul. simpl xorb.
  assert (Hm : (m * 4503599627370496)%positive = Pos.iter xO m 52).
  { apply Pos2Z.inj. rewrite Pos_iter_xO, Pos2Z.inj_mul. reflexivity. }
  rewrite Hm.
  replace (e + -52) with (e - Zpos 52) by lia.
  apply binary_round_aux_shifted; [exact Hd | lia].
Qed.

Lemma crop_size_full (crow ccol : Z) :
  0 < crow <= INT_MAX -> 0 < ccol <= INT_MAX ->
  crop_size crow ccol d_one = Z.min crow ccol.
Proof.
  unfold INT_MAX. intros Hrow Hcol. unfold crop_size.
  destruct (int_to_double_canonical (Z.min crow ccol) ltac:(lia))
    as (m & e & -> & Hd & He & Hm).
  rewrite d_mul_one by (try assumption; lia).
  unfold double_to_int, d_trunc. simpl cond_Zopp.
  assert (Hval : (if 0 <=? e then Zpos m * 2 ^ e else Zpos m / 2 ^ (- e)) =
                 Z.min crow ccol).
  { destruct (Z.leb_spec 0 e).
    - assert (e = 0) by lia. subst e. simpl in Hm. lia.
    - rewrite Hm. apply Z.div_mul. apply Z.pow_nonzero; lia. }
  rewrite Hval.
  rewrite in_int_range_true by (unfold is_int, INT_MIN, INT_MAX; lia).
  reflexivity.
Qed.

Lemma in_unit_interval_one : in_unit_interval d_one = true.
Proof. reflexivity. Qed.

(** X12: with the ratio 1.0, the default of [cropRatio], the crop is the
    largest square of the image: its side is min(rows, cols) exactly,
    since the product with 1.0 is not rounded, and it starts at the
    border along the shorter dimension, for every crop strategy and
    every view. *)
Theorem full_ratio_crop (NDEBUG : bool) (rnd : RandomLib) (type : CropType.t)
    (viewIndex crow ccol : Z) (rng : mt19937) :
  0 < crow <= INT_MAX -> 0 < ccol <= INT_MAX ->
  viewIndex_allowed type viewIndex \/ (NDEBUG = true /\ 0 <= viewIndex) ->
  exists rect,
    fst (GetCropRect NDEBUG type viewIndex crow ccol d_one rng) = Ok rect /\
    rect_width rect = Z.min crow ccol /\
    rect_height rect = Z.min crow ccol /\
    (ccol <= crow -> rect_x rect = 0) /\
    (crow <= ccol -> rect_y rect = 0).
Proof.
  intros Hrow Hcol Hview.
  destruct (GetCropRect_value NDEBUG type viewIndex crow ccol d_one rng Hrow Hcol
              eq_refl in_unit_interval_one Hview)
    as (Hg & Hcs & Hx & Hy).
  rewrite Hg. simpl fst. rewrite crop_size_full in * by assumption.
  eexists. split; [reflexivity | ]. simpl.
  split; [reflexivity | ]. split; [reflexivity | ].
  split; intros Hle; lia.
Qed.

Lemma full_ratio_crop_witness :
  exists rect,
    fst (GetCropRect false CropType.Random 0 4 6 d_one [7; 12345]) = Ok rect /\
    rect_width rect = Z.min 4 6 /\
    rect_height rect = Z.min 4 6 /\
    (6 <= 4 -> rect_x rect = 0) /\
    (4 <= 6 -> rect_y rect = 0).
Proof.
  apply (full_ratio_crop false TapeRandom CropType.Random 0 4 6 [7; 12345]).
  - unfold INT_MAX. lia.
  - unfold INT_MAX. lia.
  - left. reflexivity.
Defined.

(** ** The ten views *)

Lemma GetCropRect_MultiView10_mirror (NDEBUG : bool) {rnd : RandomLib}
    (v crow ccol : Z) (ratio : double) (g : mt19937) :
  0 <= v < 5 ->
  GetCropRect NDEBUG CropType.MultiView10 (v + 5) crow ccol ratio g =
  GetCropRect NDEBUG CropType.MultiView10 v crow ccol ratio g.
Proof.
  intros Hv.
  assert (Hcases : v = 0 \/ v = 1 \/ v = 2 \/ v = 3 \/ v = 4) by lia.
  destruct Hcases as [-> | [-> | [-> | [-> | ->]]]]; reflexivity.
Qed.

Lemma view_mod_mirror (id : Z) :
  0 <= id -> id mod 10 < 5 -> (id + 5) mod 10 = id mod 10 + 5.
Proof.
  intros Hid Hlt.
  pose proof (Z.div_mod id 10 ltac:(lia)) as Hdm.
  pose proof (Z.mod_pos_bound id 10 ltac:(lia)) as Hb.
  symmetry. apply (Z.mod_unique_pos (id + 5) 10 (id / 10)); lia.
Qed.

(** X13: the views 5-9 are the mirror images of the views 0-4.  In
    MultiView10 mode without the coin and with a ratio that is not
    drawn, the sample [id + 5] of a sample [id] with view below 5 gets
    the same rectangle, and its image is the horizontal flip of the
    image of [id], which is not flipped. *)
Theorem MultiView10_mirrored_views (NDEBUG : bool) (rnd : RandomLib) (cv : OpenCV)
    (t : SlimCropTransformer) (id : Z) (mat : Mat cv)
    (m_rngs1 m_rngs2 : list mt19937) (tr : CropTrace) :
  m_cropType t = CropType.MultiView10 ->
  m_hFlip t = false ->
  m_jitterType t <> RatioJitterType.UniRatio \/
  d_eqb (m_cropRatioMin t) (m_cropRatioMax t) = true ->
  0 <= id -> id + 5 <= SIZE_MAX -> id mod 10 < 5 ->
  fst (SlimCropTransformer_Apply_trace NDEBUG t id mat m_rngs1) = Ok tr ->
  trace_flip tr = false /\
  exists cropped,
    cv_roi mat (trace_rect tr) = Ok cropped /\
    trace_mat tr = cropped /\
    fst (SlimCropTransformer_Apply_trace NDEBUG t (id + 5) mat m_rngs2) =
    Ok (mkCropTrace (trace_ratio tr) (trace_viewIndex tr + 5) (trace_rect tr) true
          (cv_flip_horizontal cropped)).
Proof.
  intros Htype Hflip Hfixed Hid Hmax Hlt.
  pose proof (Z.mod_pos_bound id 10 ltac:(lia)) as Hv.
  unfold SlimCropTransformer_Apply_trace. rewrite !fst_with_rng.
  set (g1 := fst (pop_or_create _ m_rngs1)).
  set (g2 := fst (pop_or_create _ m_rngs2)).
  rewrite !Apply_body_MultiView10 by assumption.
  rewrite !view_of_id by lia. rewrite view_mod_mirror by assumption.
  rewrite (jitter_ratio_fixed NDEBUG t g2 g1 Hfixed).
  destruct (fst (jitter_ratio NDEBUG t g1)) as [ratio | e]; [ | discriminate].
  unfold multiview_outcome.
  rewrite GetCropRect_MultiView10_mirror by lia.
  destruct (fst (GetCropRect _ _ _ _ _ _ _)) as [rect | e]; [ | discriminate].
  destruct (cv_roi mat rect) as [cropped | e] eqn:Hroi; [ | discriminate].
  destruct (Z.leb_spec 5 (id mod 10)); [lia | ].
  destruct (Z.leb_spec 5 (id mod 10 + 5)); [ | lia].
  intros Htr. injection Htr as <-. simpl.
  split; [reflexivity | ]. exists cropped. rewrite Hroi. auto.
Qed.

Lemma MultiView10_mirrored_views_witness :
  trace_flip multiview_view_2 = false /\
  exists cropped,
    cv_roi image_4x6 (trace_rect multiview_view_2) = Ok cropped /\
    trace_mat multiview_view_2 = cropped /\
    fst (SlimCropTransformer_Apply_trace false multiview_fixed (12 + 5) image_4x6
           [[1; 2; 3]]) =
    Ok (mkCropTrace (trace_ratio multiview_view_2)
          (trace_viewIndex multiview_view_2 + 5) (trace_rect multiview_view_2) true
          (cv_flip_horizontal cropped)).
Proof.
  apply (MultiView10_mirrored_views false TapeRandom IntegerImages multiview_fixed 12
           image_4x6 [] [[1; 2; 3]] multiview_view_2).
  - reflexivity.
  - reflexivity.
  - left. discriminate.
  - lia.
  - unfold SIZE_MAX. lia.
  - reflexivity.
  - reflexivity.
Defined.

(** ** The channels of the scale configuration *)

Lemma cv_convertTo_same_depth {cv : OpenCV} (m : Mat cv) (rtype : Z) :
  mat_depth m = Z.land rtype 7 -> cv_convertTo m rtype = m.
Proof. intros H. unfold cv_convertTo. rewrite H, Z.eqb_refl. reflexivity. Qed.

(** X14: on the buffers [Transform] builds, the configured number of
    channels has no effect on the scale transform.  The buffer has the
    depth of the negotiated element type, so whether or not its type is
    the expected one, the conversion leaves it as it is: two transforms
    that differ only in [m_imgChannels] give the same result. *)
Theorem scale_ignores_configured_channels (NDEBUG : bool) (rnd : RandomLib)
    (cv : OpenCV) (t : SlimScaleTransformer) (channels' : Z)
    (sequence : DenseSequenceData cv) (m_rngs : list mt19937) (c w h : Z) :
  seq_sampleLayout sequence = [c; w; h] ->
  1 <= c <= 512 ->
  SlimImageTransformerBase_Transform_sequence NDEBUG (scale_base t)
    (SlimScaleTransformer_Apply NDEBUG
       (mkSlimScaleTransformer (scale_base t) (m_imgWidth t) (m_imgHeight t)
          channels' (m_interp t)))
    sequence m_rngs =
  SlimImageTransformerBase_Transform_sequence NDEBUG (scale_base t)
    (SlimScaleTransformer_Apply NDEBUG t) sequence m_rngs.
Proof.
  intros Hlayout Hc.
  unfold SlimImageTransformerBase_Transform_sequence.
  rewrite Hlayout. simpl ImageDimensions_of. cbv iota beta zeta. simpl m_width.
  simpl m_height. simpl m_numChannels.
  rewrite (int_wrap_id c) by (unfold is_int, INT_MIN, INT_MAX; lia).
  destruct (CV_MAKETYPE_channels (m_imageElementType (scale_base t)) c Hc)
    as [Hch Hdepth].
  set (buffer := cv_Mat_on _ _ _ (m_data sequence)).
  assert (Hsame : SlimScaleTransformer_Apply NDEBUG
                    (mkSlimScaleTransformer (scale_base t) (m_imgWidth t)
                       (m_imgHeight t) channels' (m_interp t))
                    (m_id sequence) buffer m_rngs =
                  SlimScaleTransformer_Apply NDEBUG t (m_id sequence) buffer m_rngs).
  { unfold SlimScaleTransformer_Apply. cbv zeta. simpl scale_base. simpl m_imgChannels.
    simpl m_interp. simpl m_imgWidth. simpl m_imgHeight.
    rewrite (cv_convertTo_same_depth buffer) by exact Hdepth.
    destruct (negb _), (negb _); reflexivity. }
  rewrite Hsame. reflexivity.
Qed.

Lemma scale_ignores_configured_channels_witness :
  SlimImageTransformerBase_Transform_sequence false (scale_base scale_2x2x3)
    (SlimScaleTransformer_Apply false
       (mkSlimScaleTransformer (scale_base scale_2x2x3) (m_imgWidth scale_2x2x3)
          (m_imgHeight scale_2x2x3) 1 (m_interp scale_2x2x3)))
    gray_4x6 [] =
  SlimImageTransformerBase_Transform_sequence false (scale_base scale_2x2x3)
    (SlimScaleTransformer_Apply false scale_2x2x3) gray_4x6 [].
Proof.
  apply (scale_ignores_configured_channels false TapeRandom IntegerImages scale_2x2x3
           1 gray_4x6 [] 1 6 4).
  - reflexivity.
  - lia.
Defined.

(** ** The mean transform without a mean file *)

Lemma mean_released_is_noop (NDEBUG : bool) {cv : OpenCV} (t : SlimMeanTransformer)
    (id : Z) (mat : Mat cv) :
  m_meanImg t = mat_released -> mat_size mat <> (0, 0) ->
  SlimMeanTransformer_Apply NDEBUG t id mat = Ok mat.
Proof.
  intros Hmean Hne. unfold SlimMeanTransformer_Apply. rewrite Hmean.
  change (size_eqb (mat_size mat_released) (0, 0)) with true.
  rewrite orb_true_r. simpl negb. cbv iota.
  destruct (size_eqb (mat_size mat_released) (mat_size mat)) eqn:H; [ | reflexivity].
  apply size_eqb_eq in H. unfold mat_released, mat_size in H. simpl in H.
  exfalso. apply Hne. unfold mat_size. congruence.
Qed.

(** X15: a mean transform configured without a mean file passes every
    sample through.  After the negotiation of a stream, which returns
    the stream as it is, the transform of a sample of layout
    channels x width x height (all positive) succeeds in every build and
    returns the data, the layout and the number of samples of the input,
    keeps the input alive, and leaves the pool of generators alone; the
    image has the depth of the element type of the stream. *)
Theorem mean_without_file_passes_samples (NDEBUG : bool) (rnd : RandomLib)
    (cv : OpenCV) (seed : option Z) (inputStream outputStream : StreamDescription)
    (b' : SlimImageTransformerBase) (sequence : DenseSequenceData cv)
    (m_rngs : list mt19937) (c w h : Z) :
  SlimImageTransformerBase_Transform
    (mean_base (SlimMeanTransformer_new_without_file (cv := cv) seed)) inputStream
    = (Ok outputStream, b') ->
  seq_sampleLayout sequence = [c; w; h] ->
  1 <= c <= 512 -> 0 < w <= INT_MAX -> 0 < h <= INT_MAX ->
  outputStream = inputStream /\
  exists res,
    SlimImageTransformerBase_Transform_sequence NDEBUG b'
      (fun id mat pool =>
         (SlimMeanTransformer_Apply NDEBUG (mkSlimMeanTransformer b' mat_released) id mat,
          pool))
      sequence m_rngs = (Ok res, m_rngs) /\
    img_data res = m_data sequence /\
    img_sampleLayout res = [c; w; h] /\
    img_numberOfSamples res = m_numberOfSamples sequence /\
    m_original res = Some sequence /\
    mat_depth (m_image res) =
      match m_elementType inputStream with tdouble => CV_64F | _ => CV_32F end.
Proof.
  intros Hneg Hlayout Hc Hw Hh.
  assert (Hb : outputStream = inputStream /\
               m_imageElementType b' =
               match m_elementType inputStream with tdouble => CV_64F | _ => CV_32F end).
  { unfold SlimImageTransformerBase_Transform in Hneg.
    destruct (negb _); [discriminate | ].
    destruct (m_elementType inputStream); try discriminate;
      injection Hneg as <- <-; split; reflexivity. }
  destruct Hb as [Hout Het]. split; [exact Hout | ].
  unfold SlimImageTransformerBase_Transform_sequence.
  rewrite Hlayout. simpl ImageDimensions_of. cbv iota beta zeta. simpl m_width.
  simpl m_height. simpl m_numChannels.
  rewrite !int_wrap_id by (unfold is_int, INT_MIN, INT_MAX in *; lia).
  destruct (CV_MAKETYPE_channels (m_imageElementType b') c Hc) as [Hch Hdepth].
  set (buffer := cv_Mat_on h w _ (m_data sequence)).
  rewrite (mean_released_is_noop NDEBUG (mkSlimMeanTransformer b' mat_released)
             (m_id sequence) buffer eq_refl).
  2: { unfold mat_size, buffer. simpl. intros H. injection H as H1 H2. lia. }
  simpl mat_continuous. simpl negb. cbv iota. rewrite orb_true_r. simpl negb.
  cbv iota. eexists. split; [reflexivity | ]. simpl.
  rewrite Hch, Hdepth, Het.
  repeat split. destruct (m_elementType inputStream); reflexivity.
Qed.

Lemma mean_without_file_passes_samples_witness :
  gray_stream = gray_stream /\
  exists res,
    SlimImageTransformerBase_Transform_sequence false
      (mkSlimImageTransformerBase 0 (Some gray_stream) (Some gray_stream) CV_64F)
      (fun id mat pool =>
         (SlimMeanTransformer_Apply false
            (mkSlimMeanTransformer
               (mkSlimImageTransformerBase 0 (Some gray_stream) (Some gray_stream) CV_64F)
               mat_released) id mat,
          pool))
      gray_4x6 [] = (Ok res, []) /\
    img_data res = m_data gray_4x6 /\
    img_sampleLayout res = [1; 6; 4] /\
    img_numberOfSamples res = m_numberOfSamples gray_4x6 /\
    m_original res = Some gray_4x6 /\
    mat_depth (m_image res) =
      match m_elementType gray_stream with tdouble => CV_64F | _ => CV_32F end.
Proof.
  apply (mean_without_file_passes_samples false TapeRandom IntegerImages None
           gray_stream gray_stream
           (mkSlimImageTransformerBase 0 (Some gray_stream) (Some gray_stream) CV_64F)
           gray_4x6 [] 1 6 4).
  - reflexivity.
  - reflexivity.
  - lia.
  - unfold INT_MAX. lia.
  - unfold INT_MAX. lia.
Defined.

(** ** Crops that use no random number *)

Lemma GetCropRect_pure (NDEBUG : bool) {rnd : RandomLib} (type : CropType.t)
    (viewIndex crow ccol : Z) (ratio : double) :
  type <> CropType.Random ->
  exists res, forall g,
    GetCropRect NDEBUG type viewIndex crow ccol ratio g = (res, g).
Proof.
  intros Htype. destruct type; [ | congruence | ];
    unfold GetCropRect, bind, assert_, ret, throw; cbv zeta;
    repeat match goal with
           | |- context [if ?b then _ else _] => destruct b
           end;
    eexists; intros g; reflexivity.
Qed.

Lemma jitter_ratio_pure (NDEBUG : bool) {rnd : RandomLib} (t : SlimCropTransformer) :
  m_jitterType t <> RatioJitterType.UniRatio \/
  d_eqb (m_cropRatioMin t) (m_cropRatioMax t) = true ->
  exists res, forall g, jitter_ratio NDEBUG t g = (res, g).
Proof.
  unfold jitter_ratio. intros [H | H].
  - destruct (m_jitterType t); try congruence; eexists; intros g; reflexivity.
  - rewrite H. destruct (m_jitterType t); eexists; intros g; reflexivity.
Qed.

Lemma Apply_body_pure (NDEBUG : bool) {rnd : RandomLib} {cv : OpenCV}
    (t : SlimCropTransformer) (id : Z) (mat : Mat cv) :
  m_cropType t <> CropType.Random -> m_hFlip t = false ->
  m_jitterType t <> RatioJitterType.UniRatio \/
  d_eqb (m_cropRatioMin t) (m_cropRatioMax t) = true ->
  exists res, forall g, SlimCropTransformer_Apply_body NDEBUG t id mat g = (res, g).
Proof.
  intros Htype Hflip Hfixed.
  destruct (jitter_ratio_pure NDEBUG t Hfixed) as [[ratio | e] Hj].
  - set (v := if CropType.eqb (m_cropType t) CropType.MultiView10
              then int_wrap (size_wrap id mod 10) else 0).
    destruct (GetCropRect_pure NDEBUG (m_cropType t) v (mat_rows mat) (mat_cols mat)
                ratio Htype) as [[rect | e] Hg].
    + destruct (cv_roi mat rect) as [cropped | e] eqn:Hroi.
      * eexists. intros g. unfold SlimCropTransformer_Apply_body.
        unfold bind at 1. rewrite Hj. cbv zeta. fold v.
        unfold bind at 1. rewrite Hg. unfold bind at 1, lift. rewrite Hroi, Hflip.
        reflexivity.
      * exists (Throw e). intros g. unfold SlimCropTransformer_Apply_body.
        unfold bind at 1. rewrite Hj. cbv zeta. fold v.
        unfold bind at 1. rewrite Hg. unfold bind at 1, lift. rewrite Hroi.
        reflexivity.
    + exists (Throw e). intros g. unfold SlimCropTransformer_Apply_body.
      unfold bind at 1. rewrite Hj. cbv zeta. fold v.
      unfold bind at 1. rewrite Hg. reflexivity.
  - exists (Throw e). intros g. unfold SlimCropTransformer_Apply_body.
    unfold bind at 1. rewrite Hj. reflexivity.
Qed.

(** X16: a crop that is not Random, without the coin and with a ratio
    that is not drawn, uses no random number: its result is the same
    whatever the pool of generators holds, and when it succeeds on a
    pool that is not empty, the pool is afterwards exactly as it was.
    For the Center crop the result does not depend on the sample id
    either. *)
Theorem crop_without_random_numbers (NDEBUG : bool) (rnd : RandomLib) (cv : OpenCV)
    (t : SlimCropTransformer) (id : Z) (mat : Mat cv) :
  m_cropType t <> CropType.Random -> m_hFlip t = false ->
  m_jitterType t <> RatioJitterType.UniRatio \/
  d_eqb (m_cropRatioMin t) (m_cropRatioMax t) = true ->
  (forall m_rngs1 m_rngs2,
     fst (SlimCropTransformer_Apply NDEBUG t id mat m_rngs1) =
     fst (SlimCropTransformer_Apply NDEBUG t id mat m_rngs2)) /\
  (forall g rest out,
     fst (SlimCropTransformer_Apply NDEBUG t id mat (g :: rest)) = Ok out ->
     snd (SlimCropTransformer_Apply NDEBUG t id mat (g :: rest)) = g :: rest) /\
  (m_cropType t = CropType.Center ->
   forall id' m_rngs m_rngs',
     fst (SlimCropTransformer_Apply NDEBUG t id mat m_rngs) =
     fst (SlimCropTransformer_Apply NDEBUG t id' mat m_rngs')).
Proof.
  intros Htype Hflip Hfixed.
  destruct (Apply_body_pure NDEBUG t id mat Htype Hflip Hfixed) as [res Hres].
  unfold SlimCropTransformer_Apply, SlimCropTransformer_Apply_trace. simpl fst.
  simpl snd.
  split; [ | split].
  - intros m_rngs1 m_rngs2. rewrite !fst_with_rng, !Hres. reflexivity.
  - intros g rest out. unfold with_rng. simpl pop_or_create. cbv iota beta.
    rewrite Hres. destruct res as [tr | e]; [reflexivity | discriminate].
  - intros Hcenter id' m_rngs m_rngs'.
    destruct (Apply_body_pure NDEBUG t id' mat Htype Hflip Hfixed) as [res' Hres'].
    rewrite !fst_with_rng, Hres, Hres'. simpl fst.
    pose proof (Hres (mt19937_seed 0)) as H1.
    pose proof (Hres' (mt19937_seed 0)) as H2.
    unfold SlimCropTransformer_Apply_body in H1, H2.
    rewrite Hcenter in H1, H2. simpl CropType.eqb in H1, H2. cbv iota in H1, H2.
    congruence.
Qed.

Lemma crop_without_random_numbers_witness :
  (forall m_rngs1 m_rngs2,
     fst (SlimCropTransformer_Apply false half_crop 3 image_4x6 m_rngs1) =
     fst (SlimCropTransformer_Apply false half_crop 3 image_4x6 m_rngs2)) /\
  (forall g rest out,
     fst (SlimCropTransformer_Apply false half_crop 3 image_4x6 (g :: rest)) = Ok out ->
     snd (SlimCropTransformer_Apply false half_crop 3 image_4x6 (g :: rest)) = g :: rest) /\
  (m_cropType half_crop = CropType.Center ->
   forall id' m_rngs m_rngs',
     fst (SlimCropTransformer_Apply false half_crop 3 image_4x6 m_rngs) =
     fst (SlimCropTransformer_Apply false half_crop id' image_4x6 m_rngs')).
Proof.
  apply (crop_without_random_numbers false TapeRandom IntegerImages half_crop 3
           image_4x6).
  - discriminate.
  - reflexivity.
  - right. reflexivity.
Defined.

(** ** Target sizes that do not fit an [int] *)


(** X17: the check of the dimensions in the constructor of the scale
    transform does not cover the casts to [int] in [Apply].  For a
    transform the constructor returned, whose width or height is zero or
    negative once cast to [int] (a multiple of 2^32, say), every [Apply]
    fails with the error of [cv::resize], whatever the image, the
    negotiated element type and the generators. *)
Theorem scale_fails_on_wrapped_size (NDEBUG : bool) (rnd : RandomLib) (cv : OpenCV)
    (config : ScaleConfig) (t : SlimScaleTransformer) (b : SlimImageTransformerBase)
    (id : Z) (mat : Mat cv) (m_rngs : list mt19937) :
  SlimScaleTransformer_new config = Ok t ->
  Z.of_nat (length (m_interp t)) <= INT_MAX ->
  int_wrap (scfg_width config) <= 0 \/ int_wrap (scfg_height config) <= 0 ->
  fst (SlimScaleTransformer_Apply NDEBUG
         (mkSlimScaleTransformer b (m_imgWidth t) (m_imgHeight t) (m_imgChannels t)
            (m_interp t))
         id mat m_rngs) = Throw CvException.
Proof.
  intros Hnew Hlen Hsize.
  destruct (SlimScaleTransformer_new_fields config t Hnew) as (Hw & Hh & _ & Hne).
  unfold SlimScaleTransformer_Apply. cbv zeta. simpl scale_base. simpl m_imgChannels.
  simpl m_interp. simpl m_imgWidth. simpl m_imgHeight.
  set (mat1 := if negb _ then _ else mat).
  rewrite fst_with_rng. set (g := fst (pop_or_create _ m_rngs)).
  assert (Hpos : 0 < Z.of_nat (length (m_interp t))).
  { destruct (m_interp t); [congruence | simpl; lia]. }
  rewrite bind_draw.
  rewrite check_ok by (right; apply Z.ltb_lt; exact Hpos).
  unfold lift, cv_resize. simpl fst. rewrite Hw, Hh.
  destruct Hsize as [Hle | Hle]; apply Z.leb_le in Hle; rewrite Hle;
    rewrite ?orb_true_r; reflexivity.
Qed.

Lemma scale_fails_on_wrapped_size_witness :
  fst (SlimScaleTransformer_Apply false
         (mkSlimScaleTransformer
            (mkSlimImageTransformerBase 0 (Some gray_stream) (Some gray_stream) CV_64F)
            (m_imgWidth scale_too_wide) (m_imgHeight scale_too_wide)
            (m_imgChannels scale_too_wide) (m_interp scale_too_wide))
         7 image_4x6 []) = Throw CvException.
Proof.
  apply (scale_fails_on_wrapped_size false TapeRandom IntegerImages
           scale_too_wide_config scale_too_wide
           (mkSlimImageTransformerBase 0 (Some gray_stream) (Some gray_stream) CV_64F)
           7 image_4x6 []).
  - reflexivity.
  - unfold INT_MAX. simpl. lia.
  - left. vm_compute. discriminate.
Defined.
